(** * Verification of the paper verifier ([mcp_paper_verification/verifier.py])

    A shallow embedding of the analyzers of [PaperVerifier] and of
    [WebSearchAPI.search_reference], and the properties of them that the
    specification states.

    Conventions of the embedding.
    - A Python [str] is the list of its code points ([pystr]); [len] is
      [length].  Literals are written as UTF-8 string literals and decoded
      by [U].
    - The character classes that Python takes from the Unicode database
      ([str.isspace], [str.isdigit], [\s], [\d], [\w]) are the tables of
      Unicode 14.0.0, the database of CPython 3.11.
    - Python [int]s are [Z]; Python [float]s are binary64 primitive floats.
    - A returned [dict] is an association list in insertion order.
    - Every message built by an f-string is a constructor of [issue] (or of
      [search_error]) that carries the interpolated values; the fixed text
      of the message is given in the comment of the constructor.
    - The file system, the network and the two parsers of third parties
      ([json.loads], [bibtexparser.loads]) are not part of the program:
      their outcomes are inputs of the model. *)

From Stdlib Require Import List ZArith NArith Bool String Ascii Lia.
From Stdlib Require Import Floats Uint63 Sorted Permutation.
Import ListNotations.

Set Implicit Arguments.
#[local] Set Warnings "-inexact-float,-register-all".

(** * Python strings *)

Definition pystr := list N.

Module Utf8.

(** Decoder of the UTF-8 literals of this file into code points. *)
Fixpoint decode (s : string) (need : nat) (acc : N) : pystr :=
  match s with
  | EmptyString => []
  | String a rest =>
      let b := N_of_ascii a in
      match need with
      | O =>
          if (b <? 0x80)%N then b :: decode rest 0 0%N
          else if (b <? 0xE0)%N then decode rest 1 (N.land b 0x1F)
          else if (b <? 0xF0)%N then decode rest 2 (N.land b 0x0F)
          else decode rest 3 (N.land b 0x07)
      | S O => (acc * 64 + N.land b 0x3F)%N :: decode rest 0 0%N
      | S n => decode rest n (acc * 64 + N.land b 0x3F)%N
      end
  end.

End Utf8.

Definition U (s : string) : pystr := Utf8.decode s 0 0%N.

(** The code point of a one-character literal. *)
Definition chr (s : string) : N := hd 0%N (U s).

Module Unicode.

(** Code points for which [str.isspace] holds; also the class [\s] of [re]. *)
Definition space_ranges : list (N * N) :=
  [(0x9, 0xd); (0x1c, 0x20); (0x85, 0x85); (0xa0, 0xa0); (0x1680, 0x1680);
   (0x2000, 0x200a); (0x2028, 0x2029); (0x202f, 0x202f); (0x205f, 0x205f);
   (0x3000, 0x3000)]%N.

(** Code points for which [str.isdecimal] holds; also the class [\d] of [re]. *)
Definition decimal_ranges : list (N * N) :=
  [(0x30, 0x39); (0x660, 0x669); (0x6f0, 0x6f9); (0x7c0, 0x7c9);
   (0x966, 0x96f); (0x9e6, 0x9ef); (0xa66, 0xa6f); (0xae6, 0xaef);
   (0xb66, 0xb6f); (0xbe6, 0xbef); (0xc66, 0xc6f); (0xce6, 0xcef);
   (0xd66, 0xd6f); (0xde6, 0xdef); (0xe50, 0xe59); (0xed0, 0xed9);
   (0xf20, 0xf29); (0x1040, 0x1049); (0x1090, 0x1099); (0x17e0, 0x17e9);
   (0x1810, 0x1819); (0x1946, 0x194f); (0x19d0, 0x19d9); (0x1a80, 0x1a89);
   (0x1a90, 0x1a99); (0x1b50, 0x1b59); (0x1bb0, 0x1bb9); (0x1c40, 0x1c49);
   (0x1c50, 0x1c59); (0xa620, 0xa629); (0xa8d0, 0xa8d9); (0xa900, 0xa909);
   (0xa9d0, 0xa9d9); (0xa9f0, 0xa9f9); (0xaa50, 0xaa59); (0xabf0, 0xabf9);
   (0xff10, 0xff19); (0x104a0, 0x104a9); (0x10d30, 0x10d39);
   (0x11066, 0x1106f); (0x110f0, 0x110f9); (0x11136, 0x1113f);
   (0x111d0, 0x111d9); (0x112f0, 0x112f9); (0x11450, 0x11459);
   (0x114d0, 0x114d9); (0x11650, 0x11659); (0x116c0, 0x116c9);
   (0x11730, 0x11739); (0x118e0, 0x118e9); (0x11950, 0x11959);
   (0x11c50, 0x11c59); (0x11d50, 0x11d59); (0x11da0, 0x11da9);
   (0x16a60, 0x16a69); (0x16ac0, 0x16ac9); (0x16b50, 0x16b59);
   (0x1d7ce, 0x1d7ff); (0x1e140, 0x1e149); (0x1e2f0, 0x1e2f9);
   (0x1e950, 0x1e959); (0x1fbf0, 0x1fbf9)]%N.

(** Code points for which [str.isdigit] holds. *)
Definition digit_ranges : list (N * N) :=
  [(0x30, 0x39); (0xb2, 0xb3); (0xb9, 0xb9); (0x660, 0x669); (0x6f0, 0x6f9);
   (0x7c0, 0x7c9); (0x966, 0x96f); (0x9e6, 0x9ef); (0xa66, 0xa6f);
   (0xae6, 0xaef); (0xb66, 0xb6f); (0xbe6, 0xbef); (0xc66, 0xc6f);
   (0xce6, 0xcef); (0xd66, 0xd6f); (0xde6, 0xdef); (0xe50, 0xe59);
   (0xed0, 0xed9); (0xf20, 0xf29); (0x1040, 0x1049); (0x1090, 0x1099);
   (0x1369, 0x1371); (0x17e0, 0x17e9); (0x1810, 0x1819); (0x1946, 0x194f);
   (0x19d0, 0x19da); (0x1a80, 0x1a89); (0x1a90, 0x1a99); (0x1b50, 0x1b59);
   (0x1bb0, 0x1bb9); (0x1c40, 0x1c49); (0x1c50, 0x1c59); (0x2070, 0x2070);
   (0x2074, 0x2079); (0x2080, 0x2089); (0x2460, 0x2468); (0x2474, 0x247c);
   (0x2488, 0x2490); (0x24ea, 0x24ea); (0x24f5, 0x24fd); (0x24ff, 0x24ff);
   (0x2776, 0x277e); (0x2780, 0x2788); (0x278a, 0x2792); (0xa620, 0xa629);
   (0xa8d0, 0xa8d9); (0xa900, 0xa909); (0xa9d0, 0xa9d9); (0xa9f0, 0xa9f9);
   (0xaa50, 0xaa59); (0xabf0, 0xabf9); (0xff10, 0xff19); (0x104a0, 0x104a9);
   (0x10a40, 0x10a43); (0x10d30, 0x10d39); (0x10e60, 0x10e68);
   (0x11052, 0x1105a); (0x11066, 0x1106f); (0x110f0, 0x110f9);
   (0x11136, 0x1113f); (0x111d0, 0x111d9); (0x112f0, 0x112f9);
   (0x11450, 0x11459); (0x114d0, 0x114d9); (0x11650, 0x11659);
   (0x116c0, 0x116c9); (0x11730, 0x11739); (0x118e0, 0x118e9);
   (0x11950, 0x11959); (0x11c50, 0x11c59); (0x11d50, 0x11d59);
   (0x11da0, 0x11da9); (0x16a60, 0x16a69); (0x16ac0, 0x16ac9);
   (0x16b50, 0x16b59); (0x1d7ce, 0x1d7ff); (0x1e140, 0x1e149);
   (0x1e2f0, 0x1e2f9); (0x1e950, 0x1e959); (0x1f100, 0x1f10a);
   (0x1fbf0, 0x1fbf9)]%N.

(** Code points for which [str.isalnum] holds; with the underscore, the class [\w] of [re]. *)
Definition alnum_ranges : list (N * N) :=
  [(0x30, 0x39); (0x41, 0x5a); (0x61, 0x7a); (0xaa, 0xaa); (0xb2, 0xb3);
   (0xb5, 0xb5); (0xb9, 0xba); (0xbc, 0xbe); (0xc0, 0xd6); (0xd8, 0xf6);
   (0xf8, 0x2c1); (0x2c6, 0x2d1); (0x2e0, 0x2e4); (0x2ec, 0x2ec);
   (0x2ee, 0x2ee); (0x370, 0x374); (0x376, 0x377); (0x37a, 0x37d);
   (0x37f, 0x37f); (0x386, 0x386); (0x388, 0x38a); (0x38c, 0x38c);
   (0x38e, 0x3a1); (0x3a3, 0x3f5); (0x3f7, 0x481); (0x48a, 0x52f);
   (0x531, 0x556); (0x559, 0x559); (0x560, 0x588); (0x5d0, 0x5ea);
   (0x5ef, 0x5f2); (0x620, 0x64a); (0x660, 0x669); (0x66e, 0x66f);
   (0x671, 0x6d3); (0x6d5, 0x6d5); (0x6e5, 0x6e6); (0x6ee, 0x6fc);
   (0x6ff, 0x6ff); (0x710, 0x710); (0x712, 0x72f); (0x74d, 0x7a5);
   (0x7b1, 0x7b1); (0x7c0, 0x7ea); (0x7f4, 0x7f5); (0x7fa, 0x7fa);
   (0x800, 0x815); (0x81a, 0x81a); (0x824, 0x824); (0x828, 0x828);
   (0x840, 0x858); (0x860, 0x86a); (0x870, 0x887); (0x889, 0x88e);
   (0x8a0, 0x8c9); (0x904, 0x939); (0x93d, 0x93d); (0x950, 0x950);
   (0x958, 0x961); (0x966, 0x96f); (0x971, 0x980); (0x985, 0x98c);
   (0x98f, 0x990); (0x993, 0x9a8); (0x9aa, 0x9b0); (0x9b2, 0x9b2);
   (0x9b6, 0x9b9); (0x9bd, 0x9bd); (0x9ce, 0x9ce); (0x9dc, 0x9dd);
   (0x9df, 0x9e1); (0x9e6, 0x9f1); (0x9f4, 0x9f9); (0x9fc, 0x9fc);
   (0xa05, 0xa0a); (0xa0f, 0xa10); (0xa13, 0xa28); (0xa2a, 0xa30);
   (0xa32, 0xa33); (0xa35, 0xa36); (0xa38, 0xa39); (0xa59, 0xa5c);
   (0xa5e, 0xa5e); (0xa66, 0xa6f); (0xa72, 0xa74); (0xa85, 0xa8d);
   (0xa8f, 0xa91); (0xa93, 0xaa8); (0xaaa, 0xab0); (0xab2, 0xab3);
   (0xab5, 0xab9); (0xabd, 0xabd); (0xad0, 0xad0); (0xae0, 0xae1);
   (0xae6, 0xaef); (0xaf9, 0xaf9); (0xb05, 0xb0c); (0xb0f, 0xb10);
   (0xb13, 0xb28); (0xb2a, 0xb30); (0xb32, 0xb33); (0xb35, 0xb39);
   (0xb3d, 0xb3d); (0xb5c, 0xb5d); (0xb5f, 0xb61); (0xb66, 0xb6f);
   (0xb71, 0xb77); (0xb83, 0xb83); (0xb85, 0xb8a); (0xb8e, 0xb90);
   (0xb92, 0xb95); (0xb99, 0xb9a); (0xb9c, 0xb9c); (0xb9e, 0xb9f);
   (0xba3, 0xba4); (0xba8, 0xbaa); (0xbae, 0xbb9); (0xbd0, 0xbd0);
   (0xbe6, 0xbf2); (0xc05, 0xc0c); (0xc0e, 0xc10); (0xc12, 0xc28);
   (0xc2a, 0xc39); (0xc3d, 0xc3d); (0xc58, 0xc5a); (0xc5d, 0xc5d);
   (0xc60, 0xc61); (0xc66, 0xc6f); (0xc78, 0xc7e); (0xc80, 0xc80);
   (0xc85, 0xc8c); (0xc8e, 0xc90); (0xc92, 0xca8); (0xcaa, 0xcb3);
   (0xcb5, 0xcb9); (0xcbd, 0xcbd); (0xcdd, 0xcde); (0xce0, 0xce1);
   (0xce6, 0xcef); (0xcf1, 0xcf2); (0xd04, 0xd0c); (0xd0e, 0xd10);
   (0xd12, 0xd3a); (0xd3d, 0xd3d); (0xd4e, 0xd4e); (0xd54, 0xd56);
   (0xd58, 0xd61); (0xd66, 0xd78); (0xd7a, 0xd7f); (0xd85, 0xd96);
   (0xd9a, 0xdb1); (0xdb3, 0xdbb); (0xdbd, 0xdbd); (0xdc0, 0xdc6);
   (0xde6, 0xdef); (0xe01, 0xe30); (0xe32, 0xe33); (0xe40, 0xe46);
   (0xe50, 0xe59); (0xe81, 0xe82); (0xe84, 0xe84); (0xe86, 0xe8a);
   (0xe8c, 0xea3); (0xea5, 0xea5); (0xea7, 0xeb0); (0xeb2, 0xeb3);
   (0xebd, 0xebd); (0xec0, 0xec4); (0xec6, 0xec6); (0xed0, 0xed9);
   (0xedc, 0xedf); (0xf00, 0xf00); (0xf20, 0xf33); (0xf40, 0xf47);
   (0xf49, 0xf6c); (0xf88, 0xf8c); (0x1000, 0x102a); (0x103f, 0x1049);
   (0x1050, 0x1055); (0x105a, 0x105d); (0x1061, 0x1061); (0x1065, 0x1066);
   (0x106e, 0x1070); (0x1075, 0x1081); (0x108e, 0x108e); (0x1090, 0x1099);
   (0x10a0, 0x10c5); (0x10c7, 0x10c7); (0x10cd, 0x10cd); (0x10d0, 0x10fa);
   (0x10fc, 0x1248); (0x124a, 0x124d); (0x1250, 0x1256); (0x1258, 0x1258);
   (0x125a, 0x125d); (0x1260, 0x1288); (0x128a, 0x128d); (0x1290, 0x12b0);
   (0x12b2, 0x12b5); (0x12b8, 0x12be); (0x12c0, 0x12c0); (0x12c2, 0x12c5);
   (0x12c8, 0x12d6); (0x12d8, 0x1310); (0x1312, 0x1315); (0x1318, 0x135a);
   (0x1369, 0x137c); (0x1380, 0x138f); (0x13a0, 0x13f5); (0x13f8, 0x13fd);
   (0x1401, 0x166c); (0x166f, 0x167f); (0x1681, 0x169a); (0x16a0, 0x16ea);
   (0x16ee, 0x16f8); (0x1700, 0x1711); (0x171f, 0x1731); (0x1740, 0x1751);
   (0x1760, 0x176c); (0x176e, 0x1770); (0x1780, 0x17b3); (0x17d7, 0x17d7);
   (0x17dc, 0x17dc); (0x17e0, 0x17e9); (0x17f0, 0x17f9); (0x1810, 0x1819);
   (0x1820, 0x1878); (0x1880, 0x1884); (0x1887, 0x18a8); (0x18aa, 0x18aa);
   (0x18b0, 0x18f5); (0x1900, 0x191e); (0x1946, 0x196d); (0x1970, 0x1974);
   (0x1980, 0x19ab); (0x19b0, 0x19c9); (0x19d0, 0x19da); (0x1a00, 0x1a16);
   (0x1a20, 0x1a54); (0x1a80, 0x1a89); (0x1a90, 0x1a99); (0x1aa7, 0x1aa7);
   (0x1b05, 0x1b33); (0x1b45, 0x1b4c); (0x1b50, 0x1b59); (0x1b83, 0x1ba0);
   (0x1bae, 0x1be5); (0x1c00, 0x1c23); (0x1c40, 0x1c49); (0x1c4d, 0x1c7d);
   (0x1c80, 0x1c88); (0x1c90, 0x1cba); (0x1cbd, 0x1cbf); (0x1ce9, 0x1cec);
   (0x1cee, 0x1cf3); (0x1cf5, 0x1cf6); (0x1cfa, 0x1cfa); (0x1d00, 0x1dbf);
   (0x1e00, 0x1f15); (0x1f18, 0x1f1d); (0x1f20, 0x1f45); (0x1f48, 0x1f4d);
   (0x1f50, 0x1f57); (0x1f59, 0x1f59); (0x1f5b, 0x1f5b); (0x1f5d, 0x1f5d);
   (0x1f5f, 0x1f7d); (0x1f80, 0x1fb4); (0x1fb6, 0x1fbc); (0x1fbe, 0x1fbe);
   (0x1fc2, 0x1fc4); (0x1fc6, 0x1fcc); (0x1fd0, 0x1fd3); (0x1fd6, 0x1fdb);
   (0x1fe0, 0x1fec); (0x1ff2, 0x1ff4); (0x1ff6, 0x1ffc); (0x2070, 0x2071);
   (0x2074, 0x2079); (0x207f, 0x2089); (0x2090, 0x209c); (0x2102, 0x2102);
   (0x2107, 0x2107); (0x210a, 0x2113); (0x2115, 0x2115); (0x2119, 0x211d);
   (0x2124, 0x2124); (0x2126, 0x2126); (0x2128, 0x2128); (0x212a, 0x212d);
   (0x212f, 0x2139); (0x213c, 0x213f); (0x2145, 0x2149); (0x214e, 0x214e);
   (0x2150, 0x2189); (0x2460, 0x249b); (0x24ea, 0x24ff); (0x2776, 0x2793);
   (0x2c00, 0x2ce4); (0x2ceb, 0x2cee); (0x2cf2, 0x2cf3); (0x2cfd, 0x2cfd);
   (0x2d00, 0x2d25); (0x2d27, 0x2d27); (0x2d2d, 0x2d2d); (0x2d30, 0x2d67);
   (0x2d6f, 0x2d6f); (0x2d80, 0x2d96); (0x2da0, 0x2da6); (0x2da8, 0x2dae);
   (0x2db0, 0x2db6); (0x2db8, 0x2dbe); (0x2dc0, 0x2dc6); (0x2dc8, 0x2dce);
   (0x2dd0, 0x2dd6); (0x2dd8, 0x2dde); (0x2e2f, 0x2e2f); (0x3005, 0x3007);
   (0x3021, 0x3029); (0x3031, 0x3035); (0x3038, 0x303c); (0x3041, 0x3096);
   (0x309d, 0x309f); (0x30a1, 0x30fa); (0x30fc, 0x30ff); (0x3105, 0x312f);
   (0x3131, 0x318e); (0x3192, 0x3195); (0x31a0, 0x31bf); (0x31f0, 0x31ff);
   (0x3220, 0x3229); (0x3248, 0x324f); (0x3251, 0x325f); (0x3280, 0x3289);
   (0x32b1, 0x32bf); (0x3400, 0x4dbf); (0x4e00, 0xa48c); (0xa4d0, 0xa4fd);
   (0xa500, 0xa60c); (0xa610, 0xa62b); (0xa640, 0xa66e); (0xa67f, 0xa69d);
   (0xa6a0, 0xa6ef); (0xa717, 0xa71f); (0xa722, 0xa788); (0xa78b, 0xa7ca);
   (0xa7d0, 0xa7d1); (0xa7d3, 0xa7d3); (0xa7d5, 0xa7d9); (0xa7f2, 0xa801);
   (0xa803, 0xa805); (0xa807, 0xa80a); (0xa80c, 0xa822); (0xa830, 0xa835);
   (0xa840, 0xa873); (0xa882, 0xa8b3); (0xa8d0, 0xa8d9); (0xa8f2, 0xa8f7);
   (0xa8fb, 0xa8fb); (0xa8fd, 0xa8fe); (0xa900, 0xa925); (0xa930, 0xa946);
   (0xa960, 0xa97c); (0xa984, 0xa9b2); (0xa9cf, 0xa9d9); (0xa9e0, 0xa9e4);
   (0xa9e6, 0xa9fe); (0xaa00, 0xaa28); (0xaa40, 0xaa42); (0xaa44, 0xaa4b);
   (0xaa50, 0xaa59); (0xaa60, 0xaa76); (0xaa7a, 0xaa7a); (0xaa7e, 0xaaaf);
   (0xaab1, 0xaab1); (0xaab5, 0xaab6); (0xaab9, 0xaabd); (0xaac0, 0xaac0);
   (0xaac2, 0xaac2); (0xaadb, 0xaadd); (0xaae0, 0xaaea); (0xaaf2, 0xaaf4);
   (0xab01, 0xab06); (0xab09, 0xab0e); (0xab11, 0xab16); (0xab20, 0xab26);
   (0xab28, 0xab2e); (0xab30, 0xab5a); (0xab5c, 0xab69); (0xab70, 0xabe2);
   (0xabf0, 0xabf9); (0xac00, 0xd7a3); (0xd7b0, 0xd7c6); (0xd7cb, 0xd7fb);
   (0xf900, 0xfa6d); (0xfa70, 0xfad9); (0xfb00, 0xfb06); (0xfb13, 0xfb17);
   (0xfb1d, 0xfb1d); (0xfb1f, 0xfb28); (0xfb2a, 0xfb36); (0xfb38, 0xfb3c);
   (0xfb3e, 0xfb3e); (0xfb40, 0xfb41); (0xfb43, 0xfb44); (0xfb46, 0xfbb1);
   (0xfbd3, 0xfd3d); (0xfd50, 0xfd8f); (0xfd92, 0xfdc7); (0xfdf0, 0xfdfb);
   (0xfe70, 0xfe74); (0xfe76, 0xfefc); (0xff10, 0xff19); (0xff21, 0xff3a);
   (0xff41, 0xff5a); (0xff66, 0xffbe); (0xffc2, 0xffc7); (0xffca, 0xffcf);
   (0xffd2, 0xffd7); (0xffda, 0xffdc); (0x10000, 0x1000b);
   (0x1000d, 0x10026); (0x10028, 0x1003a); (0x1003c, 0x1003d);
   (0x1003f, 0x1004d); (0x10050, 0x1005d); (0x10080, 0x100fa);
   (0x10107, 0x10133); (0x10140, 0x10178); (0x1018a, 0x1018b);
   (0x10280, 0x1029c); (0x102a0, 0x102d0); (0x102e1, 0x102fb);
   (0x10300, 0x10323); (0x1032d, 0x1034a); (0x10350, 0x10375);
   (0x10380, 0x1039d); (0x103a0, 0x103c3); (0x103c8, 0x103cf);
   (0x103d1, 0x103d5); (0x10400, 0x1049d); (0x104a0, 0x104a9);
   (0x104b0, 0x104d3); (0x104d8, 0x104fb); (0x10500, 0x10527);
   (0x10530, 0x10563); (0x10570, 0x1057a); (0x1057c, 0x1058a);
   (0x1058c, 0x10592); (0x10594, 0x10595); (0x10597, 0x105a1);
   (0x105a3, 0x105b1); (0x105b3, 0x105b9); (0x105bb, 0x105bc);
   (0x10600, 0x10736); (0x10740, 0x10755); (0x10760, 0x10767);
   (0x10780, 0x10785); (0x10787, 0x107b0); (0x107b2, 0x107ba);
   (0x10800, 0x10805); (0x10808, 0x10808); (0x1080a, 0x10835);
   (0x10837, 0x10838); (0x1083c, 0x1083c); (0x1083f, 0x10855);
   (0x10858, 0x10876); (0x10879, 0x1089e); (0x108a7, 0x108af);
   (0x108e0, 0x108f2); (0x108f4, 0x108f5); (0x108fb, 0x1091b);
   (0x10920, 0x10939); (0x10980, 0x109b7); (0x109bc, 0x109cf);
   (0x109d2, 0x10a00); (0x10a10, 0x10a13); (0x10a15, 0x10a17);
   (0x10a19, 0x10a35); (0x10a40, 0x10a48); (0x10a60, 0x10a7e);
   (0x10a80, 0x10a9f); (0x10ac0, 0x10ac7); (0x10ac9, 0x10ae4);
   (0x10aeb, 0x10aef); (0x10b00, 0x10b35); (0x10b40, 0x10b55);
   (0x10b58, 0x10b72); (0x10b78, 0x10b91); (0x10ba9, 0x10baf);
   (0x10c00, 0x10c48); (0x10c80, 0x10cb2); (0x10cc0, 0x10cf2);
   (0x10cfa, 0x10d23); (0x10d30, 0x10d39); (0x10e60, 0x10e7e);
   (0x10e80, 0x10ea9); (0x10eb0, 0x10eb1); (0x10f00, 0x10f27);
   (0x10f30, 0x10f45); (0x10f51, 0x10f54); (0x10f70, 0x10f81);
   (0x10fb0, 0x10fcb); (0x10fe0, 0x10ff6); (0x11003, 0x11037);
   (0x11052, 0x1106f); (0x11071, 0x11072); (0x11075, 0x11075);
   (0x11083, 0x110af); (0x110d0, 0x110e8); (0x110f0, 0x110f9);
   (0x11103, 0x11126); (0x11136, 0x1113f); (0x11144, 0x11144);
   (0x11147, 0x11147); (0x11150, 0x11172); (0x11176, 0x11176);
   (0x11183, 0x111b2); (0x111c1, 0x111c4); (0x111d0, 0x111da);
   (0x111dc, 0x111dc); (0x111e1, 0x111f4); (0x11200, 0x11211);
   (0x11213, 0x1122b); (0x11280, 0x11286); (0x11288, 0x11288);
   (0x1128a, 0x1128d); (0x1128f, 0x1129d); (0x1129f, 0x112a8);
   (0x112b0, 0x112de); (0x112f0, 0x112f9); (0x11305, 0x1130c);
   (0x1130f, 0x11310); (0x11313, 0x11328); (0x1132a, 0x11330);
   (0x11332, 0x11333); (0x11335, 0x11339); (0x1133d, 0x1133d);
   (0x11350, 0x11350); (0x1135d, 0x11361); (0x11400, 0x11434);
   (0x11447, 0x1144a); (0x11450, 0x11459); (0x1145f, 0x11461);
   (0x11480, 0x114af); (0x114c4, 0x114c5); (0x114c7, 0x114c7);
   (0x114d0, 0x114d9); (0x11580, 0x115ae); (0x115d8, 0x115db);
   (0x11600, 0x1162f); (0x11644, 0x11644); (0x11650, 0x11659);
   (0x11680, 0x116aa); (0x116b8, 0x116b8); (0x116c0, 0x116c9);
   (0x11700, 0x1171a); (0x11730, 0x1173b); (0x11740, 0x11746);
   (0x11800, 0x1182b); (0x118a0, 0x118f2); (0x118ff, 0x11906);
   (0x11909, 0x11909); (0x1190c, 0x11913); (0x11915, 0x11916);
   (0x11918, 0x1192f); (0x1193f, 0x1193f); (0x11941, 0x11941);
   (0x11950, 0x11959); (0x119a0, 0x119a7); (0x119aa, 0x119d0);
   (0x119e1, 0x119e1); (0x119e3, 0x119e3); (0x11a00, 0x11a00);
   (0x11a0b, 0x11a32); (0x11a3a, 0x11a3a); (0x11a50, 0x11a50);
   (0x11a5c, 0x11a89); (0x11a9d, 0x11a9d); (0x11ab0, 0x11af8);
   (0x11c00, 0x11c08); (0x11c0a, 0x11c2e); (0x11c40, 0x11c40);
   (0x11c50, 0x11c6c); (0x11c72, 0x11c8f); (0x11d00, 0x11d06);
   (0x11d08, 0x11d09); (0x11d0b, 0x11d30); (0x11d46, 0x11d46);
   (0x11d50, 0x11d59); (0x11d60, 0x11d65); (0x11d67, 0x11d68);
   (0x11d6a, 0x11d89); (0x11d98, 0x11d98); (0x11da0, 0x11da9);
   (0x11ee0, 0x11ef2); (0x11fb0, 0x11fb0); (0x11fc0, 0x11fd4);
   (0x12000, 0x12399); (0x12400, 0x1246e); (0x12480, 0x12543);
   (0x12f90, 0x12ff0); (0x13000, 0x1342e); (0x14400, 0x14646);
   (0x16800, 0x16a38); (0x16a40, 0x16a5e); (0x16a60, 0x16a69);
   (0x16a70, 0x16abe); (0x16ac0, 0x16ac9); (0x16ad0, 0x16aed);
   (0x16b00, 0x16b2f); (0x16b40, 0x16b43); (0x16b50, 0x16b59);
   (0x16b5b, 0x16b61); (0x16b63, 0x16b77); (0x16b7d, 0x16b8f);
   (0x16e40, 0x16e96); (0x16f00, 0x16f4a); (0x16f50, 0x16f50);
   (0x16f93, 0x16f9f); (0x16fe0, 0x16fe1); (0x16fe3, 0x16fe3);
   (0x17000, 0x187f7); (0x18800, 0x18cd5); (0x18d00, 0x18d08);
   (0x1aff0, 0x1aff3); (0x1aff5, 0x1affb); (0x1affd, 0x1affe);
   (0x1b000, 0x1b122); (0x1b150, 0x1b152); (0x1b164, 0x1b167);
   (0x1b170, 0x1b2fb); (0x1bc00, 0x1bc6a); (0x1bc70, 0x1bc7c);
   (0x1bc80, 0x1bc88); (0x1bc90, 0x1bc99); (0x1d2e0, 0x1d2f3);
   (0x1d360, 0x1d378); (0x1d400, 0x1d454); (0x1d456, 0x1d49c);
   (0x1d49e, 0x1d49f); (0x1d4a2, 0x1d4a2); (0x1d4a5, 0x1d4a6);
   (0x1d4a9, 0x1d4ac); (0x1d4ae, 0x1d4b9); (0x1d4bb, 0x1d4bb);
   (0x1d4bd, 0x1d4c3); (0x1d4c5, 0x1d505); (0x1d507, 0x1d50a);
   (0x1d50d, 0x1d514); (0x1d516, 0x1d51c); (0x1d51e, 0x1d539);
   (0x1d53b, 0x1d53e); (0x1d540, 0x1d544); (0x1d546, 0x1d546);
   (0x1d54a, 0x1d550); (0x1d552, 0x1d6a5); (0x1d6a8, 0x1d6c0);
   (0x1d6c2, 0x1d6da); (0x1d6dc, 0x1d6fa); (0x1d6fc, 0x1d714);
   (0x1d716, 0x1d734); (0x1d736, 0x1d74e); (0x1d750, 0x1d76e);
   (0x1d770, 0x1d788); (0x1d78a, 0x1d7a8); (0x1d7aa, 0x1d7c2);
   (0x1d7c4, 0x1d7cb); (0x1d7ce, 0x1d7ff); (0x1df00, 0x1df1e);
   (0x1e100, 0x1e12c); (0x1e137, 0x1e13d); (0x1e140, 0x1e149);
   (0x1e14e, 0x1e14e); (0x1e290, 0x1e2ad); (0x1e2c0, 0x1e2eb);
   (0x1e2f0, 0x1e2f9); (0x1e7e0, 0x1e7e6); (0x1e7e8, 0x1e7eb);
   (0x1e7ed, 0x1e7ee); (0x1e7f0, 0x1e7fe); (0x1e800, 0x1e8c4);
   (0x1e8c7, 0x1e8cf); (0x1e900, 0x1e943); (0x1e94b, 0x1e94b);
   (0x1e950, 0x1e959); (0x1ec71, 0x1ecab); (0x1ecad, 0x1ecaf);
   (0x1ecb1, 0x1ecb4); (0x1ed01, 0x1ed2d); (0x1ed2f, 0x1ed3d);
   (0x1ee00, 0x1ee03); (0x1ee05, 0x1ee1f); (0x1ee21, 0x1ee22);
   (0x1ee24, 0x1ee24); (0x1ee27, 0x1ee27); (0x1ee29, 0x1ee32);
   (0x1ee34, 0x1ee37); (0x1ee39, 0x1ee39); (0x1ee3b, 0x1ee3b);
   (0x1ee42, 0x1ee42); (0x1ee47, 0x1ee47); (0x1ee49, 0x1ee49);
   (0x1ee4b, 0x1ee4b); (0x1ee4d, 0x1ee4f); (0x1ee51, 0x1ee52);
   (0x1ee54, 0x1ee54); (0x1ee57, 0x1ee57); (0x1ee59, 0x1ee59);
   (0x1ee5b, 0x1ee5b); (0x1ee5d, 0x1ee5d); (0x1ee5f, 0x1ee5f);
   (0x1ee61, 0x1ee62); (0x1ee64, 0x1ee64); (0x1ee67, 0x1ee6a);
   (0x1ee6c, 0x1ee72); (0x1ee74, 0x1ee77); (0x1ee79, 0x1ee7c);
   (0x1ee7e, 0x1ee7e); (0x1ee80, 0x1ee89); (0x1ee8b, 0x1ee9b);
   (0x1eea1, 0x1eea3); (0x1eea5, 0x1eea9); (0x1eeab, 0x1eebb);
   (0x1f100, 0x1f10c); (0x1fbf0, 0x1fbf9); (0x20000, 0x2a6df);
   (0x2a700, 0x2b738); (0x2b740, 0x2b81d); (0x2b820, 0x2cea1);
   (0x2ceb0, 0x2ebe0); (0x2f800, 0x2fa1d); (0x30000, 0x3134a)]%N.

Definition in_ranges (rs : list (N * N)) (c : N) : bool :=
  existsb (fun r => (fst r <=? c)%N && (c <=? snd r)%N) rs.

Definition isspace : N -> bool := in_ranges space_ranges.
Definition isdecimal : N -> bool := in_ranges decimal_ranges.
Definition isdigit : N -> bool := in_ranges digit_ranges.
Definition isalnum : N -> bool := in_ranges alnum_ranges.

End Unicode.

Module Str.

Definition LF : N := 10%N.

Fixpoint eqb (a b : pystr) : bool :=
  match a, b with
  | [], [] => true
  | x :: a', y :: b' => (x =? y)%N && eqb a' b'
  | _, _ => false
  end.

(** [s.startswith(prefix)] *)
Fixpoint startswith (s prefix : pystr) : bool :=
  match prefix, s with
  | [], _ => true
  | p :: prefix', c :: s' => (c =? p)%N && startswith s' prefix'
  | _ :: _, [] => false
  end.

(** [sub in s] *)
Fixpoint contains (sub s : pystr) : bool :=
  match s with
  | [] => startswith [] sub
  | _ :: s' => startswith s sub || contains sub s'
  end.

(** [x in l] for a list of strings *)
Definition mem (x : pystr) (l : list pystr) : bool := existsb (eqb x) l.

(** [s.count(c)] for a one-character [c] *)
Definition count_char (c : N) (s : pystr) : Z :=
  Z.of_nat (List.length (filter (N.eqb c) s)).

Fixpoint lstrip (s : pystr) : pystr :=
  match s with
  | c :: s' => if Unicode.isspace c then lstrip s' else s
  | [] => []
  end.

Definition rstrip (s : pystr) : pystr := rev (lstrip (rev s)).

(** [s.strip()] *)
Definition strip (s : pystr) : pystr := lstrip (rstrip s).

(** [s.isdigit()]: false on the empty string *)
Definition isdigit (s : pystr) : bool :=
  match s with
  | [] => false
  | _ => forallb Unicode.isdigit s
  end.

(** [s.split(sep)] for a non-empty [sep].  [skip] counts the characters of
    a separator just found that are still to be passed over; [cur] is the
    current piece, reversed. *)
Fixpoint split_from (sep s : pystr) (skip : nat) (cur : pystr) : list pystr :=
  match s with
  | [] => [rev cur]
  | c :: s' =>
      match skip with
      | S k => split_from sep s' k cur
      | O =>
          if startswith s sep
          then rev cur :: split_from sep s' (Nat.pred (List.length sep)) []
          else split_from sep s' 0 (c :: cur)
      end
  end.

Definition split (sep s : pystr) : list pystr := split_from sep s 0 [].

(** [sep.join(l)] *)
Fixpoint join (sep : pystr) (l : list pystr) : pystr :=
  match l with
  | [] => []
  | [x] => x
  | x :: l' => x ++ sep ++ join sep l'
  end.

(** [bool(s)]: a string is true when it is not empty *)
Definition truthy (s : pystr) : bool :=
  match s with [] => false | _ => true end.

End Str.

(** * The fragment of Python's [re] that the program uses

    Every quantifier in the patterns of [verifier.py] is greedy and applies
    to a single character class, and no pattern has an alternation, so the
    syntax below covers them all.  Matching is by backtracking, as in [re]:
    the first match in priority order, the leftmost start. *)

Module Re.

Inductive regex : Type :=
| Eps
| Chr (p : N -> bool)                                (* a class, once *)
| Many (p : N -> bool) (lo : nat) (hi : option nat)  (* a class, [{lo,hi}] *)
| Seq (r1 r2 : regex)
| Group (r : regex)                                  (* [( )] *)
| Bol (multiline : bool)                             (* [^] *)
| WordB                                              (* [\b] *)
| NotAhead (r : regex).                              (* [(?! )] *)

Definition star (p : N -> bool) : regex := Many p 0 None.
Definition plus (p : N -> bool) : regex := Many p 1 None.

(** Character classes *)
Definition lit (s : string) : N -> bool := N.eqb (chr s).
Definition one_of (s : string) : N -> bool := fun c => existsb (N.eqb c) (U s).
Definition none_of (s : string) : N -> bool := fun c => negb (one_of s c).
Definition range (a b : string) : N -> bool :=
  fun c => (chr a <=? c)%N && (c <=? chr b)%N.
Definition union (p q : N -> bool) : N -> bool := fun c => p c || q c.
Definition dot : N -> bool := fun c => negb (c =? Str.LF)%N.
Definition space : N -> bool := Unicode.isspace.
Definition digit : N -> bool := Unicode.isdecimal.
Definition word : N -> bool := fun c => Unicode.isalnum c || (c =? chr "_")%N.
Definition letter : N -> bool := union (range "a" "z") (range "A" "Z").

Definition word_opt (c : option N) : bool :=
  match c with Some c => word c | None => false end.

Definition may_repeat (hi : option nat) : bool :=
  match hi with Some O => false | _ => true end.

(** Greedy repetition: as many characters of the class as allowed, then
    one fewer each time the continuation fails.  [prev] is the character
    before the position, if any. *)
Fixpoint many (A : Type) (p : N -> bool) (lo : nat) (hi : option nat)
    (prev : option N) (s : pystr) (k : option N -> pystr -> option A)
    {struct s} : option A :=
  let stop := match lo with O => k prev s | S _ => None end in
  match s with
  | c :: s' =>
      if p c && may_repeat hi then
        match many p (Nat.pred lo) (option_map Nat.pred hi) (Some c) s' k with
        | Some a => Some a
        | None => stop
        end
      else stop
  | [] => stop
  end.

(** The matcher, in continuation-passing style.  [caps] are the texts of
    the groups closed so far, in order. *)
Fixpoint run (A : Type) (r : regex) (prev : option N) (s : pystr)
    (caps : list pystr) (k : option N -> pystr -> list pystr -> option A)
    {struct r} : option A :=
  match r with
  | Eps => k prev s caps
  | Chr p =>
      match s with
      | c :: s' => if p c then k (Some c) s' caps else None
      | [] => None
      end
  | Many p lo hi => many p lo hi prev s (fun prev' s' => k prev' s' caps)
  | Seq r1 r2 =>
      run r1 prev s caps (fun prev' s' caps' => run r2 prev' s' caps' k)
  | Group r1 =>
      run r1 prev s caps (fun prev' s' caps' =>
        k prev' s' (caps' ++ [firstn (List.length s - List.length s') s]))
  | Bol multiline =>
      match prev with
      | None => k prev s caps
      | Some c => if multiline && (c =? Str.LF)%N then k prev s caps else None
      end
  | WordB =>
      if xorb (word_opt prev) (word_opt (hd_error s)) then k prev s caps
      else None
  | NotAhead r1 =>
      match run r1 prev s caps (fun _ _ _ => Some tt) with
      | Some _ => None
      | None => k prev s caps
      end
  end.

(** A match: the whole matched text and the texts of its groups. *)
Record pymatch : Type := { whole : pystr; groups : list pystr }.

Definition group (n : nat) (m : pymatch) : pystr := nth n (groups m) [].

(** A match that starts at the current position. *)
Definition match_at (r : regex) (prev : option N) (s : pystr) : option pymatch :=
  run r prev s [] (fun _ s' caps =>
    Some {| whole := firstn (List.length s - List.length s') s; groups := caps |}).

(** [re.match(r, s)] *)
Definition match_ (r : regex) (s : pystr) : option pymatch := match_at r None s.

Fixpoint search_from (r : regex) (prev : option N) (s : pystr) : option pymatch :=
  match match_at r prev s with
  | Some m => Some m
  | None =>
      match s with
      | [] => None
      | c :: s' => search_from r (Some c) s'
      end
  end.

(** [re.search(r, s)] *)
Definition search (r : regex) (s : pystr) : option pymatch := search_from r None s.

(** The scan that [findall], [sub] and [split] share: the successive
    non-overlapping matches, and the characters between them.  [skip]
    counts the characters of the last match still to be passed over.
    The patterns the program scans with never match the empty string; at
    an empty match this scan records it and steps over one character. *)
Inductive token : Type :=
| Tchar (c : N)
| Tmatch (m : pymatch).

Fixpoint scan (r : regex) (prev : option N) (s : pystr) (skip : nat)
    {struct s} : list token :=
  match skip with
  | S k =>
      match s with
      | [] => []
      | c :: s' => scan r (Some c) s' k
      end
  | O =>
      match match_at r prev s with
      | Some m =>
          Tmatch m ::
          match s with
          | [] => []
          | c :: s' =>
              match List.length (whole m) with
              | O => Tchar c :: scan r (Some c) s' 0
              | S k => scan r (Some c) s' k
              end
          end
      | None =>
          match s with
          | [] => []
          | c :: s' => Tchar c :: scan r (Some c) s' 0
          end
      end
  end.

Fixpoint matches_of (ts : list token) : list pymatch :=
  match ts with
  | [] => []
  | Tchar _ :: ts' => matches_of ts'
  | Tmatch m :: ts' => m :: matches_of ts'
  end.

Fixpoint chars_of (ts : list token) : pystr :=
  match ts with
  | [] => []
  | Tchar c :: ts' => c :: chars_of ts'
  | Tmatch _ :: ts' => chars_of ts'
  end.

Fixpoint pieces_of (ts : list token) (cur : pystr) : list pystr :=
  match ts with
  | [] => [rev cur]
  | Tchar c :: ts' => pieces_of ts' (c :: cur)
  | Tmatch _ :: ts' => rev cur :: pieces_of ts' []
  end.

(** The matches that [re.findall(r, s)] is built from.  [re.findall]
    itself returns, for each match, its whole text when the pattern has
    no group, the text of the group when it has one, and the tuple of
    the groups when it has several. *)
Definition findall (r : regex) (s : pystr) : list pymatch :=
  matches_of (scan r None s 0).

(** [re.sub(r, '', s)] *)
Definition sub_empty (r : regex) (s : pystr) : pystr := chars_of (scan r None s 0).

(** [re.split(r, s)] for a pattern without groups *)
Definition split (r : regex) (s : pystr) : list pystr :=
  pieces_of (scan r None s 0) [].

End Re.

Declare Scope re_scope.
Delimit Scope re_scope with re.
Infix "\;" := Re.Seq (at level 60, right associativity) : re_scope.

Open Scope string_scope.
Open Scope list_scope.
Open Scope re_scope.

(** * Values, messages and results *)

(** A Python exception caught by an [except Exception] clause.  [str(e)]
    is kept for the exceptions of library calls, whose text comes from
    outside the program. *)
Inductive pyexn : Type :=
| LibraryError (msg : pystr)
| TypeError
| KeyError.

Inductive res (A : Type) : Type :=
| Ok (a : A)
| Raise (e : pyexn).
Arguments Ok {A} a.
Arguments Raise {A} e.

Definition bind {A B : Type} (m : res A) (f : A -> res B) : res B :=
  match m with
  | Ok a => f a
  | Raise e => Raise e
  end.

Notation "x <- m ;; f" := (bind m (fun x => f))
  (at level 61, m at next level, right associativity).

(** [try: body except Exception as e: handler(e)] *)
Definition try_except {A : Type} (body : res A) (handler : pyexn -> res A) : res A :=
  match body with
  | Ok a => Ok a
  | Raise e => handler e
  end.

(** A decoded JSON document, as [json.loads] returns it. *)
Inductive json : Type :=
| JNull
| JBool (b : bool)
| JInt (z : Z)
| JFloat (f : float)
| JStr (s : pystr)
| JArr (l : list json)
| JObj (members : list (pystr * json)).

(** The [error] strings of [search_reference]. *)
Inductive search_error : Type :=
| NoApiKey                      (* "SERPER_API_KEY not provided" *)
| BadStatus (status : Z)        (* "API request failed with status {status}" *)
| RequestFailed (e : pyexn)     (* "Search request failed: {str(e)}" *)
| UnknownError.                 (* "Unknown error" *)

(** The issue strings of the analyzers. *)
Inductive issue : Type :=
(* verify_sparse_content *)
| NoMeaningfulParagraphs                   (* "No meaningful paragraphs found" *)
| TooManyShort (ratio : float)             (* "过多短段落 ({ratio:.1%} 的段落少于300字符)" *)
| TooManyVeryShort (ratio : float)         (* "过多极短段落 ({ratio:.1%} 的段落少于100字符)" *)
| TooManyListLike (ratio : float)          (* "过多列表式段落 ({ratio:.1%} 的段落为列表格式)" *)
(* verify_stereotype_content *)
| StereotypeFound (found : list pystr)     (* "发现刻板印象表达: {', '.join(found)}" *)
(* verify_latex_formulas *)
| BareGreek (i : Z) (letter : pystr)       (* "第{i}行：发现裸露的希腊字母 '{letter}'，应使用LaTeX格式" *)
| BareSymbol (i : Z) (symbol : pystr)      (* "第{i}行：发现裸露的数学符号 '{symbol}'，应使用LaTeX格式" *)
| BareExpression (i : Z)                   (* "第{i}行：发现可能的数学表达式，建议使用LaTeX格式包围" *)
(* verify_citations *)
| NonStandardCitation (invalid : pystr)    (* "发现非标准引用格式: [{invalid}]，应使用[@key]格式" *)
| CitationNotInBib (citation : pystr)      (* "引用 [@{citation}] 在bib文件中不存在" *)
| BibReadError (e : pyexn)                 (* "读取bib文件时出错: {str(e)}" *)
(* verify_images *)
| ImageNetworkLink (alt_text img_path : pystr)  (* "图片 '{alt_text}' 使用了网络链接，应使用本地绝对路径: {img_path}" *)
| ImageRelativePath (alt_text img_path : pystr) (* "图片 '{alt_text}' 使用了相对路径，应使用绝对路径: {img_path}" *)
| ImageMissing (img_path : pystr)          (* "图片文件不存在: {img_path}" *)
(* verify_code_blocks *)
| FenceOpened (i : Z) (block_type : pystr) (* "第{i}行：发现{block_type}代码块，论文中不应包含代码块" *)
| InlineCode (i : Z)                       (* "第{i}行：发现行内代码，论文中不应包含代码" *)
(* verify_bib_references *)
| BibFileMissing (path : pystr)            (* "bib文件不存在: {path}" *)
| MissingTitle (entry_key : pystr)         (* "参考文献 {entry_key} 缺少标题" *)
| LookupFailed (entry_key : pystr) (error : search_error)
                                           (* "参考文献 {entry_key} 验证失败: {error}" *)
| MaybeNotReal (entry_key title : pystr)   (* "参考文献 {entry_key} 可能不真实存在: {title}" *)
| BibParseError (e : pyexn).               (* "解析bib文件时出错: {str(e)}" *)

(** A number that [statistics.median] returns: an element of the data, or
    the mean of the two middle ones as a float. *)
Inductive pyval : Type :=
| VBool (b : bool)
| VInt (z : Z)
| VFloat (f : float)
| VIssues (l : list issue)
| VStrs (l : list pystr)
| VError (e : search_error)
| VJson (j : json).

(** A returned [dict], keys in insertion order. *)
Definition finding := list (string * pyval).

(** [d.get(key)] *)
Fixpoint dict_get (key : string) (d : finding) : option pyval :=
  match d with
  | [] => None
  | (k, v) :: d' => if String.eqb k key then Some v else dict_get key d'
  end.

(** [d[key]] *)
Definition getitem (d : finding) (key : string) : res pyval :=
  match dict_get key d with
  | Some v => Ok v
  | None => Raise KeyError
  end.

(** [key in d] *)
Definition has_key (key : string) (d : finding) : bool :=
  match dict_get key d with Some _ => true | None => false end.

(** [bool(v)] *)
Definition truth (v : pyval) : bool :=
  match v with
  | VBool b => b
  | VInt z => negb (z =? 0)%Z
  | VFloat f => negb (PrimFloat.eqb f 0%float)
  | VIssues l => match l with [] => false | _ => true end
  | VStrs l => match l with [] => false | _ => true end
  | VError _ => true
  | VJson j =>
      match j with
      | JNull => false
      | JBool b => b
      | JInt z => negb (z =? 0)%Z
      | JFloat f => negb (PrimFloat.eqb f 0%float)
      | JStr s => Str.truthy s
      | JArr l => match l with [] => false | _ => true end
      | JObj l => match l with [] => false | _ => true end
      end
  end.

(** [len(l)] *)
Definition len {A : Type} (l : list A) : Z := Z.of_nat (List.length l).

(** [enumerate(l, i)] *)
Fixpoint enumerate {A : Type} (i : Z) (l : list A) : list (Z * A) :=
  match l with
  | [] => []
  | x :: l' => (i, x) :: enumerate (i + 1) l'
  end.

(** [float(z)] for [0 <= z < 2^63]; exact below [2^53]. *)
Definition float_of_Z (z : Z) : float := PrimFloat.of_uint63 (Uint63.of_Z z).

(** [a / b] on two [int]s.  Python rounds the exact quotient once; that is
    the quotient of the two floats whenever both are below [2^53], which
    the lengths of lists and strings are. *)
Definition true_div (a b : Z) : float :=
  PrimFloat.div (float_of_Z a) (float_of_Z b).

Definition NL : pystr := [Str.LF].

(** * [verify_sparse_content] *)

Module Sparse.

(** [\n\s*\n] *)
Definition blank_line_re : Re.regex :=
  Re.Chr (N.eqb Str.LF) \; Re.star Re.space \; Re.Chr (N.eqb Str.LF).

(** [^#{1,6}\s+] *)
Definition heading_re : Re.regex :=
  Re.Bol false \; Re.Many (Re.lit "#") 1 (Some 6%nat) \; Re.plus Re.space.

(** The five [list_patterns], searched with [re.MULTILINE]. *)
Definition list_patterns : list Re.regex :=
  [ (* ^\s*\d+[\.\)]\s* *)
    Re.Bol true \; Re.star Re.space \; Re.plus Re.digit \;
      Re.Chr (Re.one_of ".)") \; Re.star Re.space;
    (* ^\s*[a-zA-Z][\.\)]\s* *)
    Re.Bol true \; Re.star Re.space \; Re.Chr Re.letter \;
      Re.Chr (Re.one_of ".)") \; Re.star Re.space;
    (* ^\s*[-\*\+•]\s* *)
    Re.Bol true \; Re.star Re.space \; Re.Chr (Re.one_of "-*+•") \;
      Re.star Re.space;
    (* ^\s*[第]\d+[章节条]\s* *)
    Re.Bol true \; Re.star Re.space \; Re.Chr (Re.one_of "第") \;
      Re.plus Re.digit \; Re.Chr (Re.one_of "章节条") \; Re.star Re.space;
    (* ^\s*[一二三四五六七八九十]+[\.\、]\s* *)
    Re.Bol true \; Re.star Re.space \; Re.plus (Re.one_of "一二三四五六七八九十") \;
      Re.Chr (Re.one_of ".、") \; Re.star Re.space ].

(** The loop state of the segmentation: [paragraphs], [current_para]. *)
Definition seg_state : Type := (list pystr * list pystr)%type.

(** [if current_para: paragraphs.append('\n'.join(current_para));
    current_para = []] *)
Definition flush (st : seg_state) : seg_state :=
  let '(paragraphs, current_para) := st in
  match current_para with
  | [] => st
  | _ => (paragraphs ++ [Str.join NL current_para], [])
  end.

(** The body of [for line in lines]. *)
Definition line_step (st : seg_state) (line : pystr) : seg_state :=
  let line := Str.strip line in
  if Str.truthy line then
    match Re.match_ heading_re line with
    | Some _ => flush st
    | None => (fst st, snd st ++ [line])
    end
  else flush st.

(** The body of [for section in sections]. *)
Definition section_step (paragraphs : list pystr) (section : pystr) : list pystr :=
  if Str.truthy (Str.strip section) then
    fst (flush (fold_left line_step (Str.split NL section) (paragraphs, [])))
  else paragraphs.

Definition keep (p : pystr) : bool :=
  Str.truthy (Str.strip p) && (20 <? len (Str.strip p))%Z.

(** The paragraphs that remain after the filter. *)
Definition paragraphs_of (content : pystr) : list pystr :=
  let sections := Re.split blank_line_re (Str.strip content) in
  let paragraphs := fold_left section_step sections [] in
  map Str.strip (filter keep paragraphs).

Fixpoint insert_sorted (x : Z) (l : list Z) : list Z :=
  match l with
  | [] => [x]
  | y :: l' => if (x <=? y)%Z then x :: l else y :: insert_sorted x l'
  end.

(** [sorted(data)] *)
Definition sorted (data : list Z) : list Z := fold_right insert_sorted [] data.

(** [statistics.median(data)] for a non-empty [data]: the middle element,
    or the mean of the two middle ones, which is then a float. *)
Definition median (data : list Z) : pyval :=
  let data := sorted data in
  let n := List.length data in
  if Nat.odd n then VInt (nth (n / 2) data 0%Z)
  else
    let i := (n / 2)%nat in
    VFloat (true_div (nth (i - 1) data 0 + nth i data 0)%Z 2).

(** [list_like_paragraphs] *)
Definition list_like (para : pystr) : bool :=
  existsb (fun pattern =>
    match Re.search pattern para with Some _ => true | None => false end)
    list_patterns.

Definition count_short (bound : Z) (paragraph_lengths : list Z) : Z :=
  len (filter (fun p => (p <? bound)%Z) paragraph_lengths).

Definition count_list_like (paragraphs : list pystr) : Z :=
  len (filter list_like paragraphs).

(** One threshold check: [if ratio > threshold: issues.append(...);
    sparsity_score += weight]. *)
Definition check (ratio threshold weight : float) (mk : float -> issue)
    (st : list issue * float) : list issue * float :=
  if PrimFloat.ltb threshold ratio
  then (fst st ++ [mk ratio], PrimFloat.add (snd st) weight)
  else st.

Definition verify_sparse_content (content : pystr) : finding :=
  let paragraphs := paragraphs_of content in
  match paragraphs with
  | [] =>
      [ ("has_issues", VBool true);
        ("issues", VIssues [NoMeaningfulParagraphs]);
        ("sparsity_score", VFloat 1%float) ]
  | _ :: _ =>
      let paragraph_lengths := map (@len N) paragraphs in
      let median_length := median paragraph_lengths in
      let st := ([], 0%float) in
      let short_para_ratio :=
        true_div (count_short 300 paragraph_lengths) (len paragraph_lengths) in
      let st := check short_para_ratio 0.6%float 0.3%float TooManyShort st in
      let very_short_ratio :=
        true_div (count_short 100 paragraph_lengths) (len paragraph_lengths) in
      let st := check very_short_ratio 0.4%float 0.2%float TooManyVeryShort st in
      let list_ratio :=
        true_div (count_list_like paragraphs) (len paragraphs) in
      let st := check list_ratio 0.3%float 0.2%float TooManyListLike st in
      let '(issues, sparsity_score) := st in
      [ ("has_issues", VBool (0 <? len issues)%Z);
        ("issues", VIssues issues);
        ("sparsity_score", VFloat sparsity_score);
        ("paragraph_count", VInt (len paragraphs));
        ("median_length", median_length) ]
  end.

End Sparse.

(** * [verify_stereotype_content] *)

Module Stereotype.

Definition stereotype_words : list pystr :=
  [ U "首先，"; U "其次，"; U "再次，"; U "最后，"; U "再者，"; U "综上所述，";
    U "值得注意的是，"; U "总而言之，"; U "换句话说，"; U "毫无疑问，";
    U "显而易见，"; U "众所周知，" ].

(** The pattern of a bold phrase and a colon: [\*\*(.{1,15})\*\*[：:]] *)
Definition bold_colon : Re.regex :=
  Re.Chr (Re.lit "*") \; Re.Chr (Re.lit "*") \;
  Re.Group (Re.Many Re.dot 1 (Some 15%nat)) \;
  Re.Chr (Re.lit "*") \; Re.Chr (Re.lit "*") \; Re.Chr (Re.one_of "：:").

(** [^\*\*(.{1,15})\*\*[：:]] *)
Definition bold_start : Re.regex := Re.Bol false \; bold_colon.

(** [\d+\.\s*\*\*(.{1,15})\*\*[：:]] *)
Definition numbered_bold : Re.regex :=
  Re.plus Re.digit \; Re.Chr (Re.lit ".") \; Re.star Re.space \; bold_colon.

(** [^\s*-\s*\*\*(.{1,15})\*\*[：:]] *)
Definition bullet_bold : Re.regex :=
  Re.Bol false \; Re.star Re.space \; Re.Chr (Re.lit "-") \; Re.star Re.space \;
  bold_colon.

(** The three [bold_patterns] with their descriptions. *)
Definition bold_patterns : list (Re.regex * pystr) :=
  [ (bold_start, U "段落以加粗短语和冒号开头");
    (numbered_bold, U "数字序号+加粗标题");
    (bullet_bold, U "列表项+加粗标题") ].

(** [content.split('\n\n')], trimmed, without the empty blocks. *)
Definition paragraphs_of (content : pystr) : list pystr :=
  map Str.strip
    (filter (fun p => Str.truthy (Str.strip p)) (Str.split (NL ++ NL) content)).

(** The variables that the loops update: [found_stereotype_words],
    [paragraphs_with_stereotype] and, within one paragraph,
    [has_stereotype]. *)
Record state : Type := {
  found_stereotype_words : list pystr;
  paragraphs_with_stereotype : Z;
  has_stereotype : bool
}.

(** What both loops do at a match of [expr]. *)
Definition record (expr : pystr) (st : state) : state :=
  {| found_stereotype_words :=
       if negb (Str.mem expr (found_stereotype_words st))
       then found_stereotype_words st ++ [expr]
       else found_stereotype_words st;
     paragraphs_with_stereotype :=
       if negb (has_stereotype st)
       then (paragraphs_with_stereotype st + 1)%Z
       else paragraphs_with_stereotype st;
     has_stereotype := true |}.

(** The body of [for word in stereotype_words]. *)
Definition word_step (paragraph : pystr) (st : state) (word : pystr) : state :=
  if Str.contains word paragraph then record word st else st.

Definition bold_match (paragraph : pystr) (pattern : Re.regex) : bool :=
  match Re.match_ pattern paragraph with Some _ => true | None => false end.

(** [for pattern, description in bold_patterns], which stops at the first
    pattern that matches. *)
Fixpoint bold_loop (paragraph : pystr) (patterns : list (Re.regex * pystr))
    (st : state) : state :=
  match patterns with
  | [] => st
  | (pattern, description) :: rest =>
      if bold_match paragraph pattern then record description st
      else bold_loop paragraph rest st
  end.

(** The body of [for paragraph in paragraphs]. *)
Definition paragraph_step (st : state) (paragraph : pystr) : state :=
  let st := {| found_stereotype_words := found_stereotype_words st;
               paragraphs_with_stereotype := paragraphs_with_stereotype st;
               has_stereotype := false |} in
  let st := fold_left (word_step paragraph) stereotype_words st in
  bold_loop paragraph bold_patterns st.

Definition run (paragraphs : list pystr) : state :=
  fold_left paragraph_step paragraphs
    {| found_stereotype_words := [];
       paragraphs_with_stereotype := 0;
       has_stereotype := false |}.

Definition verify_stereotype_content (content : pystr) : finding :=
  let paragraphs := paragraphs_of content in
  let st := run paragraphs in
  let issues :=
    match found_stereotype_words st with
    | [] => []
    | found => [StereotypeFound found]
    end in
  [ ("has_issues", VBool (0 <? len issues)%Z);
    ("issues", VIssues issues);
    ("found_expressions", VStrs (found_stereotype_words st));
    ("affected_paragraphs", VInt (paragraphs_with_stereotype st));
    ("total_paragraphs", VInt (len paragraphs)) ].

End Stereotype.

(** The image syntax that the formula and the citation analyzers remove
    before they look at a text.  The pattern, its parts set apart:
    [!  \[  ( [^\]]* )  \]  \(  [^)]+  \)] *)
Definition image_syntax_re : Re.regex :=
  Re.Chr (Re.lit "!") \; Re.Chr (Re.lit "[") \;
  Re.Group (Re.star (Re.none_of "]")) \; Re.Chr (Re.lit "]") \;
  Re.Chr (Re.lit "(") \; Re.plus (Re.none_of ")") \; Re.Chr (Re.lit ")").

Definition is_some {A : Type} (o : option A) : bool :=
  match o with Some _ => true | None => false end.

(** * [verify_latex_formulas] *)

Module Latex.

Definition singletons (s : pystr) : list pystr := map (fun c => [c]) s.

Definition greek_letters : list pystr :=
  singletons (U "αβγδεζηθικλμνξοπρστυφχψω")
  ++ singletons (U "ΑΒΓΔΕΖΗΘΙΚΛΜΝΞΟΠΡΣΤΥΦΧΨΩ").

Definition math_symbols : list pystr :=
  singletons (U "∑∏∫∞≤≥≠±∝∈∀∃").

Definition math_patterns : list Re.regex :=
  [ (* \b[a-zA-Z]\s*=\s*[a-zA-Z0-9+\-*/^()]+ *)
    Re.WordB \; Re.Chr Re.letter \; Re.star Re.space \; Re.Chr (Re.lit "=") \;
      Re.star Re.space \;
      Re.plus (Re.union Re.letter
                 (Re.union (Re.range "0" "9") (Re.one_of "+-*/^()")));
    (* \b[a-zA-Z]+\s*\^\s*[0-9]+ *)
    Re.WordB \; Re.plus Re.letter \; Re.star Re.space \; Re.Chr (Re.lit "^") \;
      Re.star Re.space \; Re.plus (Re.range "0" "9");
    (* \b[a-zA-Z]+_[a-zA-Z0-9]+ *)
    Re.WordB \; Re.plus Re.letter \; Re.Chr (Re.lit "_") \;
      Re.plus (Re.union Re.letter (Re.range "0" "9")) ].

(** [if '$' in line or '$$' in line: continue] *)
Definition skipped (line : pystr) : bool :=
  Str.contains (U "$") line || Str.contains (U "$$") line.

(** The body of the first two loops over the lines: one issue for each
    entry of [table] that occurs in the line without its images. *)
Definition occurrence_step (table : list pystr) (mk : Z -> pystr -> issue)
    (issues : list issue) (il : Z * pystr) : list issue :=
  let '(i, line) := il in
  if skipped line then issues
  else
    let line_without_images := Re.sub_empty image_syntax_re line in
    fold_left (fun issues entry =>
                 if Str.contains entry line_without_images
                 then issues ++ [mk i entry] else issues)
              table issues.

(** The body of the third loop: one issue for the first pattern found. *)
Definition expression_step (issues : list issue) (il : Z * pystr) : list issue :=
  let '(i, line) := il in
  if skipped line then issues
  else
    let line_without_images := Re.sub_empty image_syntax_re line in
    if existsb (fun pattern => is_some (Re.search pattern line_without_images))
               math_patterns
    then issues ++ [BareExpression i] else issues.

Definition issues_of (content : pystr) : list issue :=
  let lines := Str.split NL content in
  let issues := [] in
  let issues :=
    fold_left (occurrence_step greek_letters BareGreek) (enumerate 1 lines) issues in
  let issues :=
    fold_left (occurrence_step math_symbols BareSymbol) (enumerate 1 lines) issues in
  fold_left expression_step (enumerate 1 lines) issues.

Definition verify_latex_formulas (content : pystr) : finding :=
  let issues := issues_of content in
  [ ("has_issues", VBool (0 <? len issues)%Z);
    ("issues", VIssues issues) ].

End Latex.

(** * The bibliography file, as seen by the program *)

(** An entry of [bib_db.entries]: [bibtexparser] gives every entry its
    ['ID']; the other fields are those written in the file. *)
Record bib_entry : Type := {
  entry_id : pystr;
  entry_fields : list (pystr * pystr)
}.

(** [entry.get(field, '')] for a field other than ['ID'] *)
Fixpoint field_get (field : pystr) (fields : list (pystr * pystr)) : pystr :=
  match fields with
  | [] => []
  | (k, v) :: fields' => if Str.eqb k field then v else field_get field fields'
  end.

(** The file system: [os.path.exists], and the outcome of reading a file
    and parsing it with [bibtexparser.loads]. *)
Record filesystem : Type := {
  path_exists : pystr -> bool;
  load_bib : pystr -> res (list bib_entry)
}.

(** * [verify_citations] *)

Module Citations.

(** The pattern, its parts set apart: [\[  @  ( [^\]]+ )  \]] *)
Definition citation_pattern : Re.regex :=
  Re.Chr (Re.lit "[") \; Re.Chr (Re.lit "@") \;
  Re.Group (Re.plus (Re.none_of "]")) \; Re.Chr (Re.lit "]").

(** The pattern, its parts set apart: [\[  (?!@)  [^\]]*  \]] *)
Definition invalid_citation_pattern : Re.regex :=
  Re.Chr (Re.lit "[") \; Re.NotAhead (Re.Chr (Re.lit "@")) \;
  Re.star (Re.none_of "]") \; Re.Chr (Re.lit "]").

(** [citation_pattern] has one group: [re.findall] returns its texts. *)
Definition citations_of (content : pystr) : list pystr :=
  map (Re.group 0) (Re.findall citation_pattern content).

(** [invalid_citation_pattern] has no group: [re.findall] returns the
    whole matches, brackets included. *)
Definition invalid_citations_of (content : pystr) : list pystr :=
  let content_without_images := Re.sub_empty image_syntax_re content in
  map Re.whole (Re.findall invalid_citation_pattern content_without_images).

(** [not ('http' in invalid or invalid.isdigit())] *)
Definition flagged (invalid : pystr) : bool :=
  negb (Str.contains (U "http") invalid || Str.isdigit invalid).

(** The body of [for invalid in invalid_citations]. *)
Definition invalid_step (issues : list issue) (invalid : pystr) : list issue :=
  if flagged invalid then issues ++ [NonStandardCitation invalid] else issues.

(** The body of [for citation in citations]. *)
Definition citation_step (bib_keys : list pystr) (issues : list issue)
    (citation : pystr) : list issue :=
  if negb (Str.mem citation bib_keys)
  then issues ++ [CitationNotInBib citation] else issues.

(** [len(set(citations))] *)
Fixpoint distinct (l : list pystr) : list pystr :=
  match l with
  | [] => []
  | x :: l' => if Str.mem x l' then distinct l' else x :: distinct l'
  end.

(** The check against the bib file, with its [try] and [except]. *)
Definition check_bib (fs : filesystem) (bib_file_path : option pystr)
    (citations : list pystr) (issues : list issue) : list issue :=
  match bib_file_path with
  | Some path =>
      if Str.truthy path && path_exists fs path then
        match load_bib fs path with
        | Ok entries =>
            let bib_keys := map entry_id entries in
            fold_left (citation_step bib_keys) citations issues
        | Raise e => issues ++ [BibReadError e]
        end
      else issues
  | None => issues
  end.

Definition verify_citations (fs : filesystem) (content : pystr)
    (bib_file_path : option pystr) : finding :=
  let citations := citations_of content in
  match citations with
  | [] =>
      [ ("has_issues", VBool false);
        ("issues", VIssues []);
        ("citations_found", VInt 0);
        ("unique_citations", VInt 0) ]
  | _ :: _ =>
      let issues := fold_left invalid_step (invalid_citations_of content) [] in
      let issues := check_bib fs bib_file_path citations issues in
      [ ("has_issues", VBool (0 <? len issues)%Z);
        ("issues", VIssues issues);
        ("citations_found", VInt (len citations));
        ("unique_citations", VInt (len (distinct citations))) ]
  end.

End Citations.

(** * [verify_images] *)

Module Images.

(** The pattern, its parts set apart:
    [!  \[  ( [^\]]* )  \]  \(  ( [^)]+ )  \)] *)
Definition image_pattern : Re.regex :=
  Re.Chr (Re.lit "!") \; Re.Chr (Re.lit "[") \;
  Re.Group (Re.star (Re.none_of "]")) \; Re.Chr (Re.lit "]") \;
  Re.Chr (Re.lit "(") \; Re.Group (Re.plus (Re.none_of ")")) \;
  Re.Chr (Re.lit ")").

(** [image_pattern] has two groups: [re.findall] returns the pairs
    [(alt_text, img_path)]. *)
Definition images_of (content : pystr) : list (pystr * pystr) :=
  map (fun m => (Re.group 0 m, Re.group 1 m)) (Re.findall image_pattern content).

(** [os.path.isabs] of [posixpath] *)
Definition isabs (path : pystr) : bool := Str.startswith path (U "/").

(** The body of [for alt_text, img_path in images]. *)
Definition image_step (fs : filesystem) (issues : list issue)
    (image : pystr * pystr) : list issue :=
  let '(alt_text, img_path) := image in
  if Str.startswith img_path (U "http://") || Str.startswith img_path (U "https://")
  then issues ++ [ImageNetworkLink alt_text img_path]
  else if negb (isabs img_path)
  then issues ++ [ImageRelativePath alt_text img_path]
  else if negb (path_exists fs img_path)
  then issues ++ [ImageMissing img_path]
  else issues.

Definition verify_images (fs : filesystem) (content md_file_path : pystr) : finding :=
  let images := images_of content in
  let issues := fold_left (image_step fs) images [] in
  [ ("has_issues", VBool (0 <? len issues)%Z);
    ("issues", VIssues issues);
    ("images_found", VInt (len images)) ].

End Images.

(** * [verify_code_blocks] *)

Module CodeBlocks.

Definition fence : pystr := U "```".

(** [line.strip().startswith('```')] *)
Definition is_fence_line (line : pystr) : bool :=
  Str.startswith (Str.strip line) fence.

(** [line.strip()[3:].strip() or "代码"] *)
Definition block_type_of (line : pystr) : pystr :=
  let tag := Str.strip (skipn 3 (Str.strip line)) in
  if Str.truthy tag then tag else U "代码".

(** The body of the first loop; the state is [in_code_block] and [issues]. *)
Definition fence_step (st : bool * list issue) (il : Z * pystr) : bool * list issue :=
  let '(in_code_block, issues) := st in
  let '(i, line) := il in
  if is_fence_line line then
    if negb in_code_block
    then (true, issues ++ [FenceOpened i (block_type_of line)])
    else (false, issues)
  else st.

(** The body of the second loop. *)
Definition inline_step (issues : list issue) (il : Z * pystr) : list issue :=
  let '(i, line) := il in
  if Str.contains (U "`") line && negb (is_fence_line line) then
    let backtick_count := Str.count_char (chr "`") line in
    if (2 <=? backtick_count)%Z then issues ++ [InlineCode i] else issues
  else issues.

Definition issues_of (content : pystr) : list issue :=
  let lines := Str.split NL content in
  let issues := snd (fold_left fence_step (enumerate 1 lines) (false, [])) in
  fold_left inline_step (enumerate 1 lines) issues.

Definition verify_code_blocks (content : pystr) : finding :=
  let issues := issues_of content in
  [ ("has_issues", VBool (0 <? len issues)%Z);
    ("issues", VIssues issues) ].

End CodeBlocks.

(** * [WebSearchAPI.search_reference] *)

Module Web.

(** What one call sends: the query and the result limit of the payload,
    and the credential of the header. *)
Record request : Type := {
  req_query : pystr;
  req_num : Z;
  req_api_key : pystr
}.

(** What happens to a request: a call of [http.client] raises, or a
    response arrives, with its status and with what
    [json.loads(data.decode("utf-8"))] makes of its body. *)
Inductive outcome : Type :=
| Fails (e : pyexn)
| Responds (status : Z) (body : res json).

(** The network: the outcome of a request, given the requests sent
    before it. *)
Definition network : Type := list request -> request -> outcome.

Definition organic : pystr := U "organic".

(** [result[key]] when [result] is a [dict]; a dict has each key once. *)
Fixpoint member (key : pystr) (members : list (pystr * json)) : option json :=
  match members with
  | [] => None
  | (k, v) :: members' => if Str.eqb k key then Some v else member key members'
  end.

Definition is_str (s : pystr) (j : json) : bool :=
  match j with JStr s' => Str.eqb s' s | _ => false end.

(** ["organic" in result] *)
Definition contains_organic (result : json) : res bool :=
  match result with
  | JObj members => Ok (is_some (member organic members))
  | JArr l => Ok (existsb (is_str organic) l)
  | JStr s => Ok (Str.contains organic s)
  | JNull | JBool _ | JInt _ | JFloat _ => Raise TypeError
  end.

(** [result["organic"]] *)
Definition get_organic (result : json) : res json :=
  match result with
  | JObj members =>
      match member organic members with
      | Some v => Ok v
      | None => Raise KeyError
      end
  | _ => Raise TypeError
  end.

(** [len(v)] *)
Definition json_len (v : json) : res Z :=
  match v with
  | JArr l => Ok (len l)
  | JStr s => Ok (len s)
  | JObj members => Ok (len members)
  | JNull | JBool _ | JInt _ | JFloat _ => Raise TypeError
  end.

(** [v[:3]] *)
Definition first3 (v : json) : res json :=
  match v with
  | JArr l => Ok (JArr (firstn 3 l))
  | JStr s => Ok (JStr (firstn 3 s))
  | _ => Raise TypeError
  end.

Definition QUOTE : pystr := [34%N].

(** [f'"{title}"'], then [' {authors}'] when there are authors *)
Definition query_of (title authors : pystr) : pystr :=
  let query := QUOTE ++ title ++ QUOTE in
  if Str.truthy authors then query ++ U " " ++ authors else query.

Definition failure (e : search_error) : finding :=
  [ ("success", VBool false); ("error", VError e) ].

(** What the [try] block does with the outcome of the request. *)
Definition read_response (o : outcome) : res finding :=
  match o with
  | Fails e => Raise e
  | Responds status body =>
      if negb (status =? 200)%Z then Ok (failure (BadStatus status))
      else
        result <- body ;;
        has <- contains_organic result ;;
        nonempty <-
          (if has : bool
           then v <- get_organic result ;; n <- json_len v ;; Ok (0 <? n)%Z
           else Ok false) ;;
        if nonempty : bool then
          v <- get_organic result ;;
          results <- first3 v ;;
          Ok [ ("success", VBool true);
               ("found", VBool true);
               ("results", VJson results) ]
        else
          Ok [ ("success", VBool true);
               ("found", VBool false);
               ("results", VJson (JArr [])) ]
  end.

(** [search_reference]: the result, or the exception that leaves the
    method, and the requests sent so far.  [api_key] is [self.api_key]. *)
Definition search_reference (net : network) (api_key : option pystr)
    (title authors : pystr) (sent : list request)
    : res finding * list request :=
  match api_key with
  | Some ((_ :: _) as key) =>
      let query := query_of title authors in
      let payload := {| req_query := query; req_num := 3; req_api_key := key |} in
      (try_except (read_response (net sent payload))
                  (fun e => Ok (failure (RequestFailed e))),
       sent ++ [payload])
  | Some [] | None => (Ok (failure NoApiKey), sent)
  end.

End Web.

(** * [verify_bib_references] *)

Module Bib.

(** [issues], [verified_count], [total_count] *)
Record state : Type := {
  issues : list issue;
  verified_count : Z;
  total_count : Z
}.

Definition add_issue (i : issue) (st : state) : state :=
  {| issues := issues st ++ [i];
     verified_count := verified_count st;
     total_count := total_count st |}.

Definition add_verified (st : state) : state :=
  {| issues := issues st;
     verified_count := (verified_count st + 1)%Z;
     total_count := total_count st |}.

Definition add_total (st : state) : state :=
  {| issues := issues st;
     verified_count := verified_count st;
     total_count := (total_count st + 1)%Z |}.

(** [search_result.get('error', 'Unknown error')] *)
Definition error_of (search_result : finding) : search_error :=
  match dict_get "error" search_result with
  | Some (VError e) => e
  | _ => UnknownError
  end.

(** The three branches that follow the lookup of an entry. *)
Definition classify (entry_key title : pystr) (search_result : finding)
    (st : state) : res state :=
  success <- getitem search_result "success" ;;
  if negb (truth success)
  then Ok (add_issue (LookupFailed entry_key (error_of search_result)) st)
  else
    found <- getitem search_result "found" ;;
    if negb (truth found)
    then Ok (add_issue (MaybeNotReal entry_key title) st)
    else Ok (add_verified st).

Definition title_of (entry : bib_entry) : pystr :=
  field_get (U "title") (entry_fields entry).
Definition author_of (entry : bib_entry) : pystr :=
  field_get (U "author") (entry_fields entry).

(** [for entry in entries], inside the [try]: the state and the requests
    sent when the loop ends, and the exception that ended it, if any. *)
Fixpoint entries_loop (net : Web.network) (api_key : option pystr)
    (entries : list bib_entry) (st : state) (sent : list Web.request)
    : state * list Web.request * option pyexn :=
  match entries with
  | [] => (st, sent, None)
  | entry :: rest =>
      let st := add_total st in
      let title := title_of entry in
      let author := author_of entry in
      let entry_key := entry_id entry in
      if negb (Str.truthy title)
      then entries_loop net api_key rest (add_issue (MissingTitle entry_key) st) sent
      else
        let '(search_result, sent) :=
          Web.search_reference net api_key title author sent in
        match search_result <- search_result ;;
              classify entry_key title search_result st with
        | Ok st => entries_loop net api_key rest st sent
        | Raise e => (st, sent, Some e)
        end
  end.

Definition initial : state :=
  {| issues := []; verified_count := 0; total_count := 0 |}.

(** The [try] block and its [except]. *)
Definition run (fs : filesystem) (net : Web.network) (api_key : option pystr)
    (bib_file_path : pystr) (sent : list Web.request)
    : state * list Web.request :=
  let '(st, sent, raised) :=
    match load_bib fs bib_file_path with
    | Ok entries => entries_loop net api_key entries initial sent
    | Raise e => (initial, sent, Some e)
    end in
  match raised with
  | Some e => (add_issue (BibParseError e) st, sent)
  | None => (st, sent)
  end.

Definition verify_bib_references (fs : filesystem) (net : Web.network)
    (api_key : option pystr) (bib_file_path : pystr)
    (sent : list Web.request) : finding * list Web.request :=
  if negb (path_exists fs bib_file_path) then
    ([ ("has_issues", VBool true);
       ("issues", VIssues [BibFileMissing bib_file_path]);
       ("verified_count", VInt 0);
       ("total_count", VInt 0) ], sent)
  else
    let '(st, sent) := run fs net api_key bib_file_path sent in
    ([ ("has_issues", VBool (0 <? len (issues st))%Z);
       ("issues", VIssues (issues st));
       ("verified_count", VInt (verified_count st));
       ("total_count", VInt (total_count st)) ], sent).

End Bib.

(** * [verify_paper] *)

Module Paper.

(** The [error] strings of [verify_paper]. *)
Inductive paper_error : Type :=
| MarkdownMissing (md_file_path : pystr)  (* "Markdown文件不存在: {md_file_path}" *)
| ReadFailed (e : pyexn).                 (* "读取文件失败: {str(e)}" *)

(** The [dict] that [verify_paper] returns has one of two forms:
    [{"success": False, "error": ...}], or [{"success": True,
    "md_file_path": ..., "bib_file_path": ..., "verification_results":
    {...}}], to which the server adds the key ["timestamp"]. *)
Inductive outcome : Type :=
| Failed (error : paper_error)
| Verified (md_file_path : pystr) (bib_file_path : option pystr)
    (timestamp : option pystr) (verification_results : list (string * finding)).

(** [api_key or os.getenv('SERPER_API_KEY')], the credential that
    [WebSearchAPI.__init__] keeps; [env_key] is what [os.getenv] returns. *)
Definition api_key_of (api_key env_key : option pystr) : option pystr :=
  match api_key with
  | Some (_ :: _) => api_key
  | Some [] | None => env_key
  end.

(** [verify_paper].  [read_text] is the outcome of opening and reading a
    file as UTF-8. *)
Definition verify_paper (fs : filesystem) (read_text : pystr -> res pystr)
    (net : Web.network) (env_key : option pystr)
    (md_file_path : pystr) (bib_file_path serper_api_key : option pystr)
    (sent : list Web.request) : outcome * list Web.request :=
  if negb (path_exists fs md_file_path)
  then (Failed (MarkdownMissing md_file_path), sent)
  else
    match read_text md_file_path with
    | Raise e => (Failed (ReadFailed e), sent)
    | Ok content =>
        let api_key := api_key_of serper_api_key env_key in
        let verification_results :=
          [ ("sparse_content", Sparse.verify_sparse_content content);
            ("stereotype_content", Stereotype.verify_stereotype_content content);
            ("latex_formulas", Latex.verify_latex_formulas content);
            ("citations", Citations.verify_citations fs content bib_file_path);
            ("images", Images.verify_images fs content md_file_path);
            ("code_blocks", CodeBlocks.verify_code_blocks content) ] in
        match bib_file_path with
        | Some ((_ :: _) as path) =>
            let '(bib_references, sent) :=
              Bib.verify_bib_references fs net api_key path sent in
            (Verified md_file_path bib_file_path None
               (verification_results ++ [("bib_references", bib_references)]),
             sent)
        | Some [] | None =>
            (Verified md_file_path bib_file_path None verification_results, sent)
        end
    end.

End Paper.

(** * [generate_report] *)

Module Report.

(** The report is a string built piece by piece; a piece is kept here
    with the values it interpolates, its fixed text in the comment. *)
Inductive piece : Type :=
| ErrorReport (error : Paper.paper_error)
    (* "# 论文验证报告\n\n**错误**: {error}\n" *)
| Header (md_file : pystr) (bib_file timestamp : option pystr)
    (* "# 论文验证报告 ... **文件路径**: {md_file} **bib文件**: {bib_file}
       **验证时间**: {timestamp or 'N/A'} ---" *)
| Section (number : Z)            (* "## {number}. ...\n\n" *)
| StatusFail                      (* "**状态**: ❌ 发现问题\n\n" *)
| StatusPass                      (* "**状态**: ✅ 通过\n" *)
| IssueLine (i : issue)           (* "- {issue}\n" *)
| Score (v : pyval)               (* "\n**稀疏度得分**: {v:.2f}\n" *)
| ParagraphCount (v : pyval)      (* "**段落数量**: {v}\n\n" *)
| Affected (a t : pyval)          (* "\n**受影响段落**: {a}/{t}\n" *)
| CitationCount (f u : pyval)     (* "**引用数量**: {f} (唯一: {u})\n\n" *)
| ImageCount (v : pyval)          (* "**图片数量**: {v}\n\n" *)
| VerifiedCount (v t : pyval)     (* "**验证成功**: {v}/{t}\n\n" *)
| SummaryFail (total_issues : Z)  (* "**总体状态**: ❌ 发现 {total_issues} 类问题 ..." *)
| SummaryPass.                    (* "**总体状态**: ✅ 所有检查通过 ..." *)

(** [results[key]] *)
Fixpoint results_get (key : string) (results : list (string * finding))
    : res finding :=
  match results with
  | [] => Raise KeyError
  | (k, f) :: results' =>
      if String.eqb k key then Ok f else results_get key results'
  end.

(** [for issue in f["issues"]: report += f"- {issue}\n"].  The analyzers
    store a list of issues under this key and nothing else; a value of
    another kind is not iterated here. *)
Definition issue_lines (f : finding) : res (list piece) :=
  v <- getitem f "issues" ;;
  match v with
  | VIssues l => Ok (map IssueLine l)
  | _ => Raise TypeError
  end.

(** The form that the seven sections share: the banner by [has_issues],
    the issues and [when_failed] after a fail banner, then [always]. *)
Definition section (number : Z) (f : finding)
    (when_failed always : res (list piece)) : res (list piece) :=
  flag <- getitem f "has_issues" ;;
  body <-
    (if truth flag
     then issues <- issue_lines f ;; extra <- when_failed ;;
          Ok (StatusFail :: issues ++ extra)
     else Ok [StatusPass]) ;;
  tail <- always ;;
  Ok (Section number :: body ++ tail).

(** [result.get("has_issues", False)], as a truth value *)
Definition flagged (f : finding) : bool :=
  match dict_get "has_issues" f with
  | Some v => truth v
  | None => false
  end.

(** [sum(1 for result in all_results if result.get("has_issues", False))] *)
Definition total_issues (results : list (string * finding)) : Z :=
  len (filter (fun kf => flagged (snd kf)) results).

Definition generate_report (verification_results : Paper.outcome) : res (list piece) :=
  match verification_results with
  | Paper.Failed error => Ok [ErrorReport error]
  | Paper.Verified md_file bib_file timestamp results =>
      sparse <- results_get "sparse_content" results ;;
      s1 <- section 1 sparse
              (v <- getitem sparse "sparsity_score" ;; Ok [Score v])
              (v <- getitem sparse "paragraph_count" ;; Ok [ParagraphCount v]) ;;
      stereotype <- results_get "stereotype_content" results ;;
      s2 <- section 2 stereotype
              (a <- getitem stereotype "affected_paragraphs" ;;
               t <- getitem stereotype "total_paragraphs" ;;
               Ok [Affected a t])
              (Ok []) ;;
      latex <- results_get "latex_formulas" results ;;
      s3 <- section 3 latex (Ok []) (Ok []) ;;
      citations <- results_get "citations" results ;;
      s4 <- section 4 citations (Ok [])
              (f <- getitem citations "citations_found" ;;
               u <- getitem citations "unique_citations" ;;
               Ok [CitationCount f u]) ;;
      images <- results_get "images" results ;;
      s5 <- section 5 images (Ok [])
              (v <- getitem images "images_found" ;; Ok [ImageCount v]) ;;
      code_blocks <- results_get "code_blocks" results ;;
      s6 <- section 6 code_blocks (Ok []) (Ok []) ;;
      s7 <-
        match results_get "bib_references" results with
        | Ok bib_refs =>
            section 7 bib_refs (Ok [])
              (v <- getitem bib_refs "verified_count" ;;
               t <- getitem bib_refs "total_count" ;;
               Ok [VerifiedCount v t])
        | Raise _ => Ok []
        end ;;
      let n := total_issues results in
      Ok (Header md_file bib_file timestamp
            :: s1 ++ s2 ++ s3 ++ s4 ++ s5 ++ s6 ++ s7
            ++ [if (0 <? n)%Z then SummaryFail n else SummaryPass])
  end.

End Report.

(** * [verify_paper_comprehensive] of [server.py] *)

Module Server.

(** The [error] strings of the tool. *)
Inductive tool_error : Type :=
| NotVerified (error : Paper.paper_error)  (* [verification_results["error"]] *)
| Exception (e : pyexn).                   (* "验证过程中出错: {str(e)}" *)

(** The two forms of the [dict] that the tool returns, by ["status"]. *)
Inductive tool_result : Type :=
| ToolError (error : tool_error) (md_file_path : pystr)
| ToolSuccess (md_file_path : pystr) (bib_file_path : option pystr)
    (total_issues_found : Z) (verification_summary : list (string * pyval))
    (detailed_results : Paper.outcome) (markdown_report : list Report.piece).

(** [results[key]["has_issues"]] *)
Definition flag_of (results : list (string * finding)) (key : string) : res pyval :=
  f <- Report.results_get key results ;; getitem f "has_issues".

(** [results.get("bib_references", {}).get("has_issues", False)] *)
Definition bib_flag_of (results : list (string * finding)) : pyval :=
  match Report.results_get "bib_references" results with
  | Ok f =>
      match dict_get "has_issues" f with
      | Some v => v
      | None => VBool false
      end
  | Raise _ => VBool false
  end.

(** What the [try] block does with the result of [verify_paper].  [now]
    is [datetime.now().isoformat()]. *)
Definition respond (now md_file_path : pystr) (bib_file_path : option pystr)
    (generate_markdown_report : bool) (verification_results : Paper.outcome)
    : res tool_result :=
  match verification_results with
  | Paper.Failed error => Ok (ToolError (NotVerified error) md_file_path)
  | Paper.Verified md bib _ results =>
      let verification_results := Paper.Verified md bib (Some now) results in
      report <-
        (if generate_markdown_report
         then Report.generate_report verification_results
         else Ok []) ;;
      let total_issues := Report.total_issues results in
      sparse_content <- flag_of results "sparse_content" ;;
      stereotype_content <- flag_of results "stereotype_content" ;;
      latex_formulas <- flag_of results "latex_formulas" ;;
      citations <- flag_of results "citations" ;;
      reference_count <- flag_of results "reference_count" ;;
      images <- flag_of results "images" ;;
      code_blocks <- flag_of results "code_blocks" ;;
      Ok (ToolSuccess md_file_path bib_file_path total_issues
            [ ("sparse_content", sparse_content);
              ("stereotype_content", stereotype_content);
              ("latex_formulas", latex_formulas);
              ("citations", citations);
              ("reference_count", reference_count);
              ("images", images);
              ("code_blocks", code_blocks);
              ("bib_references", bib_flag_of results) ]
            verification_results report)
  end.

(** The [try] block. *)
Definition attempt (fs : filesystem) (read_text : pystr -> res pystr)
    (net : Web.network) (env_key : option pystr) (now : pystr)
    (md_file_path : pystr) (bib_file_path serper_api_key : option pystr)
    (generate_markdown_report : bool) (sent : list Web.request)
    : res tool_result * list Web.request :=
  let serper_api_key :=
    match serper_api_key with
    | Some (_ :: _) => serper_api_key
    | Some [] | None => env_key
    end in
  let '(verification_results, sent) :=
    Paper.verify_paper fs read_text net env_key md_file_path bib_file_path
      serper_api_key sent in
  (respond now md_file_path bib_file_path generate_markdown_report
     verification_results, sent).

(** [verify_paper_comprehensive]: the [try] block and its [except]. *)
Definition verify_paper_comprehensive (fs : filesystem)
    (read_text : pystr -> res pystr) (net : Web.network)
    (env_key : option pystr) (now : pystr)
    (md_file_path : pystr) (bib_file_path serper_api_key : option pystr)
    (generate_markdown_report : bool) (sent : list Web.request)
    : tool_result * list Web.request :=
  let '(result, sent) :=
    attempt fs read_text net env_key now md_file_path bib_file_path
      serper_api_key generate_markdown_report sent in
  (match result with
   | Ok r => r
   | Raise e => ToolError (Exception e) md_file_path
   end, sent).

End Server.

(** * Notions that the properties are stated with *)

(** [has_issues == (len(issues) > 0)] in a returned finding. *)
Definition consistent (d : finding) : Prop :=
  exists issues,
    dict_get "issues" d = Some (VIssues issues) /\
    dict_get "has_issues" d = Some (VBool (0 <? len issues)%Z).

(** ** For [verify_images] *)

Module ImagesSpec.

(** The first failing check of one image, as the specification orders
    them: network link, then relative path, then missing file. *)
Definition verdict (fs : filesystem) (image : pystr * pystr) : list issue :=
  let alt_text := fst image in
  let target := snd image in
  if Str.startswith target (U "http://") || Str.startswith target (U "https://")
  then [ImageNetworkLink alt_text target]
  else if negb (Images.isabs target) then [ImageRelativePath alt_text target]
  else if negb (path_exists fs target) then [ImageMissing target]
  else [].

End ImagesSpec.

(** ** For [verify_code_blocks] *)

(** The line numbers that the fence issues of a list name, and those that
    its inline-code issues name. *)
Definition fence_lines (issues : list issue) : list Z :=
  flat_map (fun x => match x with FenceOpened i _ => [i] | _ => [] end) issues.

Definition inline_lines (issues : list issue) : list Z :=
  flat_map (fun x => match x with InlineCode i => [i] | _ => [] end) issues.

(** What the second loop appends for one line. *)
Definition inline_verdict (il : Z * pystr) : list issue :=
  if Str.contains (U "`") (snd il) && negb (CodeBlocks.is_fence_line (snd il))
  then if (2 <=? Str.count_char (chr "`") (snd il))%Z then [InlineCode (fst il)] else []
  else [].

(** ** For [verify_latex_formulas] *)

(** The line that a formula issue names, and its kind: 0 for a bare Greek
    letter, 1 for a math symbol, 2 for a bare expression. *)
Definition line_of (x : issue) : Z :=
  match x with
  | BareGreek i _ | BareSymbol i _ | BareExpression i => i
  | _ => 0
  end.

Definition kind_of (x : issue) : Z :=
  match x with
  | BareGreek _ _ => 0
  | BareSymbol _ _ => 1
  | BareExpression _ => 2
  | _ => 3
  end.

(** Line first, kind second. *)
Definition line_then_kind (a b : issue) : bool :=
  (line_of a <? line_of b)%Z
  || ((line_of a =? line_of b)%Z && (kind_of a <=? kind_of b)%Z).

(** Kind first, line second. *)
Definition kind_then_line (a b : issue) : bool :=
  (kind_of a <? kind_of b)%Z
  || ((kind_of a =? kind_of b)%Z && (line_of a <=? line_of b)%Z).

(** Every element is in order with every later one. *)
Fixpoint ordered_by (le : issue -> issue -> bool) (l : list issue) : bool :=
  match l with
  | [] => true
  | a :: l' => forallb (le a) l' && ordered_by le l'
  end.

(** What one line contributes to each of the three passes. *)
Definition occurrences (table : list pystr) (mk : Z -> pystr -> issue)
    (il : Z * pystr) : list issue :=
  if Latex.skipped (snd il) then []
  else
    map (mk (fst il))
      (filter (fun entry =>
                 Str.contains entry (Re.sub_empty image_syntax_re (snd il)))
              table).

Definition expression_at (il : Z * pystr) : list issue :=
  if Latex.skipped (snd il) then []
  else if existsb (fun pattern =>
            is_some (Re.search pattern (Re.sub_empty image_syntax_re (snd il))))
          Latex.math_patterns
  then [BareExpression (fst il)] else [].

(** ** For [verify_sparse_content] *)

(** A document of ten paragraphs of one repeated letter: five of 30
    characters, two of 150 and three of 300. *)
Definition ten_paragraphs : pystr :=
  Str.join (NL ++ NL)
    (repeat (repeat (chr "x") 30) 5
     ++ repeat (repeat (chr "x") 150) 2
     ++ repeat (repeat (chr "x") 300) 3).

(** ** For [search_reference] *)







(** A network that answers every request with status 200 and the object
    [{"organic": "abcdef"}]. *)
Definition answers_organic_string : Web.network :=
  fun _ _ => Web.Responds 200 (Ok (JObj [(Web.organic, JStr (U "abcdef"))])).

(** The payload of a call with credential [key]. *)
Definition payload_of (key title authors : pystr) : Web.request :=
  {| Web.req_query := Web.query_of title authors;
     Web.req_num := 3;
     Web.req_api_key := key |}.

(** ** For [verify_bib_references] *)

Definition titled (entry : bib_entry) : bool := Str.truthy (Bib.title_of entry).

Definition untitled (entry : bib_entry) : bool := negb (titled entry).

Definition is_missing_title (x : issue) : bool :=
  match x with MissingTitle _ => true | _ => false end.

(** The two forms of a result of [search_reference]. *)
Definition lookup_result (d : finding) : Prop :=
  (exists e, d = Web.failure e) \/
  (exists found results,
      d = [ ("success", VBool true); ("found", VBool found);
            ("results", VJson results) ]).

(** The lookup of an entry, after the requests [sent], succeeds and finds
    it. *)
Definition lookup_finds (net : Web.network) (api_key : option pystr)
    (entry : bib_entry) (sent : list Web.request) : bool :=
  match fst (Web.search_reference net api_key (Bib.title_of entry)
               (Bib.author_of entry) sent) with
  | Ok d =>
      match dict_get "success" d, dict_get "found" d with
      | Some (VBool true), Some (VBool true) => true
      | _, _ => false
      end
  | Raise _ => false
  end.

(** The requests that a run over [entries] sends: one for each entry with
    a title, when there is a credential. *)
Definition requests_for (api_key : option pystr) (entries : list bib_entry)
    : list Web.request :=
  match api_key with
  | Some ((_ :: _) as key) =>
      map (fun entry => payload_of key (Bib.title_of entry) (Bib.author_of entry))
          (filter titled entries)
  | Some [] | None => []
  end.

(** The number of entries with a title whose lookup succeeds and finds
    them, each lookup made after those of the entries before it. *)
Fixpoint found_entries (net : Web.network) (api_key : option pystr)
    (entries : list bib_entry) (sent : list Web.request) : Z :=
  match entries with
  | [] => 0
  | entry :: rest =>
      if titled entry then
        ((if lookup_finds net api_key entry sent then 1 else 0)
         + found_entries net api_key rest (sent ++ requests_for api_key [entry]))%Z
      else found_entries net api_key rest sent
  end.

(** A file system with one bib file of three entries, the second without
    title, and a network that finds the first request only. *)
Definition three_entries : list bib_entry :=
  [ {| entry_id := U "knuth1984";
       entry_fields := [(U "title", U "Literate Programming"); (U "author", U "Knuth")] |};
    {| entry_id := U "untitled";
       entry_fields := [(U "author", U "Nobody")] |};
    {| entry_id := U "ghost2020";
       entry_fields := [(U "title", U "A Paper That Is Not There")] |} ].

Definition one_bib_file : filesystem :=
  {| path_exists := fun path => Str.eqb path (U "/refs.bib");
     load_bib := fun _ => Ok three_entries |}.

Definition finds_first_only : Web.network :=
  fun sent _ =>
    match sent with
    | [] => Web.Responds 200
              (Ok (JObj [(U "organic", JArr [JStr (U "Literate Programming")])]))
    | _ => Web.Responds 200 (Ok (JObj []))
    end.

(** ** For [verify_stereotype_content] *)

(** The expressions that match in a paragraph: the phrases it contains,
    then the descriptions of the bold patterns that match it. *)
Definition matched_in (paragraph : pystr) : list pystr :=
  filter (fun word => Str.contains word paragraph) Stereotype.stereotype_words
  ++ map snd (filter (fun pd => Stereotype.bold_match paragraph (fst pd))
                     Stereotype.bold_patterns).

(** The matches of a text, paragraph after paragraph. *)
Definition seen (paragraphs : list pystr) : list pystr :=
  flat_map matched_in paragraphs.

Definition affected (paragraph : pystr) : bool :=
  match matched_in paragraph with [] => false | _ :: _ => true end.

(** The position at which [x] is first seen in [events]. *)
Fixpoint first_seen (x : pystr) (events : list pystr) : nat :=
  match events with
  | [] => 0
  | y :: events' => if Str.eqb y x then 0 else S (first_seen x events')
  end.

(** Recording a sequence of matches, one after the other. *)
Definition record_all (events : list pystr) (st : Stereotype.state) : Stereotype.state :=
  fold_left (fun st e => Stereotype.record e st) events st.

(** Appending the events that are new, each once. *)
Fixpoint add_new (found events : list pystr) : list pystr :=
  match events with
  | [] => found
  | e :: events' =>
      add_new (if Str.mem e found then found else found ++ [e]) events'
  end.

(** What [add_new] keeps: the events seen, each once, in the order in
    which each was first seen. *)
Definition first_seen_order (found events : list pystr) : Prop :=
  NoDup found /\
  (forall x, In x found <-> In x events) /\
  StronglySorted (fun x y => first_seen x events < first_seen y events) found.

(** No range of [a] meets a range of [b]. *)
Definition ranges_disjoint (a b : list (N * N)) : bool :=
  forallb (fun r =>
    forallb (fun r' => (snd r <? fst r')%N || (snd r' <? fst r)%N) b) a.
(** ** More on [verify_sparse_content] *)

(** The scores that the three checks can add up to, and that of a text
    without paragraph. *)
Definition possible_scores : list float :=
  [0; 0.2; 0.3; 0.4; 0.5; 0.7; 1]%float.

(** A string that does not begin with a whitespace character. *)
Definition starts_clean (s : pystr) : Prop :=
  match s with
  | c :: _ => Unicode.isspace c = false
  | [] => True
  end.

(** The entries of a list of strings differ from one another. *)
Fixpoint all_distinct (l : list pystr) : bool :=
  match l with
  | [] => true
  | x :: l' => negb (Str.mem x l') && all_distinct l'
  end.

(** ** For [verify_citations] *)

(** The issues for the bracketed spans, and those for the citations whose
    key is not among [ids], one for each citation in the order of the
    text. *)
Definition bracket_issues (content : pystr) : list issue :=
  map NonStandardCitation
      (filter Citations.flagged (Citations.invalid_citations_of content)).

Definition missing_key_issues (ids citations : list pystr) : list issue :=
  map CitationNotInBib (filter (fun c => negb (Str.mem c ids)) citations).

(** ** For [verify_images], again *)

(** A target that passes the three checks. *)
Definition usable_image (fs : filesystem) (image : pystr * pystr) : bool :=
  negb (Str.startswith (snd image) (U "http://")
        || Str.startswith (snd image) (U "https://"))
  && Images.isabs (snd image) && path_exists fs (snd image).

(** ** For [verify_stereotype_content], again *)

(** Everything that can appear in [found_expressions]: the twelve phrases
    and the three descriptions. *)
Definition all_expressions : list pystr :=
  Stereotype.stereotype_words ++ map snd Stereotype.bold_patterns.

(** The place of an expression in the tables of the analyzer: the
    phrases in the order of [stereotype_words], then the descriptions. *)
Definition rank (x : pystr) : nat := first_seen x all_expressions.

(** [x] matches in [paragraph]. *)
Definition matches_in (x paragraph : pystr) : bool :=
  Str.mem x (matched_in paragraph).

(** The index of the first paragraph in which [x] matches. *)
Fixpoint first_paragraph (x : pystr) (paragraphs : list pystr) : nat :=
  match paragraphs with
  | [] => 0
  | p :: paragraphs' =>
      if matches_in x p then 0 else S (first_paragraph x paragraphs')
  end.

(** The order of [found_expressions]: by the first paragraph in which an
    expression matches and, among the expressions that first match in
    the same paragraph, by the tables. *)
Definition listed_before (paragraphs : list pystr) (x y : pystr) : Prop :=
  first_paragraph x paragraphs < first_paragraph y paragraphs \/
  (first_paragraph x paragraphs = first_paragraph y paragraphs /\ rank x < rank y).

(** The index at which [word] first occurs in [text]. *)
Fixpoint position (word text : pystr) {struct text} : option nat :=
  if Str.startswith text word then Some 0
  else match text with
       | [] => None
       | _ :: text' => option_map S (position word text')
       end.

(** The paragraph of the specification's example, its two sentences
    exchanged. *)
Definition exchanged_sentences : pystr :=
  U "其次，我们验证了这个方法。首先，我们提出了一个新方法。".

(** [a] is [b] with some of its elements left out. *)
Inductive subseq (A : Type) : list A -> list A -> Prop :=
| subseq_nil : subseq [] []
| subseq_skip (x : A) (a b : list A) : subseq a b -> subseq a (x :: b)
| subseq_take (x : A) (a b : list A) : subseq a b -> subseq (x :: a) (x :: b).

(** ** For [verify_bib_references], again *)

(** The issue of an entry when there is no credential. *)
Definition issue_without_credential (entry : bib_entry) : issue :=
  if titled entry then LookupFailed (entry_id entry) NoApiKey
  else MissingTitle (entry_id entry).

(** No credential: [self.api_key] is [None] or the empty string. *)
Definition unconfigured (api_key : option pystr) : bool :=
  match api_key with
  | Some (_ :: _) => false
  | Some [] | None => true
  end.

(** ** For [verify_paper] and [generate_report] *)

(** The six findings that [verify_paper] always computes. *)
Definition six_findings (fs : filesystem) (content md_file_path : pystr)
    (bib_file_path : option pystr) : list (string * finding) :=
  [ ("sparse_content", Sparse.verify_sparse_content content);
    ("stereotype_content", Stereotype.verify_stereotype_content content);
    ("latex_formulas", Latex.verify_latex_formulas content);
    ("citations", Citations.verify_citations fs content bib_file_path);
    ("images", Images.verify_images fs content md_file_path);
    ("code_blocks", CodeBlocks.verify_code_blocks content) ].

(** A finding that holds at least one issue. *)
Definition holds_issues (f : finding) : bool :=
  match dict_get "issues" f with
  | Some (VIssues (_ :: _)) => true
  | _ => false
  end.

(** The checks of a result that hold at least one issue, by name. *)
Definition failed_checks (results : list (string * finding)) : list string :=
  map fst (filter (fun kf => holds_issues (snd kf)) results).

(** The summary that closes the report: all checks passed when no check
    holds an issue, and otherwise the number of checks that hold one. *)
Definition summary_of (results : list (string * finding)) : Report.piece :=
  match failed_checks results with
  | [] => Report.SummaryPass
  | _ :: _ => Report.SummaryFail (len (failed_checks results))
  end.

(** A file system with one document, and what reading it gives. *)
Definition one_document : filesystem :=
  {| path_exists := fun path => Str.eqb path (U "/paper.md");
     load_bib := fun _ => Raise (LibraryError (U "no such file")) |}.

Definition reads_short_text : pystr -> res pystr := fun _ => Ok (U "short text").

Definition no_network : Web.network :=
  fun _ _ => Web.Fails (LibraryError (U "unreachable")).

(** ** For the paragraphs of [verify_sparse_content] *)

(** A string without newline. *)
Definition one_line (s : pystr) : bool :=
  forallb (fun c => negb (c =? Str.LF)%N) s.

(** A line of a paragraph: a single line, not empty, trimmed, and no
    heading. *)
Definition body_line (l : pystr) : Prop :=
  one_line l = true /\ l <> [] /\ Str.strip l = l /\
  Re.match_ Sparse.heading_re l = None.

(** A paragraph: one or more such lines, joined by newlines. *)
Definition built_from_lines (p : pystr) : Prop :=
  exists lines, lines <> [] /\ p = Str.join NL lines /\ Forall body_line lines.

(** The lines of a paragraph, as [p.split('\n')] gives them, are all such
    lines: a paragraph holds no empty line, no line with blanks around
    it, and no heading. *)
Definition lines_are_body (p : pystr) : Prop := Forall body_line (Str.split NL p).

(** A trimmed text that does not begin with a heading, with a heading, an
    empty line and a line of blanks inside it. *)
Definition text_around_heading : pystr :=
  U "text" ++ NL ++ U "# Heading" ++ NL ++ NL ++ U "   " ++ NL ++ U "more".

(** The state of the segmentation keeps paragraphs built from lines, and
    lines of the paragraph under way. *)
Definition seg_invariant (st : Sparse.seg_state) : Prop :=
  Forall built_from_lines (fst st) /\ Forall body_line (snd st).

(** ** For the patterns *)

(** The character before a position that lies [s] after one preceded by
    [prev]. *)
Definition last_before (prev : option N) (s : pystr) : option N :=
  fold_left (fun _ c => Some c) s prev.

(** The text of an image reference. *)
Definition image_text (alt target : pystr) : pystr :=
  U "![" ++ alt ++ U "](" ++ target ++ U ")".

(** A string without any character of [chars]. *)
Definition free_of (chars : string) (s : pystr) : bool :=
  forallb (Re.none_of chars) s.

(** The text of a citation marker. *)
Definition citation_text (key : pystr) : pystr := U "[@" ++ key ++ U "]".

(** * Properties *)

Unset Implicit Arguments.

(** ** Lists, loops and dictionaries *)

Lemma len_nonneg {A : Type} (l : list A) : (0 <= len l)%Z.
Proof. unfold len. lia. Qed.

Lemma len_app {A : Type} (l1 l2 : list A) : len (l1 ++ l2) = (len l1 + len l2)%Z.
Proof. unfold len. rewrite length_app. lia. Qed.

Lemma len_map {A B : Type} (f : A -> B) (l : list A) : len (map f l) = len l.
Proof. unfold len. now rewrite length_map. Qed.

Lemma len_cons {A : Type} (a : A) (l : list A) : len (a :: l) = (len l + 1)%Z.
Proof. unfold len. cbn [List.length]. lia. Qed.

(** A loop whose body only appends to its accumulator collects what each
    round appends. *)
Lemma fold_left_appends {A B : Type} (step : list B -> A -> list B)
    (f : A -> list B) :
  (forall acc x, step acc x = acc ++ f x) ->
  forall l acc, fold_left step l acc = acc ++ flat_map f l.
Proof.
  intros Hstep l. induction l as [|x l IH]; intros acc; cbn [fold_left flat_map].
  - now rewrite app_nil_r.
  - rewrite IH, Hstep. now rewrite app_assoc.
Qed.

Lemma in_enumerate_bounds {A : Type} (l : list A) :
  forall i j x, In (j, x) (enumerate i l) -> (i <= j < i + len l)%Z.
Proof.
  induction l as [|a l IH]; intros i j x H; cbn [enumerate] in H.
  - contradiction.
  - rewrite len_cons. destruct H as [H|H].
    + inversion H; subst. pose proof (len_nonneg l). lia.
    + apply IH in H. lia.
Qed.

(** A line number names one line. *)
Lemma in_enumerate_functional {A : Type} (l : list A) :
  forall i j x y,
    In (j, x) (enumerate i l) -> In (j, y) (enumerate i l) -> x = y.
Proof.
  induction l as [|a l IH]; intros i j x y Hx Hy; cbn [enumerate] in *.
  - contradiction.
  - destruct Hx as [Hx|Hx], Hy as [Hy|Hy].
    + congruence.
    + inversion Hx; subst. apply in_enumerate_bounds in Hy. lia.
    + inversion Hy; subst. apply in_enumerate_bounds in Hx. lia.
    + eapply IH; eassumption.
Qed.


Lemma consistent_built (issues : list issue) (rest : finding) :
  consistent (("has_issues", VBool (0 <? len issues)%Z)
              :: ("issues", VIssues issues) :: rest).
Proof. exists issues. split; reflexivity. Qed.

(** ** All analyzers: the flag and the list agree *)

(** C4: for each of the seven analyzers and every input (text, paths, file
    system, network, credential), the returned finding has
    [has_issues == (len(issues) > 0)]. *)
Theorem has_issues_iff_issues
    (fs : filesystem) (net : Web.network) (api_key : option pystr)
    (content md_file_path bib_path : pystr) (bib_file_path : option pystr)
    (sent : list Web.request) :
  consistent (Sparse.verify_sparse_content content) /\
  consistent (Stereotype.verify_stereotype_content content) /\
  consistent (Latex.verify_latex_formulas content) /\
  consistent (Citations.verify_citations fs content bib_file_path) /\
  consistent (Images.verify_images fs content md_file_path) /\
  consistent (CodeBlocks.verify_code_blocks content) /\
  consistent (fst (Bib.verify_bib_references fs net api_key bib_path sent)).
Proof.
  repeat split.
  - unfold Sparse.verify_sparse_content.
    destruct (Sparse.paragraphs_of content) as [|p ps].
    + exists [NoMeaningfulParagraphs]. split; reflexivity.
    + cbv zeta.
      destruct (Sparse.check _ _ _ _ (Sparse.check _ _ _ _ (Sparse.check _ _ _ _ _)))
        as [issues score].
      apply consistent_built.
  - apply consistent_built.
  - apply consistent_built.
  - unfold Citations.verify_citations.
    destruct (Citations.citations_of content).
    + exists []. split; reflexivity.
    + apply consistent_built.
  - apply consistent_built.
  - apply consistent_built.
  - unfold Bib.verify_bib_references.
    destruct (negb (path_exists fs bib_path)).
    + exists [BibFileMissing bib_path]. split; reflexivity.
    + destruct (Bib.run fs net api_key bib_path sent) as [st sent'].
      apply consistent_built.
Qed.

(** ** [verify_images] *)


Lemma image_step_verdict (fs : filesystem) (issues : list issue)
    (image : pystr * pystr) :
  Images.image_step fs issues image = issues ++ ImagesSpec.verdict fs image.
Proof.
  destruct image as [alt_text img_path].
  unfold Images.image_step, ImagesSpec.verdict. cbn [fst snd].
  destruct (_ || _); [reflexivity|].
  destruct (negb (Images.isabs img_path)); [reflexivity|].
  destruct (negb (path_exists fs img_path)); [reflexivity|].
  now rewrite app_nil_r.
Qed.

Lemma verdict_at_most_one (fs : filesystem) (image : pystr * pystr) :
  (List.length (ImagesSpec.verdict fs image) <= 1)%nat.
Proof.
  unfold ImagesSpec.verdict.
  destruct (_ || _); [cbn; lia|].
  destruct (negb _); [cbn; lia|].
  destruct (negb _); cbn; lia.
Qed.

Lemma verdict_https (fs : filesystem) (alt_text target : pystr) :
  Str.startswith target (U "https://") = true ->
  ImagesSpec.verdict fs (alt_text, target) = [ImageNetworkLink alt_text target].
Proof.
  intros H. unfold ImagesSpec.verdict. cbn [fst snd].
  rewrite H, orb_true_r. reflexivity.
Qed.

(** C9: the issues of [verify_images] are, image by image in the order of
    the text, the verdict of the first failing check (network link, else
    relative path, else missing file); an image yields at most one issue,
    and one whose target starts with [https://] yields the network-link
    issue and nothing else.  The image of the specification's example
    yields exactly that one issue. *)
Theorem image_first_failing_check (fs : filesystem) (content md_file_path : pystr) :
  dict_get "issues" (Images.verify_images fs content md_file_path)
    = Some (VIssues (flat_map (ImagesSpec.verdict fs) (Images.images_of content))) /\
  (forall image, (List.length (ImagesSpec.verdict fs image) <= 1)%nat) /\
  (forall alt_text target,
      Str.startswith target (U "https://") = true ->
      ImagesSpec.verdict fs (alt_text, target) = [ImageNetworkLink alt_text target]) /\
  dict_get "issues"
    (Images.verify_images fs (U "![web](https://example.com/image.png)") md_file_path)
    = Some (VIssues [ImageNetworkLink (U "web") (U "https://example.com/image.png")]).
Proof.
  split; [|split; [|split]].
  - unfold Images.verify_images. cbn [dict_get String.eqb Ascii.eqb Bool.eqb].
    rewrite (fold_left_appends (Images.image_step fs) (ImagesSpec.verdict fs)
               (image_step_verdict fs)).
    reflexivity.
  - apply verdict_at_most_one.
  - apply verdict_https.
  - vm_compute. reflexivity.
Qed.

(** ** [verify_code_blocks] *)

Lemma fence_lines_app (a b : list issue) :
  fence_lines (a ++ b) = fence_lines a ++ fence_lines b.
Proof. apply flat_map_app. Qed.

Lemma inline_lines_app (a b : list issue) :
  inline_lines (a ++ b) = inline_lines a ++ inline_lines b.
Proof. apply flat_map_app. Qed.

(** The first loop adds fence issues only, each for a fence line. *)
Lemma fence_pass (l : list (Z * pystr)) :
  forall st, exists new,
    snd (fold_left CodeBlocks.fence_step l st) = snd st ++ new /\
    inline_lines new = [] /\
    forall i, In i (fence_lines new) ->
      exists line, In (i, line) l /\ CodeBlocks.is_fence_line line = true.
Proof.
  induction l as [|[i line] l IH]; intros [in_code_block issues].
  - exists []. cbn. rewrite app_nil_r. repeat split. intros ? [].
  - cbn [fold_left]. unfold CodeBlocks.fence_step at 2.
    destruct (CodeBlocks.is_fence_line line) eqn:Hf;
      [destruct (negb in_code_block)|].
    + destruct (IH (true, issues ++ [FenceOpened i (CodeBlocks.block_type_of line)]))
        as (new & Hs & Hi & Hl).
      exists (FenceOpened i (CodeBlocks.block_type_of line) :: new).
      cbn [snd] in *. rewrite Hs, <- app_assoc. repeat split.
      * exact Hi.
      * intros j [<-|Hj]; [exists line; split; [now left|exact Hf]|].
        destruct (Hl j Hj) as (line' & Hin & Hf'). exists line'. split; [now right|exact Hf'].
    + destruct (IH (false, issues)) as (new & Hs & Hi & Hl).
      exists new. repeat split; try assumption.
      intros j Hj. destruct (Hl j Hj) as (line' & Hin & Hf').
      exists line'. split; [now right|exact Hf'].
    + destruct (IH (in_code_block, issues)) as (new & Hs & Hi & Hl).
      exists new. repeat split; try assumption.
      intros j Hj. destruct (Hl j Hj) as (line' & Hin & Hf').
      exists line'. split; [now right|exact Hf'].
Qed.

Lemma inline_step_verdict (issues : list issue) (il : Z * pystr) :
  CodeBlocks.inline_step issues il = issues ++ inline_verdict il.
Proof.
  destruct il as [i line]. unfold CodeBlocks.inline_step, inline_verdict.
  cbn [fst snd].
  destruct (_ && _); [destruct (_ <=? _)%Z|]; now rewrite ?app_nil_r.
Qed.

Lemma inline_verdict_cases (il : Z * pystr) :
  inline_verdict il = [] \/
  (inline_verdict il = [InlineCode (fst il)] /\
   CodeBlocks.is_fence_line (snd il) = false).
Proof.
  unfold inline_verdict.
  destruct (CodeBlocks.is_fence_line (snd il)).
  - left. now rewrite andb_false_r.
  - destruct (_ && _); [destruct (_ <=? _)%Z|]; auto.
Qed.

(** The second loop adds inline-code issues only, none for a fence line. *)
Lemma inline_pass (l : list (Z * pystr)) :
  fence_lines (flat_map inline_verdict l) = [] /\
  forall i, In i (inline_lines (flat_map inline_verdict l)) ->
    exists line, In (i, line) l /\ CodeBlocks.is_fence_line line = false.
Proof.
  induction l as [|[i line] l [IHf IHl]]; cbn [flat_map].
  - split; [reflexivity|intros ? []].
  - rewrite fence_lines_app, inline_lines_app, IHf.
    destruct (inline_verdict_cases (i, line)) as [->|[-> Hf]]; cbn [fst snd] in *.
    + split; [reflexivity|]. cbn [inline_lines flat_map app].
      intros j Hj. destruct (IHl j Hj) as (line' & Hin & Hf').
      exists line'. split; [now right|exact Hf'].
    + split; [reflexivity|]. cbn [inline_lines flat_map app].
      intros j [<-|Hj]; [exists line; split; [now left|exact Hf]|].
      destruct (IHl j Hj) as (line' & Hin & Hf'). exists line'. split; [now right|exact Hf'].
Qed.

(** C10: in [verify_code_blocks], every line number named by a fence issue
    is that of a line whose trimmed content starts with three backticks,
    every line number named by an inline-code issue is that of a line
    whose trimmed content does not, and so no line number is named by
    both. *)
Theorem fence_and_inline_lines_disjoint (content : pystr) :
  let lines := enumerate 1 (Str.split NL content) in
  let issues := CodeBlocks.issues_of content in
  (forall i, In i (fence_lines issues) ->
     exists line, In (i, line) lines /\ CodeBlocks.is_fence_line line = true) /\
  (forall i, In i (inline_lines issues) ->
     exists line, In (i, line) lines /\ CodeBlocks.is_fence_line line = false) /\
  (forall i, ~ (In i (fence_lines issues) /\ In i (inline_lines issues))).
Proof.
  intros lines issues.
  assert (H : (forall i, In i (fence_lines issues) ->
             exists line, In (i, line) lines /\ CodeBlocks.is_fence_line line = true) /\
          (forall i, In i (inline_lines issues) ->
             exists line, In (i, line) lines /\ CodeBlocks.is_fence_line line = false)).
  { subst issues. unfold CodeBlocks.issues_of. fold lines.
    rewrite (fold_left_appends CodeBlocks.inline_step inline_verdict inline_step_verdict).
    destruct (fence_pass lines (false, [])) as (new & Hs & Hi & Hl).
    destruct (inline_pass lines) as [Hf2 Hl2].
    rewrite Hs. cbn [snd app].
    rewrite fence_lines_app, inline_lines_app, Hi, Hf2, app_nil_r. cbn [app].
    split; assumption. }
  destruct H as [Hfence Hinline]. repeat split; try assumption.
  intros i [Hf Hi].
  destruct (Hfence i Hf) as (l1 & Hin1 & H1).
  destruct (Hinline i Hi) as (l2 & Hin2 & H2).
  assert (l1 = l2) by (eapply in_enumerate_functional; eassumption).
  congruence.
Qed.

(** ** [verify_latex_formulas] *)

Lemma ordered_by_app (le : issue -> issue -> bool) (a b : list issue) :
  ordered_by le a = true ->
  ordered_by le b = true ->
  (forall x y, In x a -> In y b -> le x y = true) ->
  ordered_by le (a ++ b) = true.
Proof.
  induction a as [|x a IH]; intros Ha Hb Hab; cbn [app ordered_by] in *.
  - exact Hb.
  - apply andb_true_iff in Ha as [Hx Ha].
    apply andb_true_iff. split.
    + rewrite forallb_app. apply andb_true_iff. split; [exact Hx|].
      apply forallb_forall. intros y Hy. apply Hab; [now left|exact Hy].
    + apply IH; auto. intros; apply Hab; [now right|assumption].
Qed.

(** Issues of one kind for one line are in order, whichever order. *)
Lemma ordered_same_line (k j : Z) (xs : list issue) :
  (forall x, In x xs -> kind_of x = k /\ line_of x = j) ->
  ordered_by kind_then_line xs = true.
Proof.
  induction xs as [|x xs IH]; intros H; cbn [ordered_by]; [reflexivity|].
  apply andb_true_iff. split.
  - apply forallb_forall. intros y Hy.
    destruct (H x (or_introl eq_refl)) as [Hk Hl].
    destruct (H y (or_intror Hy)) as [Hk' Hl'].
    unfold kind_then_line. rewrite Hk, Hk', Hl, Hl'.
    rewrite Z.eqb_refl, Z.leb_refl. apply orb_true_r.
  - apply IH. intros; apply H; now right.
Qed.

(** One pass over the numbered lines gives issues of its kind, with
    line numbers that never decrease. *)
Lemma pass_ordered (f : Z * pystr -> list issue) (k : Z) :
  (forall j line x, In x (f (j, line)) -> kind_of x = k /\ line_of x = j) ->
  forall (l : list pystr) (i : Z),
    ordered_by kind_then_line (flat_map f (enumerate i l)) = true /\
    forall x, In x (flat_map f (enumerate i l)) ->
      kind_of x = k /\ (i <= line_of x)%Z.
Proof.
  intros Hf l. induction l as [|line l IH]; intros i; cbn [enumerate flat_map].
  - split; [reflexivity|intros ? []].
  - destruct (IH (i + 1)%Z) as [IHo IHk]. split.
    + apply ordered_by_app.
      * apply (ordered_same_line k i). intros x Hx. eapply Hf; eassumption.
      * exact IHo.
      * intros x y Hx Hy. destruct (Hf _ _ _ Hx) as [Hk Hl].
        destruct (IHk _ Hy) as [Hk' Hl'].
        unfold kind_then_line. rewrite Hk, Hk', Z.eqb_refl.
        replace (line_of x <=? line_of y)%Z with true by (symmetry; apply Z.leb_le; lia).
        apply orb_true_r.
    + intros x Hx. apply in_app_or in Hx as [Hx|Hx].
      * destruct (Hf _ _ _ Hx) as [Hk Hl]. split; [exact Hk|lia].
      * destruct (IHk _ Hx) as [Hk Hl]. split; [exact Hk|lia].
Qed.

Lemma occurrence_step_spec (table : list pystr) (mk : Z -> pystr -> issue)
    (issues : list issue) (il : Z * pystr) :
  Latex.occurrence_step table mk issues il = issues ++ occurrences table mk il.
Proof.
  destruct il as [i line]. unfold Latex.occurrence_step, occurrences. cbn [fst snd].
  destruct (Latex.skipped line); [now rewrite app_nil_r|].
  generalize (Re.sub_empty image_syntax_re line) as text. intros text.
  revert issues. induction table as [|entry table IH]; intros issues; cbn [fold_left filter map].
  - now rewrite app_nil_r.
  - destruct (Str.contains entry text); rewrite IH; cbn [map]; [|reflexivity].
    now rewrite <- app_assoc.
Qed.

Lemma expression_step_spec (issues : list issue) (il : Z * pystr) :
  Latex.expression_step issues il = issues ++ expression_at il.
Proof.
  destruct il as [i line]. unfold Latex.expression_step, expression_at. cbn [fst snd].
  destruct (Latex.skipped line); [now rewrite app_nil_r|].
  destruct (existsb _ _); [reflexivity|now rewrite app_nil_r].
Qed.

(** The list is the three passes, one after the other. *)
Lemma latex_issues_three_passes (content : pystr) :
  let lines := enumerate 1 (Str.split NL content) in
  Latex.issues_of content =
    flat_map (occurrences Latex.greek_letters BareGreek) lines
    ++ flat_map (occurrences Latex.math_symbols BareSymbol) lines
    ++ flat_map expression_at lines.
Proof.
  intros lines. unfold Latex.issues_of. fold lines.
  rewrite (fold_left_appends _ _ expression_step_spec).
  rewrite !(fold_left_appends _ _ (occurrence_step_spec _ _)).
  cbn [app]. now rewrite app_assoc.
Qed.

Lemma occurrences_kind (table : list pystr) (mk : Z -> pystr -> issue) (k : Z) :
  (forall i entry, kind_of (mk i entry) = k /\ line_of (mk i entry) = i) ->
  forall j line x, In x (occurrences table mk (j, line)) ->
    kind_of x = k /\ line_of x = j.
Proof.
  intros Hmk j line x. unfold occurrences. cbn [fst snd].
  destruct (Latex.skipped line); [intros []|].
  intros Hx. apply in_map_iff in Hx as (entry & <- & _). apply Hmk.
Qed.

Lemma expression_at_kind (j : Z) (line : pystr) (x : issue) :
  In x (expression_at (j, line)) -> kind_of x = 2%Z /\ line_of x = j.
Proof.
  unfold expression_at. cbn [fst snd].
  destruct (Latex.skipped line); [intros []|].
  destruct (existsb _ _); [|intros []].
  intros [<-|[]]. split; reflexivity.
Qed.

(** C1, as the code has it: the issues of [verify_latex_formulas] are the
    three passes one after the other, so they are ordered by kind first
    (bare Greek letters, then math symbols, then bare expressions) and by
    line number within a kind. *)
Theorem latex_issues_kind_then_line (content : pystr) :
  ordered_by kind_then_line (Latex.issues_of content) = true.
Proof.
  rewrite latex_issues_three_passes. cbv zeta.
  set (lines := Str.split NL content).
  destruct (pass_ordered (occurrences Latex.greek_letters BareGreek) 0
              (occurrences_kind Latex.greek_letters BareGreek 0
                 (fun i e => conj eq_refl eq_refl)) lines 1)
    as [Hg Hgk].
  destruct (pass_ordered (occurrences Latex.math_symbols BareSymbol) 1
              (occurrences_kind Latex.math_symbols BareSymbol 1
                 (fun i e => conj eq_refl eq_refl)) lines 1)
    as [Hs Hsk].
  destruct (pass_ordered expression_at 2 expression_at_kind lines 1)
    as [He Hek].
  apply ordered_by_app; [exact Hg| |].
  - apply ordered_by_app; [exact Hs|exact He|].
    intros x y Hx Hy. destruct (Hsk x Hx) as [Hk _], (Hek y Hy) as [Hk' _].
    unfold kind_then_line. now rewrite Hk, Hk'.
  - intros x y Hx Hy. destruct (Hgk x Hx) as [Hk _].
    unfold kind_then_line. rewrite Hk.
    apply in_app_or in Hy as [Hy|Hy].
    + destruct (Hsk y Hy) as [-> _]. reflexivity.
    + destruct (Hek y Hy) as [-> _]. reflexivity.
Qed.

(** C1, as the claim has it, fails: with a symbol on line 1 and a Greek
    letter on line 2, the issue of the letter comes first, and the list is
    not ordered by line. *)
Lemma latex_issues_not_line_first :
  Latex.issues_of (Str.join NL [U "∑"; U "α"])
    = [BareGreek 2 (U "α"); BareSymbol 1 (U "∑")] /\
  ordered_by line_then_kind (Latex.issues_of (Str.join NL [U "∑"; U "α"])) = false.
Proof. split; vm_compute; reflexivity. Qed.

(** ** [verify_citations] *)

(** C2 fails on the code for numeric spans: [re.findall] returns the whole
    match of a pattern without group, so [invalid] begins with a bracket,
    [invalid.isdigit()] is false whatever follows, and [[123]] is
    reported although [123] alone is numeric. *)
Theorem numeric_span_is_reported (fs : filesystem) :
  dict_get "issues" (Citations.verify_citations fs (U "[@key] [123]") None)
    = Some (VIssues [NonStandardCitation (U "[123]")]) /\
  Str.isdigit (U "123") = true /\
  forall s, Str.isdigit (U "[" ++ s) = false.
Proof.
  split; [|split].
  - vm_compute. reflexivity.
  - vm_compute. reflexivity.
  - intros s. reflexivity.
Qed.

(** ** [verify_sparse_content] *)

(** Without a paragraph of more than 20 characters the result has three
    keys only. *)
Lemma sparse_without_paragraphs (content : pystr) :
  Sparse.paragraphs_of content = [] ->
  Sparse.verify_sparse_content content =
    [ ("has_issues", VBool true);
      ("issues", VIssues [NoMeaningfulParagraphs]);
      ("sparsity_score", VFloat 1%float) ].
Proof. intros H. unfold Sparse.verify_sparse_content. now rewrite H. Qed.

(** C3 fails on the code when no paragraph remains: the result reports
    [has_issues], the single issue and the score 1.0, but has neither
    [paragraph_count] nor [median_length], and reading either, as
    [generate_report] does, raises [KeyError]. *)
Theorem sparse_empty_lacks_fields :
  Sparse.verify_sparse_content (U "") =
    [ ("has_issues", VBool true);
      ("issues", VIssues [NoMeaningfulParagraphs]);
      ("sparsity_score", VFloat 1%float) ] /\
  getitem (Sparse.verify_sparse_content (U "")) "paragraph_count" = Raise KeyError /\
  getitem (Sparse.verify_sparse_content (U "")) "median_length" = Raise KeyError /\
  has_key "paragraph_count" (Sparse.verify_sparse_content (U "short text")) = false.
Proof. repeat split; vm_compute; reflexivity. Qed.

(** C5: when ten paragraphs remain, seven of them shorter than 300
    characters, five shorter than 100, and none list-like, the score is
    0.5 and the issues are the short-paragraph issue (ratio 0.7) and the
    very-short-paragraph issue (ratio 0.5), in that order. *)
Theorem sparse_ten_paragraphs (content : pystr) :
  len (Sparse.paragraphs_of content) = 10%Z ->
  Sparse.count_short 300 (map (@len N) (Sparse.paragraphs_of content)) = 7%Z ->
  Sparse.count_short 100 (map (@len N) (Sparse.paragraphs_of content)) = 5%Z ->
  Sparse.count_list_like (Sparse.paragraphs_of content) = 0%Z ->
  dict_get "sparsity_score" (Sparse.verify_sparse_content content)
    = Some (VFloat 0.5%float) /\
  dict_get "issues" (Sparse.verify_sparse_content content)
    = Some (VIssues [TooManyShort 0.7%float; TooManyVeryShort 0.5%float]) /\
  dict_get "has_issues" (Sparse.verify_sparse_content content)
    = Some (VBool true).
Proof.
  intros Hn H300 H100 Hlist.
  unfold Sparse.verify_sparse_content.
  destruct (Sparse.paragraphs_of content) as [|p ps] eqn:E; [discriminate Hn|].
  cbv zeta. unfold pystr in *. rewrite len_map, Hn, H300, H100, Hlist.
  set (st := Sparse.check _ _ _ _ _).
  assert (Hst : st = ([TooManyShort 0.7%float; TooManyVeryShort 0.5%float], 0.5%float))
    by (vm_compute; reflexivity).
  rewrite Hst. repeat split.
Qed.

(** The hypotheses of [sparse_ten_paragraphs] hold of [ten_paragraphs]. *)
Lemma sparse_ten_paragraphs_witness :
  dict_get "sparsity_score" (Sparse.verify_sparse_content ten_paragraphs)
    = Some (VFloat 0.5%float) /\
  dict_get "issues" (Sparse.verify_sparse_content ten_paragraphs)
    = Some (VIssues [TooManyShort 0.7%float; TooManyVeryShort 0.5%float]) /\
  dict_get "has_issues" (Sparse.verify_sparse_content ten_paragraphs)
    = Some (VBool true).
Proof.
  apply (sparse_ten_paragraphs ten_paragraphs); vm_compute; reflexivity.
Defined.

(** ** [search_reference] *)

Lemma search_reference_unconfigured (net : Web.network) (title authors : pystr)
    (sent : list Web.request) :
  Web.search_reference net None title authors sent = (Ok (Web.failure NoApiKey), sent) /\
  Web.search_reference net (Some []) title authors sent = (Ok (Web.failure NoApiKey), sent).
Proof. split; reflexivity. Qed.

Lemma search_reference_configured (net : Web.network) (c : N) (key title authors : pystr)
    (sent : list Web.request) :
  Web.search_reference net (Some (c :: key)) title authors sent =
    (try_except (Web.read_response (net sent (payload_of (c :: key) title authors)))
                (fun e => Ok (Web.failure (RequestFailed e))),
     sent ++ [payload_of (c :: key) title authors]).
Proof. reflexivity. Qed.






(** [found] is not tied to an array either: a non-empty string under
    ["organic"] is found, and [results] holds its first three characters. *)
Lemma organic_string_is_found :
  fst (Web.search_reference answers_organic_string (Some (U "key"))
         (U "A Title") (U "An Author") [])
    = Ok [ ("success", VBool true); ("found", VBool true);
           ("results", VJson (JStr (U "abc"))) ].
Proof. vm_compute. reflexivity. Qed.

(** ** [verify_bib_references] *)

Lemma read_response_shape (o : Web.outcome) :
  forall d, Web.read_response o = Ok d -> lookup_result d.
Proof.
  intros d. unfold Web.read_response.
  destruct o as [e|status body]; [discriminate|].
  destruct (negb (status =? 200)%Z).
  - intros H; inversion H. left. eexists. reflexivity.
  - destruct body as [result|e]; cbn [bind]; [|discriminate].
    destruct (Web.contains_organic result) as [has|e]; cbn [bind]; [|discriminate].
    destruct has.
    + destruct (Web.get_organic result) as [v|e]; cbn [bind]; [|discriminate].
      destruct (Web.json_len v) as [n|e]; cbn [bind]; [|discriminate].
      destruct (0 <? n)%Z.
      * destruct (Web.first3 v) as [results|e]; cbn [bind]; [|discriminate].
        intros H; inversion H. right. do 2 eexists. reflexivity.
      * intros H; inversion H. right. do 2 eexists. reflexivity.
    + cbn [bind]. intros H; inversion H. right. do 2 eexists. reflexivity.
Qed.

(** [search_reference] returns a result of one of the two forms, and
    sends one request when there is a credential, none otherwise. *)
Lemma search_reference_shape (net : Web.network) (api_key : option pystr)
    (entry : bib_entry) (sent : list Web.request) :
  exists d,
    Web.search_reference net api_key (Bib.title_of entry) (Bib.author_of entry) sent
      = (Ok d, sent ++ (if titled entry then requests_for api_key [entry]
                        else match api_key with
                             | Some ((_ :: _) as key) =>
                                 [payload_of key (Bib.title_of entry) (Bib.author_of entry)]
                             | _ => []
                             end)) /\
    lookup_result d.
Proof.
  assert (Hreq : (if titled entry then requests_for api_key [entry]
                  else match api_key with
                       | Some ((_ :: _) as key) =>
                           [payload_of key (Bib.title_of entry) (Bib.author_of entry)]
                       | _ => []
                       end)
                 = match api_key with
                   | Some ((_ :: _) as key) =>
                       [payload_of key (Bib.title_of entry) (Bib.author_of entry)]
                   | _ => []
                   end).
  { unfold requests_for. cbn [filter]. destruct (titled entry); [|reflexivity].
    destruct api_key as [[|c key]|]; reflexivity. }
  rewrite Hreq. clear Hreq.
  destruct api_key as [[|c key]|].
  - eexists. split; [cbn; now rewrite app_nil_r|]. left. eexists. reflexivity.
  - rewrite search_reference_configured. unfold try_except.
    destruct (Web.read_response _) as [d|e] eqn:E.
    + exists d. split; [reflexivity|]. eapply read_response_shape. exact E.
    + eexists. split; [reflexivity|]. left. eexists. reflexivity.
  - eexists. split; [cbn; now rewrite app_nil_r|]. left. eexists. reflexivity.
Qed.

(** After a lookup the entry is verified, or it gets one issue that is
    not a missing-title issue. *)
Lemma classify_lookup_result (entry_key title : pystr) (d : finding) (st : Bib.state) :
  lookup_result d ->
  let found :=
    match dict_get "success" d, dict_get "found" d with
    | Some (VBool true), Some (VBool true) => true
    | _, _ => false
    end in
  exists x,
    is_missing_title x = false /\
    Bib.classify entry_key title d st
      = Ok (if found then Bib.add_verified st else Bib.add_issue x st).
Proof.
  intros [[e ->]|(found & results & ->)]; cbv zeta.
  - exists (LookupFailed entry_key e). split; reflexivity.
  - exists (MaybeNotReal entry_key title). split; [reflexivity|].
    destruct found; reflexivity.
Qed.

Lemma state_eq (i1 i2 : list issue) (v1 v2 t1 t2 : Z) :
  i1 = i2 -> v1 = v2 -> t1 = t2 ->
  {| Bib.issues := i1; Bib.verified_count := v1; Bib.total_count := t1 |}
  = {| Bib.issues := i2; Bib.verified_count := v2; Bib.total_count := t2 |}.
Proof. intros; subst; reflexivity. Qed.

(** The loop over the entries never raises; it counts every entry, sends
    the requests of the entries with a title, verifies those that are
    found, and adds one issue for every other entry. *)
Lemma entries_loop_spec (net : Web.network) (api_key : option pystr)
    (entries : list bib_entry) :
  forall (st : Bib.state) (sent : list Web.request),
  exists new,
    Bib.entries_loop net api_key entries st sent =
      ({| Bib.issues := Bib.issues st ++ new;
          Bib.verified_count :=
            (Bib.verified_count st + found_entries net api_key entries sent)%Z;
          Bib.total_count := (Bib.total_count st + len entries)%Z |},
       sent ++ requests_for api_key entries, None) /\
    filter is_missing_title new
      = map (fun entry => MissingTitle (entry_id entry)) (filter untitled entries) /\
    (0 <= found_entries net api_key entries sent)%Z /\
    (found_entries net api_key entries sent + len new = len entries)%Z.
Proof.
  induction entries as [|entry rest IH]; intros st sent.
  - exists []. cbn [Bib.entries_loop found_entries filter map].
    replace (requests_for api_key []) with (@nil Web.request)
      by (unfold requests_for; destruct api_key as [[|? ?]|]; reflexivity).
    rewrite !app_nil_r. unfold len. cbn [List.length Z.of_nat]. rewrite !Z.add_0_r.
    destruct st. repeat split; reflexivity || lia.
  - cbn [Bib.entries_loop found_entries filter]. unfold untitled at 1.
    assert (Hreqs : requests_for api_key (entry :: rest)
                    = (if titled entry then requests_for api_key [entry] else [])
                      ++ requests_for api_key rest).
    { unfold requests_for. destruct api_key as [[|c key]|]; cbn [filter];
        destruct (titled entry); reflexivity. }
    rewrite Hreqs. rewrite len_cons.
    change (Str.truthy (Bib.title_of entry)) with (titled entry).
    destruct (titled entry) eqn:Ht.
    + cbn [negb].
      destruct (search_reference_shape net api_key entry sent) as (d & Hs & Hd).
      rewrite Ht in Hs. rewrite Hs. cbn [bind].
      destruct (classify_lookup_result (entry_id entry) (Bib.title_of entry) d
                  (Bib.add_total st) Hd) as (x & Hx & Hc).
      cbv zeta in Hc. rewrite Hc.
      unfold lookup_finds. rewrite Hs. cbn [fst].
      destruct (match dict_get "success" d with
                | Some (VBool true) =>
                    match dict_get "found" d with
                    | Some (VBool true) => true
                    | _ => false
                    end
                | _ => false
                end).
      * destruct (IH (Bib.add_verified (Bib.add_total st))
                    (sent ++ requests_for api_key [entry])) as (new & Hl & Hm & H0 & Hn).
        exists new. rewrite Hl. cbn [Bib.add_verified Bib.add_total Bib.issues
          Bib.verified_count Bib.total_count negb map].
        repeat split.
        -- f_equal. f_equal; [apply state_eq; [reflexivity|lia|lia]|now rewrite app_assoc].
        -- exact Hm.
        -- lia.
        -- lia.
      * destruct (IH (Bib.add_issue x (Bib.add_total st))
                    (sent ++ requests_for api_key [entry])) as (new & Hl & Hm & H0 & Hn).
        exists (x :: new). rewrite Hl. cbn [Bib.add_issue Bib.add_total Bib.issues
          Bib.verified_count Bib.total_count negb map filter].
        rewrite Hx.
        repeat split.
        -- f_equal. f_equal; [apply state_eq; [now rewrite <- app_assoc|lia|lia]
                             |now rewrite app_assoc].
        -- exact Hm.
        -- lia.
        -- rewrite len_cons. lia.
    + cbn [negb app].
      destruct (IH (Bib.add_issue (MissingTitle (entry_id entry)) (Bib.add_total st)) sent)
        as (new & Hl & Hm & H0 & Hn).
      exists (MissingTitle (entry_id entry) :: new). rewrite Hl.
      cbn [Bib.add_issue Bib.add_total Bib.issues Bib.verified_count
           Bib.total_count map filter is_missing_title].
      repeat split.
      * f_equal. f_equal. apply state_eq; [now rewrite <- app_assoc|lia|lia].
      * now rewrite Hm.
      * lia.
      * rewrite len_cons. lia.
Qed.



(** ** [verify_stereotype_content] *)

Lemma str_eqb_eq (a b : pystr) : Str.eqb a b = true <-> a = b.
Proof.
  revert b. induction a as [|x a IH]; intros [|y b]; cbn [Str.eqb];
    try (split; [discriminate|discriminate]); [split; reflexivity|].
  rewrite andb_true_iff, N.eqb_eq, IH. split.
  - intros [-> ->]. reflexivity.
  - intros H; inversion H. split; reflexivity.
Qed.

Lemma str_mem_in (x : pystr) (l : list pystr) : Str.mem x l = true <-> In x l.
Proof.
  unfold Str.mem. rewrite existsb_exists. split.
  - intros (y & Hy & Heq). apply str_eqb_eq in Heq. now subst.
  - intros H. exists x. split; [exact H|now apply str_eqb_eq].
Qed.

Lemma str_mem_not_in (x : pystr) (l : list pystr) : Str.mem x l = false <-> ~ In x l.
Proof.
  rewrite <- str_mem_in. destruct (Str.mem x l); split; congruence.
Qed.

(** *** The bold patterns exclude one another *)

Lemma in_ranges_disjoint (a b : list (N * N)) (c : N) :
  ranges_disjoint a b = true ->
  Unicode.in_ranges a c = true -> Unicode.in_ranges b c = false.
Proof.
  intros Hd Ha. unfold Unicode.in_ranges in *.
  apply existsb_exists in Ha as (r & Hr & Hc).
  destruct (existsb _ b) eqn:Hb; [|reflexivity].
  apply existsb_exists in Hb as (r' & Hr' & Hc').
  unfold ranges_disjoint in Hd.
  rewrite forallb_forall in Hd. specialize (Hd r Hr).
  rewrite forallb_forall in Hd. specialize (Hd r' Hr').
  apply andb_true_iff in Hc as [H1 H2]. apply andb_true_iff in Hc' as [H3 H4].
  apply N.leb_le in H1, H2, H3, H4.
  apply orb_true_iff in Hd as [Hd|Hd]; apply N.ltb_lt in Hd; lia.
Qed.

Lemma decimal_not_space (c : N) :
  Unicode.isdecimal c = true -> Unicode.isspace c = false.
Proof.
  apply in_ranges_disjoint. vm_compute. reflexivity.
Qed.

Lemma bold_start_first (p : pystr) :
  Stereotype.bold_match p Stereotype.bold_start = true ->
  exists s, p = chr "*" :: s.
Proof.
  unfold Stereotype.bold_match, Re.match_, Re.match_at, Stereotype.bold_start,
    Stereotype.bold_colon.
  cbn [Re.run]. destruct p as [|c s]; [discriminate|].
  destruct (Re.lit "*" c) eqn:E; [|discriminate].
  intros _. apply N.eqb_eq in E. exists s. now rewrite E.
Qed.

Lemma numbered_bold_first (p : pystr) :
  Stereotype.bold_match p Stereotype.numbered_bold = true ->
  exists c s, p = c :: s /\ Unicode.isdecimal c = true.
Proof.
  unfold Stereotype.bold_match, Re.match_, Re.match_at, Stereotype.numbered_bold,
    Re.plus.
  cbn [Re.run]. destruct p as [|c s]; cbn [Re.many]; [discriminate|].
  destruct (Re.digit c) eqn:E; cbn [andb]; [|discriminate].
  intros _. exists c, s. split; [reflexivity|exact E].
Qed.

Lemma bullet_bold_first (p : pystr) :
  Stereotype.bold_match p Stereotype.bullet_bold = true ->
  exists c s, p = c :: s /\ (Unicode.isspace c = true \/ c = chr "-").
Proof.
  unfold Stereotype.bold_match, Re.match_, Re.match_at, Stereotype.bullet_bold,
    Re.star.
  cbn [Re.run]. destruct p as [|c s]; cbn [Re.many]; [discriminate|].
  destruct (Re.space c) eqn:E; cbn [andb].
  - intros _. exists c, s. split; [reflexivity|left; exact E].
  - destruct (Re.lit "-" c) eqn:E'; [|discriminate].
    intros _. apply N.eqb_eq in E'. exists c, s. split; [reflexivity|right; now rewrite E'].
Qed.

(** At most one of the three bold patterns matches a paragraph. *)
Lemma bold_patterns_exclusive (p : pystr) :
  (Stereotype.bold_match p Stereotype.bold_start = true ->
   Stereotype.bold_match p Stereotype.numbered_bold = false /\
   Stereotype.bold_match p Stereotype.bullet_bold = false) /\
  (Stereotype.bold_match p Stereotype.numbered_bold = true ->
   Stereotype.bold_match p Stereotype.bullet_bold = false).
Proof.
  split.
  - intros H1. apply bold_start_first in H1 as (s & ->). split.
    + destruct (Stereotype.bold_match _ Stereotype.numbered_bold) eqn:H2; [|reflexivity].
      apply numbered_bold_first in H2 as (c & s' & Heq & Hc).
      injection Heq as Hcs _. rewrite <- Hcs in Hc. vm_compute in Hc. discriminate Hc.
    + destruct (Stereotype.bold_match _ Stereotype.bullet_bold) eqn:H3; [|reflexivity].
      apply bullet_bold_first in H3 as (c & s' & Heq & [Hc|Hc]);
        injection Heq as Hcs _; rewrite <- Hcs in Hc; vm_compute in Hc;
        discriminate Hc.
  - intros H2. apply numbered_bold_first in H2 as (c & s & -> & Hc).
    destruct (Stereotype.bold_match _ Stereotype.bullet_bold) eqn:H3; [|reflexivity].
    apply bullet_bold_first in H3 as (c' & s' & Heq & [Hc'|Hc']);
      injection Heq as Hcs _; rewrite <- Hcs in Hc'.
    + apply decimal_not_space in Hc. congruence.
    + rewrite Hc' in Hc. vm_compute in Hc. discriminate Hc.
Qed.

(** So the loop that stops at the first match records every match. *)
Lemma bold_loop_records_all (p : pystr) (st : Stereotype.state) :
  Stereotype.bold_loop p Stereotype.bold_patterns st =
    record_all (map snd (filter (fun pd => Stereotype.bold_match p (fst pd))
                                Stereotype.bold_patterns)) st.
Proof.
  destruct (bold_patterns_exclusive p) as [H1 H2].
  unfold Stereotype.bold_patterns, record_all.
  cbn [Stereotype.bold_loop filter fst snd].
  destruct (Stereotype.bold_match p Stereotype.bold_start).
  - destruct (H1 eq_refl) as [-> ->]. cbn [fold_left map snd]. reflexivity.
  - destruct (Stereotype.bold_match p Stereotype.numbered_bold).
    + rewrite (H2 eq_refl). cbn [fold_left map snd]. reflexivity.
    + destruct (Stereotype.bold_match p Stereotype.bullet_bold);
        cbn [fold_left map snd]; reflexivity.
Qed.

Lemma word_loop_records_all (p : pystr) (words : list pystr) :
  forall st,
    fold_left (Stereotype.word_step p) words st =
      record_all (filter (fun word => Str.contains word p) words) st.
Proof.
  unfold record_all.
  induction words as [|w words IH]; intros st; cbn [fold_left filter]; [reflexivity|].
  unfold Stereotype.word_step at 2.
  destruct (Str.contains w p); cbn [fold_left]; apply IH.
Qed.

Lemma record_all_app (a b : list pystr) (st : Stereotype.state) :
  record_all (a ++ b) st = record_all b (record_all a st).
Proof. unfold record_all. apply fold_left_app. Qed.

Lemma paragraph_step_records (st : Stereotype.state) (p : pystr) :
  Stereotype.paragraph_step st p =
    record_all (matched_in p)
      {| Stereotype.found_stereotype_words := Stereotype.found_stereotype_words st;
         Stereotype.paragraphs_with_stereotype := Stereotype.paragraphs_with_stereotype st;
         Stereotype.has_stereotype := false |}.
Proof.
  unfold Stereotype.paragraph_step, matched_in. cbv zeta.
  now rewrite record_all_app, bold_loop_records_all, word_loop_records_all.
Qed.

(** *** What a sequence of records does to the state *)

Lemma record_all_found (events : list pystr) :
  forall st,
    Stereotype.found_stereotype_words (record_all events st)
      = add_new (Stereotype.found_stereotype_words st) events.
Proof.
  unfold record_all.
  induction events as [|e events IH]; intros st; cbn [fold_left add_new]; [reflexivity|].
  rewrite IH. cbn [Stereotype.record Stereotype.found_stereotype_words].
  destruct (Str.mem e (Stereotype.found_stereotype_words st)); reflexivity.
Qed.

Lemma record_all_counted (events : list pystr) :
  forall st,
    Stereotype.has_stereotype st = true ->
    Stereotype.paragraphs_with_stereotype (record_all events st)
      = Stereotype.paragraphs_with_stereotype st.
Proof.
  unfold record_all.
  induction events as [|e events IH]; intros st H; cbn [fold_left]; [reflexivity|].
  rewrite IH by reflexivity.
  cbn [Stereotype.record Stereotype.paragraphs_with_stereotype]. now rewrite H.
Qed.

(** A paragraph counts once, whatever the number of its matches. *)
Lemma record_all_count (events : list pystr) (st : Stereotype.state) :
  Stereotype.has_stereotype st = false ->
  Stereotype.paragraphs_with_stereotype (record_all events st)
    = (Stereotype.paragraphs_with_stereotype st
       + match events with [] => 0 | _ :: _ => 1 end)%Z.
Proof.
  intros H. destruct events as [|e events].
  - cbn. lia.
  - change (record_all (e :: events) st)
      with (record_all events (Stereotype.record e st)).
    rewrite record_all_counted by reflexivity.
    cbn [Stereotype.record Stereotype.paragraphs_with_stereotype]. now rewrite H.
Qed.

Lemma add_new_app (found a b : list pystr) :
  add_new found (a ++ b) = add_new (add_new found a) b.
Proof.
  revert found. induction a as [|e a IH]; intros found; cbn [app add_new]; [reflexivity|].
  apply IH.
Qed.

Lemma run_from (paragraphs : list pystr) :
  forall st,
    Stereotype.found_stereotype_words (fold_left Stereotype.paragraph_step paragraphs st)
      = add_new (Stereotype.found_stereotype_words st) (seen paragraphs) /\
    Stereotype.paragraphs_with_stereotype
        (fold_left Stereotype.paragraph_step paragraphs st)
      = (Stereotype.paragraphs_with_stereotype st + len (filter affected paragraphs))%Z.
Proof.
  induction paragraphs as [|p paragraphs IH]; intros st; cbn [fold_left seen flat_map filter].
  - split; [reflexivity|]. unfold len. cbn. lia.
  - destruct (IH (Stereotype.paragraph_step st p)) as [Hf Hc].
    fold (seen paragraphs). rewrite Hf, Hc, paragraph_step_records.
    rewrite record_all_found, record_all_count by reflexivity.
    cbn [Stereotype.found_stereotype_words Stereotype.paragraphs_with_stereotype].
    split; [now rewrite add_new_app|].
    unfold affected at 2. destruct (matched_in p); [lia|]. rewrite len_cons. lia.
Qed.

(** *** First-seen order *)

Lemma first_seen_app (x : pystr) (a b : list pystr) :
  In x a -> first_seen x (a ++ b) = first_seen x a.
Proof.
  induction a as [|y a IH]; intros H; [contradiction|].
  cbn [app first_seen]. destruct (Str.eqb y x) eqn:E; [reflexivity|].
  destruct H as [H|H]; [apply str_eqb_eq in H; congruence|].
  now rewrite IH.
Qed.

Lemma first_seen_lt (x : pystr) (a : list pystr) :
  In x a -> first_seen x a < List.length a.
Proof.
  induction a as [|y a IH]; intros H; [contradiction|].
  cbn [first_seen List.length]. destruct (Str.eqb y x) eqn:E; [lia|].
  destruct H as [H|H]; [apply str_eqb_eq in H; congruence|].
  specialize (IH H). lia.
Qed.

Lemma first_seen_new (x : pystr) (a : list pystr) :
  ~ In x a -> first_seen x (a ++ [x]) = List.length a.
Proof.
  induction a as [|y a IH]; intros H; cbn [app first_seen List.length].
  - now rewrite (proj2 (str_eqb_eq x x) eq_refl).
  - destruct (Str.eqb y x) eqn:E.
    + apply str_eqb_eq in E. subst. exfalso. apply H. now left.
    + rewrite IH; [reflexivity|]. intros Hin. apply H. now right.
Qed.

Lemma strongly_sorted_transfer {A : Type} (R R' : A -> A -> Prop) (l : list A) :
  (forall x y, In x l -> In y l -> R x y -> R' x y) ->
  StronglySorted R l -> StronglySorted R' l.
Proof.
  intros H Hs. induction Hs as [|a l Hs IH Hall]; constructor.
  - apply IH. intros x y Hx Hy. apply H; now right.
  - rewrite Forall_forall in *. intros y Hy. apply H; [now left|now right|auto].
Qed.

Lemma strongly_sorted_snoc {A : Type} (R : A -> A -> Prop) (l : list A) (a : A) :
  StronglySorted R l -> Forall (fun x => R x a) l -> StronglySorted R (l ++ [a]).
Proof.
  intros Hs. induction Hs as [|b l Hs IH Hall]; intros Ha; cbn [app].
  - constructor; constructor.
  - inversion Ha; subst. constructor; [now apply IH|].
    apply Forall_app. split; [exact Hall|]. constructor; [assumption|constructor].
Qed.

Lemma add_new_keeps_order (events : list pystr) :
  forall found before,
    first_seen_order found before ->
    first_seen_order (add_new found events) (before ++ events).
Proof.
  induction events as [|e events IH]; intros found before H; cbn [add_new].
  - now rewrite app_nil_r.
  - replace (before ++ e :: events) with ((before ++ [e]) ++ events)
      by now rewrite <- app_assoc.
    apply IH. destruct H as (Hnd & Hin & Hs).
    destruct (Str.mem e found) eqn:Hm.
    + apply str_mem_in in Hm. repeat split.
      * exact Hnd.
      * intros Hx. apply in_or_app. left. now apply Hin.
      * intros Hx. apply in_app_or in Hx as [Hx|[<-|[]]]; [now apply Hin|exact Hm].
      * eapply strongly_sorted_transfer; [|exact Hs].
        intros x y Hx Hy. cbv beta.
        rewrite !first_seen_app by now apply Hin. auto.
    + apply str_mem_not_in in Hm. repeat split.
      * apply NoDup_app; [exact Hnd|constructor; [intros []|constructor]|].
        intros x Hx [<-|[]]. contradiction.
      * intros Hx. apply in_app_or in Hx as [Hx|Hx]; apply in_or_app;
          [left; now apply Hin|now right].
      * intros Hx. apply in_app_or in Hx as [Hx|Hx]; apply in_or_app;
          [left; now apply Hin|now right].
      * apply strongly_sorted_snoc.
        -- eapply strongly_sorted_transfer; [|exact Hs].
           intros x y Hx Hy. cbv beta.
           rewrite !first_seen_app by now apply Hin. auto.
        -- apply Forall_forall. intros x Hx.
           rewrite first_seen_app by now apply Hin.
           rewrite first_seen_new by (intros Hb; apply Hm; now apply Hin).
           apply first_seen_lt. now apply Hin.
Qed.

Lemma all_distinct_NoDup (l : list pystr) : all_distinct l = true -> NoDup l.
Proof.
  induction l as [|x l IH]; cbn [all_distinct]; intros H; constructor.
  - apply andb_true_iff in H as [H _]. apply negb_true_iff in H.
    now apply str_mem_not_in.
  - apply IH. now apply andb_true_iff in H as [_ H].
Qed.

(** *** The order of the expressions found *)

Lemma subseq_filter (A : Type) (f : A -> bool) (l : list A) : subseq (filter f l) l.
Proof.
  induction l as [|x l IH]; cbn [filter]; [constructor|].
  destruct (f x); now constructor.
Qed.

Lemma subseq_app (A : Type) (a b a' b' : list A) :
  subseq a b -> subseq a' b' -> subseq (a ++ a') (b ++ b').
Proof.
  intros H H'. induction H; cbn [app]; [exact H'| |]; now constructor.
Qed.

Lemma subseq_map (A B : Type) (f : A -> B) (a b : list A) :
  subseq a b -> subseq (map f a) (map f b).
Proof. intros H. induction H; cbn [map]; now constructor. Qed.

Lemma subseq_in (A : Type) (a b : list A) (x : A) : subseq a b -> In x a -> In x b.
Proof.
  intros H. induction H; intros Hx; [exact Hx|right; auto|].
  destruct Hx as [Hx|Hx]; [now left|right; auto].
Qed.

(** The matches of a paragraph are listed in the order of the tables. *)
Lemma matched_in_subseq (paragraph : pystr) :
  subseq (matched_in paragraph) all_expressions.
Proof.
  unfold matched_in, all_expressions.
  apply subseq_app; [apply subseq_filter|apply subseq_map, subseq_filter].
Qed.

Lemma first_seen_subseq (a b : list pystr) (x y : pystr) :
  subseq a b -> NoDup b -> In x a -> In y a ->
  first_seen x a < first_seen y a -> first_seen x b < first_seen y b.
Proof.
  intros H. induction H as [|z a b H IH|z a b H IH]; intros Hnd Hx Hy Hlt.
  - destruct Hx.
  - inversion Hnd as [|? ? Hz Hnd']; subst. cbn [first_seen].
    assert (Ex : Str.eqb z x = false).
    { apply not_true_is_false. intros E. apply str_eqb_eq in E. subst z.
      apply Hz. eapply subseq_in; eassumption. }
    assert (Ey : Str.eqb z y = false).
    { apply not_true_is_false. intros E. apply str_eqb_eq in E. subst z.
      apply Hz. eapply subseq_in; eassumption. }
    rewrite Ex, Ey. specialize (IH Hnd' Hx Hy Hlt). lia.
  - inversion Hnd as [|? ? Hz Hnd']; subst. cbn [first_seen] in *.
    destruct (Str.eqb z x) eqn:Ex.
    + destruct (Str.eqb z y) eqn:Ey; lia.
    + destruct (Str.eqb z y) eqn:Ey; [lia|].
      assert (Hx' : In x a).
      { destruct Hx as [Hx|Hx]; [|exact Hx].
        apply str_eqb_eq in Hx. congruence. }
      assert (Hy' : In y a).
      { destruct Hy as [Hy|Hy]; [|exact Hy].
        apply str_eqb_eq in Hy. congruence. }
      assert (Hlt' : first_seen x a < first_seen y a) by lia.
      specialize (IH Hnd' Hx' Hy' Hlt'). lia.
Qed.

Lemma first_seen_after (x : pystr) (a b : list pystr) :
  ~ In x a -> first_seen x (a ++ b) = List.length a + first_seen x b.
Proof.
  induction a as [|y a IH]; intros H; cbn [app first_seen List.length]; [reflexivity|].
  destruct (Str.eqb y x) eqn:E.
  - apply str_eqb_eq in E. subst. exfalso. apply H. now left.
  - rewrite IH; [reflexivity|]. intros Hin. apply H. now right.
Qed.

(** The order in which the loops meet the expressions is the order by
    first paragraph, then by the tables. *)
Lemma first_seen_listed (paragraphs : list pystr) (x y : pystr) :
  In x (seen paragraphs) -> In y (seen paragraphs) ->
  first_seen x (seen paragraphs) < first_seen y (seen paragraphs) ->
  listed_before paragraphs x y.
Proof.
  unfold listed_before.
  induction paragraphs as [|p paragraphs IH]; intros Hx Hy Hlt; [destruct Hx|].
  change (seen (p :: paragraphs)) with (matched_in p ++ seen paragraphs) in *.
  cbn [first_paragraph]. unfold matches_in.
  destruct (Str.mem x (matched_in p)) eqn:Mx; destruct (Str.mem y (matched_in p)) eqn:My.
  - right. split; [reflexivity|].
    apply str_mem_in in Mx. apply str_mem_in in My.
    rewrite !first_seen_app in Hlt by assumption.
    unfold rank. eapply first_seen_subseq; try eassumption.
    + apply matched_in_subseq.
    + apply all_distinct_NoDup. vm_compute. reflexivity.
  - left. lia.
  - exfalso. apply str_mem_in in My. apply str_mem_not_in in Mx.
    rewrite (first_seen_app y _ _ My) in Hlt.
    rewrite (first_seen_after x _ _ Mx) in Hlt.
    pose proof (first_seen_lt _ _ My). lia.
  - apply str_mem_not_in in Mx. apply str_mem_not_in in My.
    rewrite (first_seen_after x _ _ Mx), (first_seen_after y _ _ My) in Hlt.
    apply in_app_or in Hx as [Hx|Hx]; [contradiction|].
    apply in_app_or in Hy as [Hy|Hy]; [contradiction|].
    assert (Hlt' : first_seen x (seen paragraphs) < first_seen y (seen paragraphs))
      by lia.
    destruct (IH Hx Hy Hlt') as [H|[H1 H2]]; [left; lia|right; split; [lia|exact H2]].
Qed.

(** C8, as the code has it: in [verify_stereotype_content],
    [affected_paragraphs] is the number of paragraphs in which some
    phrase or bold pattern matches, so a paragraph counts once whatever
    the number of its matches; [found_expressions] has no duplicate and
    holds exactly the phrases and pattern descriptions that match in
    some paragraph.  Its order is the order in which the loops meet the
    expressions: by the first paragraph in which an expression matches
    and, among the expressions that first match in the same paragraph,
    by the tables of the analyzer, phrases before descriptions; the
    position of an expression within its paragraph plays no part.  On
    the paragraph of the specification's example, one paragraph is
    affected and the two phrases are found, the first of the table
    before the second; and so they are when the two sentences are
    exchanged. *)
Theorem stereotype_once_in_order (content : pystr) :
  (exists found n,
      dict_get "found_expressions" (Stereotype.verify_stereotype_content content)
        = Some (VStrs found) /\
      dict_get "affected_paragraphs" (Stereotype.verify_stereotype_content content)
        = Some (VInt n) /\
      n = len (filter affected (Stereotype.paragraphs_of content)) /\
      (n <= len (Stereotype.paragraphs_of content))%Z /\
      NoDup found /\
      (forall x, In x found <->
         exists p, In p (Stereotype.paragraphs_of content) /\ In x (matched_in p)) /\
      StronglySorted
        (fun x y => first_seen x (seen (Stereotype.paragraphs_of content))
                    < first_seen y (seen (Stereotype.paragraphs_of content)))
        found /\
      StronglySorted (listed_before (Stereotype.paragraphs_of content)) found) /\
  dict_get "affected_paragraphs"
    (Stereotype.verify_stereotype_content
       (U "首先，我们提出了一个新方法。其次，我们验证了这个方法。"))
    = Some (VInt 1) /\
  dict_get "found_expressions"
    (Stereotype.verify_stereotype_content
       (U "首先，我们提出了一个新方法。其次，我们验证了这个方法。"))
    = Some (VStrs [U "首先，"; U "其次，"]) /\
  dict_get "found_expressions"
    (Stereotype.verify_stereotype_content exchanged_sentences)
    = Some (VStrs [U "首先，"; U "其次，"]).
Proof.
  split; [|repeat split; vm_compute; reflexivity].
  set (paragraphs := Stereotype.paragraphs_of content).
  destruct (run_from paragraphs
              {| Stereotype.found_stereotype_words := [];
                 Stereotype.paragraphs_with_stereotype := 0;
                 Stereotype.has_stereotype := false |}) as [Hf Hc].
  cbn [Stereotype.found_stereotype_words Stereotype.paragraphs_with_stereotype] in Hf, Hc.
  exists (Stereotype.found_stereotype_words (Stereotype.run paragraphs)),
         (Stereotype.paragraphs_with_stereotype (Stereotype.run paragraphs)).
  split; [reflexivity|]. split; [reflexivity|].
  unfold Stereotype.run. rewrite Hf, Hc.
  destruct (add_new_keeps_order (seen paragraphs) [] []) as (Hnd & Hin & Hs).
  { repeat split; try constructor; intros []. }
  cbn [app] in Hin, Hs.
  split; [lia|]. split.
  - unfold len. pose proof (filter_length_le affected paragraphs). lia.
  - split; [exact Hnd|]. split; [|split; [exact Hs|]].
    + intros x. rewrite Hin. unfold seen. rewrite in_flat_map. reflexivity.
    + eapply strongly_sorted_transfer; [|exact Hs].
      intros x y Hx Hy Hlt. apply first_seen_listed; [now apply Hin|now apply Hin|exact Hlt].
Qed.

(** C8, as the claim has it, fails when the order first seen is taken as
    the order of the text: in the paragraph of the example with its two
    sentences exchanged, the second phrase of the table comes first in
    the text and is still listed after the first. *)
Lemma found_not_in_text_order :
  dict_get "found_expressions"
    (Stereotype.verify_stereotype_content exchanged_sentences)
    = Some (VStrs [U "首先，"; U "其次，"]) /\
  position (U "其次，") exchanged_sentences = Some 0 /\
  position (U "首先，") exchanged_sentences = Some 13.
Proof. repeat split; vm_compute; reflexivity. Qed.
(** The score of [verify_sparse_content] is one of seven values, and
    [has_issues] is true exactly when the score is above zero. *)
Theorem sparse_score_and_flag (content : pystr) :
  exists score,
    dict_get "sparsity_score" (Sparse.verify_sparse_content content)
      = Some (VFloat score) /\
    dict_get "has_issues" (Sparse.verify_sparse_content content)
      = Some (VBool (PrimFloat.ltb 0 score)) /\
    existsb (PrimFloat.eqb score) possible_scores = true.
Proof.
  unfold Sparse.verify_sparse_content.
  destruct (Sparse.paragraphs_of content) as [|p ps].
  - exists 1%float. repeat split.
  - cbv zeta. unfold Sparse.check.
    repeat match goal with
           | |- context [if PrimFloat.ltb ?a ?b then _ else _] =>
               destruct (PrimFloat.ltb a b)
           end;
      cbn [fst snd app];
      eexists; (split; [reflexivity|]); split; reflexivity.
Qed.

(** *** Trimming *)

Lemma lstrip_starts_clean (s : pystr) : starts_clean (Str.lstrip s).
Proof.
  induction s as [|c s IH]; cbn [Str.lstrip]; [exact I|].
  destruct (Unicode.isspace c) eqn:E; [exact IH|exact E].
Qed.

Lemma lstrip_clean (s : pystr) : starts_clean s -> Str.lstrip s = s.
Proof.
  destruct s as [|c s]; cbn [starts_clean Str.lstrip]; [reflexivity|].
  now intros ->.
Qed.

Lemma lstrip_suffix (s : pystr) : exists pre, s = pre ++ Str.lstrip s.
Proof.
  induction s as [|c s [pre IH]]; cbn [Str.lstrip]; [now exists []|].
  destruct (Unicode.isspace c).
  - exists (c :: pre). cbn [app]. now rewrite <- IH.
  - now exists [].
Qed.

Lemma rstrip_ends_clean (s : pystr) : starts_clean (rev (Str.rstrip s)).
Proof. unfold Str.rstrip. rewrite rev_involutive. apply lstrip_starts_clean. Qed.

Lemma lstrip_keeps_end (s : pystr) :
  starts_clean (rev s) -> starts_clean (rev (Str.lstrip s)).
Proof.
  destruct (lstrip_suffix s) as [pre H]. intros Hs.
  rewrite H, rev_app_distr in Hs.
  destruct (rev (Str.lstrip s)) as [|c r]; [exact I|exact Hs].
Qed.

Lemma strip_clean (s : pystr) :
  starts_clean s -> starts_clean (rev s) -> Str.strip s = s.
Proof.
  intros H1 H2. unfold Str.strip, Str.rstrip.
  rewrite (lstrip_clean (rev s) H2), rev_involutive. now apply lstrip_clean.
Qed.

(** Trimming a trimmed string changes nothing. *)
Lemma strip_idempotent (s : pystr) : Str.strip (Str.strip s) = Str.strip s.
Proof.
  apply strip_clean; unfold Str.strip.
  - apply lstrip_starts_clean.
  - apply lstrip_keeps_end, rstrip_ends_clean.
Qed.

(** ** More on [verify_sparse_content]: the paragraphs *)

(** Every paragraph that [verify_sparse_content] keeps is trimmed and
    longer than 20 characters; [paragraph_count], when the result has it,
    is the number of these paragraphs and is at least 1. *)
Theorem sparse_paragraphs_kept (content : pystr) :
  Forall (fun p => (20 < len p)%Z /\ Str.strip p = p) (Sparse.paragraphs_of content) /\
  (forall v, dict_get "paragraph_count" (Sparse.verify_sparse_content content) = Some v ->
     v = VInt (len (Sparse.paragraphs_of content)) /\
     (1 <= len (Sparse.paragraphs_of content))%Z).
Proof.
  split.
  - apply Forall_forall. intros p Hp. unfold Sparse.paragraphs_of in Hp.
    apply in_map_iff in Hp as (q & <- & Hq). apply filter_In in Hq as [_ Hk].
    unfold Sparse.keep in Hk. apply andb_true_iff in Hk as [_ Hk].
    apply Z.ltb_lt in Hk. split; [exact Hk|apply strip_idempotent].
  - intros v. unfold Sparse.verify_sparse_content.
    destruct (Sparse.paragraphs_of content) as [|p ps].
    + cbn. discriminate.
    + cbv zeta.
      destruct (Sparse.check _ _ _ _ (Sparse.check _ _ _ _ (Sparse.check _ _ _ _ _)))
        as [issues score].
      cbn [dict_get String.eqb Ascii.eqb Bool.eqb].
      intros H; inversion H. split; [reflexivity|].
      rewrite len_cons. pose proof (len_nonneg ps). lia.
Qed.

(** ** More on [verify_latex_formulas] *)

Lemma in_pass (f : Z * pystr -> list issue) (l : list (Z * pystr)) (x : issue) :
  In x (flat_map f l) -> exists j line, In (j, line) l /\ In x (f (j, line)).
Proof.
  intros H. apply in_flat_map in H as ([j line] & Hin & Hx). now exists j, line.
Qed.

Lemma occurrences_not_skipped (table : list pystr) (mk : Z -> pystr -> issue)
    (j : Z) (line : pystr) (x : issue) :
  In x (occurrences table mk (j, line)) -> Latex.skipped line = false.
Proof.
  unfold occurrences. cbn [fst snd]. destruct (Latex.skipped line); [intros []|reflexivity].
Qed.

Lemma expression_at_not_skipped (j : Z) (line : pystr) (x : issue) :
  In x (expression_at (j, line)) -> Latex.skipped line = false.
Proof.
  unfold expression_at. cbn [fst snd]. destruct (Latex.skipped line); [intros []|reflexivity].
Qed.

(** What an issue of one of the passes says of its line. *)
Lemma latex_issue_origin (content : pystr) (x : issue) :
  In x (Latex.issues_of content) ->
  exists j line,
    In (j, line) (enumerate 1 (Str.split NL content)) /\
    line_of x = j /\ (kind_of x <= 2)%Z /\ Latex.skipped line = false.
Proof.
  rewrite latex_issues_three_passes. cbv zeta. intros H.
  apply in_app_or in H as [H|H]; [|apply in_app_or in H as [H|H]];
    apply in_pass in H as (j & line & Hin & Hx); exists j, line.
  - destruct (occurrences_kind Latex.greek_letters BareGreek 0
                (fun i e => conj eq_refl eq_refl) j line x Hx) as [Hk Hl].
    repeat split; [exact Hin|exact Hl|lia|].
    eapply occurrences_not_skipped; eassumption.
  - destruct (occurrences_kind Latex.math_symbols BareSymbol 1
                (fun i e => conj eq_refl eq_refl) j line x Hx) as [Hk Hl].
    repeat split; [exact Hin|exact Hl|lia|].
    eapply occurrences_not_skipped; eassumption.
  - destruct (expression_at_kind j line x Hx) as [Hk Hl].
    repeat split; [exact Hin|exact Hl|lia|].
    eapply expression_at_not_skipped; eassumption.
Qed.

(** Every issue of [verify_latex_formulas] names a line of the text, by
    its number counted from 1, and that line has no dollar sign: a line
    with a dollar sign anywhere yields no issue at all. *)
Theorem latex_issues_name_dollar_free_lines (content : pystr) :
  Forall (fun x =>
            (1 <= line_of x <= len (Str.split NL content))%Z /\
            exists line,
              In (line_of x, line) (enumerate 1 (Str.split NL content)) /\
              Str.contains (U "$") line = false)
         (Latex.issues_of content).
Proof.
  apply Forall_forall. intros x Hx.
  apply latex_issue_origin in Hx as (j & line & Hin & Hl & _ & Hs).
  rewrite Hl. split.
  - apply in_enumerate_bounds in Hin. lia.
  - exists line. split; [exact Hin|].
    unfold Latex.skipped in Hs. now apply orb_false_elim in Hs as [Hs _].
Qed.

Lemma NoDup_map_injective {A B : Type} (f : A -> B) (l : list A) :
  (forall a b, f a = f b -> a = b) -> NoDup l -> NoDup (map f l).
Proof.
  intros Hf Hl. induction Hl as [|a l Hnin Hl IH]; cbn [map]; constructor.
  - intros Hin. apply in_map_iff in Hin as (b & Heq & Hb).
    apply Hf in Heq. now subst.
  - exact IH.
Qed.

Lemma occurrences_NoDup (table : list pystr) (mk : Z -> pystr -> issue)
    (il : Z * pystr) :
  NoDup table -> (forall i a b, mk i a = mk i b -> a = b) ->
  NoDup (occurrences table mk il).
Proof.
  intros Ht Hmk. unfold occurrences.
  destruct (Latex.skipped (snd il)); [constructor|].
  apply NoDup_map_injective; [apply Hmk|now apply NoDup_filter].
Qed.

Lemma expression_at_NoDup (il : Z * pystr) : NoDup (expression_at il).
Proof.
  unfold expression_at.
  destruct (Latex.skipped (snd il)); [constructor|].
  destruct (existsb _ _); [|constructor].
  constructor; [intros []|constructor].
Qed.

(** A pass that repeats nothing within a line repeats nothing at all. *)
Lemma pass_NoDup (f : Z * pystr -> list issue) (k : Z) :
  (forall il, NoDup (f il)) ->
  (forall j line x, In x (f (j, line)) -> kind_of x = k /\ line_of x = j) ->
  forall (l : list pystr) (i : Z), NoDup (flat_map f (enumerate i l)).
Proof.
  intros Hn Hf l. induction l as [|line l IH]; intros i; cbn [enumerate flat_map].
  - constructor.
  - apply NoDup_app; [apply Hn|apply IH|].
    intros x Hx Hx'. destruct (Hf _ _ _ Hx) as [_ Hl].
    destruct (pass_ordered f k Hf l (i + 1)%Z) as [_ Hb].
    destruct (Hb x Hx') as [_ Hl']. lia.
Qed.

(** [verify_latex_formulas] reports no issue twice: a letter or symbol
    that occurs several times in a line is reported once for that line,
    and a line has at most one expression issue. *)
Theorem latex_issues_NoDup (content : pystr) : NoDup (Latex.issues_of content).
Proof.
  rewrite latex_issues_three_passes. cbv zeta.
  set (lines := Str.split NL content).
  assert (Hg : NoDup (flat_map (occurrences Latex.greek_letters BareGreek)
                               (enumerate 1 lines))).
  { apply (pass_NoDup _ 0).
    - intros il. apply occurrences_NoDup.
      + apply all_distinct_NoDup. vm_compute. reflexivity.
      + intros i a b H. now inversion H.
    - apply occurrences_kind. intros; split; reflexivity. }
  assert (Hs : NoDup (flat_map (occurrences Latex.math_symbols BareSymbol)
                               (enumerate 1 lines))).
  { apply (pass_NoDup _ 1).
    - intros il. apply occurrences_NoDup.
      + apply all_distinct_NoDup. vm_compute. reflexivity.
      + intros i a b H. now inversion H.
    - apply occurrences_kind. intros; split; reflexivity. }
  assert (He : NoDup (flat_map expression_at (enumerate 1 lines))).
  { apply (pass_NoDup _ 2); [apply expression_at_NoDup|apply expression_at_kind]. }
  destruct (pass_ordered (occurrences Latex.greek_letters BareGreek) 0
              (occurrences_kind Latex.greek_letters BareGreek 0
                 (fun i e => conj eq_refl eq_refl)) lines 1) as [_ Hgk].
  destruct (pass_ordered (occurrences Latex.math_symbols BareSymbol) 1
              (occurrences_kind Latex.math_symbols BareSymbol 1
                 (fun i e => conj eq_refl eq_refl)) lines 1) as [_ Hsk].
  destruct (pass_ordered expression_at 2 expression_at_kind lines 1) as [_ Hek].
  apply NoDup_app; [exact Hg| |].
  - apply NoDup_app; [exact Hs|exact He|].
    intros x Hx Hx'. destruct (Hsk x Hx) as [H1 _], (Hek x Hx') as [H2 _]. lia.
  - intros x Hx Hx'. destruct (Hgk x Hx) as [H1 _].
    apply in_app_or in Hx' as [Hx'|Hx'].
    + destruct (Hsk x Hx') as [H2 _]. lia.
    + destruct (Hek x Hx') as [H2 _]. lia.
Qed.

(** ** More on [verify_citations] *)

Lemma distinct_spec (l : list pystr) :
  NoDup (Citations.distinct l) /\
  (forall x, In x (Citations.distinct l) <-> In x l).
Proof.
  induction l as [|a l [IHn IHi]]; cbn [Citations.distinct].
  - split; [constructor|reflexivity].
  - destruct (Str.mem a l) eqn:E.
    + split; [exact IHn|]. intros x. rewrite IHi. split; [now right|].
      intros [<-|H]; [now apply str_mem_in|exact H].
    + apply str_mem_not_in in E. split.
      * constructor; [now rewrite IHi|exact IHn].
      * intros x. cbn [In]. now rewrite IHi.
Qed.

Lemma distinct_length (l : list pystr) :
  (List.length (Citations.distinct l) <= List.length l)%nat /\
  (l <> [] -> Citations.distinct l <> []).
Proof.
  split.
  - induction l as [|a l IH]; cbn [Citations.distinct List.length]; [lia|].
    destruct (Str.mem a l); cbn [List.length]; lia.
  - intros Hl Hd. destruct l as [|a l]; [congruence|].
    destruct (distinct_spec (a :: l)) as [_ Hi].
    specialize (proj2 (Hi a) (or_introl eq_refl)). rewrite Hd. intros [].
Qed.

(** [unique_citations] counts the different keys cited: the list it
    measures has each cited key once; it is at most [citations_found], and
    zero only when [citations_found] is. *)
Theorem citation_counts (fs : filesystem) (content : pystr)
    (bib_file_path : option pystr) :
  NoDup (Citations.distinct (Citations.citations_of content)) /\
  (forall key, In key (Citations.distinct (Citations.citations_of content))
               <-> In key (Citations.citations_of content)) /\
  dict_get "citations_found" (Citations.verify_citations fs content bib_file_path)
    = Some (VInt (len (Citations.citations_of content))) /\
  dict_get "unique_citations" (Citations.verify_citations fs content bib_file_path)
    = Some (VInt (len (Citations.distinct (Citations.citations_of content)))) /\
  (len (Citations.distinct (Citations.citations_of content))
   <= len (Citations.citations_of content))%Z /\
  (len (Citations.distinct (Citations.citations_of content)) = 0%Z
   <-> len (Citations.citations_of content) = 0%Z).
Proof.
  destruct (distinct_spec (Citations.citations_of content)) as [Hn Hi].
  destruct (distinct_length (Citations.citations_of content)) as [Hle Hne].
  split; [exact Hn|]. split; [exact Hi|].
  unfold Citations.verify_citations.
  destruct (Citations.citations_of content) as [|c cs] eqn:E.
  - repeat split; cbn; lia.
  - cbn [dict_get String.eqb Ascii.eqb Bool.eqb].
    split; [reflexivity|]. split; [reflexivity|].
    unfold len. split; [lia|].
    destruct (Citations.distinct (c :: cs)) as [|d ds]; [now destruct Hne|].
    cbn [List.length]. lia.
Qed.

Lemma invalid_step_spec (issues : list issue) (invalid : pystr) :
  Citations.invalid_step issues invalid =
    issues ++ (if Citations.flagged invalid then [NonStandardCitation invalid] else []).
Proof.
  unfold Citations.invalid_step. destruct (Citations.flagged invalid);
    [reflexivity|now rewrite app_nil_r].
Qed.

Lemma citation_step_spec (bib_keys : list pystr) (issues : list issue)
    (citation : pystr) :
  Citations.citation_step bib_keys issues citation =
    issues ++ (if negb (Str.mem citation bib_keys)
               then [CitationNotInBib citation] else []).
Proof.
  unfold Citations.citation_step. destruct (negb _);
    [reflexivity|now rewrite app_nil_r].
Qed.

Lemma flat_map_if {A B : Type} (g : A -> bool) (f : A -> B) (l : list A) :
  flat_map (fun a => if g a then [f a] else []) l = map f (filter g l).
Proof.
  induction l as [|a l IH]; cbn [flat_map filter map]; [reflexivity|].
  destruct (g a); cbn [map app]; now rewrite IH.
Qed.

(** When the text has a citation, the issues of [verify_citations] are
    those of the bracketed spans, followed by what the bib file gives:
    nothing when no path is given, when it is empty or when the file does
    not exist (the missing file is not reported); the single read error
    when reading or parsing raises; otherwise one issue for every
    citation whose key is not an entry of the file, a key cited several
    times being reported each time. *)
Theorem citation_issues (fs : filesystem) (content : pystr)
    (bib_file_path : option pystr) :
  Citations.citations_of content = [] \/
  dict_get "issues" (Citations.verify_citations fs content bib_file_path)
    = Some (VIssues
        (bracket_issues content ++
         match bib_file_path with
         | None => []
         | Some path =>
             if Str.truthy path && path_exists fs path then
               match load_bib fs path with
               | Ok entries =>
                   missing_key_issues (map entry_id entries)
                                      (Citations.citations_of content)
               | Raise e => [BibReadError e]
               end
             else []
         end)).
Proof.
  unfold Citations.verify_citations.
  destruct (Citations.citations_of content) as [|c cs] eqn:E; [now left|right].
  cbn [dict_get String.eqb Ascii.eqb Bool.eqb]. do 2 f_equal.
  rewrite (fold_left_appends _ _ invalid_step_spec). cbn [app].
  rewrite flat_map_if. fold (bracket_issues content).
  unfold Citations.check_bib.
  destruct bib_file_path as [path|]; [|now rewrite app_nil_r].
  destruct (Str.truthy path && path_exists fs path); [|now rewrite app_nil_r].
  destruct (load_bib fs path) as [entries|e]; [|reflexivity].
  rewrite (fold_left_appends _ _ (citation_step_spec (map entry_id entries))).
  now rewrite flat_map_if.
Qed.

(** ** More on [verify_images] *)

Lemma verdict_nil_iff (fs : filesystem) (image : pystr * pystr) :
  ImagesSpec.verdict fs image = [] <-> usable_image fs image = true.
Proof.
  unfold ImagesSpec.verdict, usable_image.
  destruct (_ || _); cbn [negb andb]; [split; discriminate|].
  destruct (Images.isabs (snd image)); cbn [negb andb]; [|split; discriminate].
  destruct (path_exists fs (snd image)); cbn [negb]; split; congruence.
Qed.

Lemma flat_map_nil_iff {A B : Type} (f : A -> list B) (l : list A) :
  flat_map f l = [] <-> Forall (fun a => f a = []) l.
Proof.
  induction l as [|a l IH]; cbn [flat_map].
  - split; [constructor|reflexivity].
  - split.
    + intros H. apply app_eq_nil in H as [Ha Hl]. constructor; [exact Ha|now apply IH].
    + intros H. inversion H; subst. rewrite H2. now apply IH.
Qed.

Lemma flat_map_length_le {A B : Type} (f : A -> list B) (l : list A) :
  (forall a, (List.length (f a) <= 1)%nat) ->
  (List.length (flat_map f l) <= List.length l)%nat.
Proof.
  intros Hf. induction l as [|a l IH]; cbn [flat_map List.length]; [lia|].
  rewrite length_app. specialize (Hf a). lia.
Qed.

(** [verify_images] never has more issues than [images_found], and it has
    none exactly when every image has a target that is no network link,
    is an absolute path and exists. *)
Theorem image_issues_bound (fs : filesystem) (content md_file_path : pystr) :
  exists issues,
    dict_get "issues" (Images.verify_images fs content md_file_path)
      = Some (VIssues issues) /\
    dict_get "images_found" (Images.verify_images fs content md_file_path)
      = Some (VInt (len (Images.images_of content))) /\
    (len issues <= len (Images.images_of content))%Z /\
    (issues = [] <->
     Forall (fun image => usable_image fs image = true) (Images.images_of content)).
Proof.
  exists (flat_map (ImagesSpec.verdict fs) (Images.images_of content)).
  split; [|split; [reflexivity|split]].
  - unfold Images.verify_images. cbn [dict_get String.eqb Ascii.eqb Bool.eqb].
    now rewrite (fold_left_appends _ _ (image_step_verdict fs)).
  - unfold len.
    pose proof (flat_map_length_le (ImagesSpec.verdict fs) (Images.images_of content)
                  (verdict_at_most_one fs)). lia.
  - rewrite flat_map_nil_iff. split; intros H; eapply Forall_impl; try exact H;
      intros image; apply verdict_nil_iff.
Qed.

(** ** More on [verify_code_blocks] *)

(** The first loop reports every other fence line, beginning with the
    first when no block is open. *)
Lemma fence_pass_count (l : list (Z * pystr)) :
  forall st,
    List.length (fence_lines (snd (fold_left CodeBlocks.fence_step l st)))
    = (List.length (fence_lines (snd st))
       + Nat.div2 ((if fst st then 0 else 1)
                   + List.length (filter CodeBlocks.is_fence_line (map snd l))))%nat.
Proof.
  induction l as [|[i line] l IH]; intros [in_code_block issues].
  - cbn [fold_left snd fst map filter List.length]. destruct in_code_block; cbn; lia.
  - cbn [fold_left map filter snd]. unfold CodeBlocks.fence_step at 2.
    destruct (CodeBlocks.is_fence_line line); [destruct in_code_block; cbn [negb]|].
    + rewrite IH. cbn [fst snd List.length Nat.add]. reflexivity.
    + rewrite IH. cbn [fst snd List.length]. rewrite fence_lines_app, length_app.
      cbn [fence_lines flat_map app List.length Nat.add Nat.div2]. lia.
    + rewrite IH. reflexivity.
Qed.

(** The fence issues of [verify_code_blocks] are half as many as the
    lines whose trimmed content starts with three backticks, rounded up:
    fences open and close in turn, whatever their tags, and a fence that
    is never closed is reported too. *)
Theorem fence_issue_count (content : pystr) :
  List.length (fence_lines (CodeBlocks.issues_of content))
  = ((List.length (filter CodeBlocks.is_fence_line (Str.split NL content)) + 1) / 2)%nat.
Proof.
  unfold CodeBlocks.issues_of.
  rewrite (fold_left_appends CodeBlocks.inline_step inline_verdict inline_step_verdict).
  destruct (inline_pass (enumerate 1 (Str.split NL content))) as [Hf _].
  rewrite fence_lines_app, Hf, app_nil_r, fence_pass_count.
  cbn [fst snd fence_lines flat_map List.length Nat.add].
  assert (Hmap : forall (l : list pystr) i, map snd (enumerate i l) = l).
  { induction l as [|a l IH]; intros i; cbn [enumerate map snd]; [reflexivity|].
    now rewrite IH. }
  rewrite Hmap, Nat.div2_div. f_equal. lia.
Qed.

Lemma count_char_contains (c : N) (s : pystr) :
  (0 < Str.count_char c s)%Z -> Str.contains [c] s = true.
Proof.
  unfold Str.count_char. induction s as [|x s IH]; cbn [filter List.length].
  - cbn. lia.
  - cbn [Str.contains Str.startswith]. destruct (c =? x)%N eqn:E.
    + intros _. apply N.eqb_eq in E. subst x. rewrite N.eqb_refl.
      destruct s; reflexivity.
    + intros H. rewrite (IH H). apply orb_true_r.
Qed.

Lemma inline_verdict_iff (j : Z) (line : pystr) :
  inline_verdict (j, line) = [InlineCode j] <->
  CodeBlocks.is_fence_line line = false /\ (2 <= Str.count_char (chr "`") line)%Z.
Proof.
  unfold inline_verdict. cbn [fst snd]. split.
  - destruct (CodeBlocks.is_fence_line line); [now rewrite andb_false_r|].
    destruct (_ && _); [|discriminate].
    destruct (2 <=? _)%Z eqn:E; [|discriminate].
    intros _. split; [reflexivity|now apply Z.leb_le].
  - intros [-> H]. change (U "`") with [chr "`"].
    rewrite count_char_contains by lia. cbn [negb andb].
    apply Z.leb_le in H. now rewrite H.
Qed.

Lemma inline_lines_of_pass (lines : list (Z * pystr)) (i : Z) :
  In i (inline_lines (flat_map inline_verdict lines)) <->
  exists line,
    In (i, line) lines /\
    CodeBlocks.is_fence_line line = false /\
    (2 <= Str.count_char (chr "`") line)%Z.
Proof.
  induction lines as [|[j line] lines IH]; cbn [flat_map].
  - split; [intros []|intros (line & [] & _)].
  - rewrite inline_lines_app, in_app_iff, IH. split.
    + intros [H|(line' & Hin & H)].
      * destruct (inline_verdict_cases (j, line)) as [E|[E _]]; rewrite E in H;
          [destruct H|].
        cbn [fst inline_lines flat_map app In] in H. destruct H as [Hj|[]].
        subst i. exists line. split; [now left|].
        apply (proj1 (inline_verdict_iff j line)). exact E.
      * exists line'. split; [now right|exact H].
    + intros (line' & [Heq|Hin] & H).
      * inversion Heq; subst. left.
        rewrite (proj2 (inline_verdict_iff i line') H). now left.
      * right. exists line'. split; assumption.
Qed.

(** [verify_code_blocks] reports inline code for exactly the lines whose
    trimmed content does not start with three backticks and that hold at
    least two backticks, also when the line is inside a fenced block. *)
Theorem inline_issue_lines (content : pystr) (i : Z) :
  In i (inline_lines (CodeBlocks.issues_of content)) <->
  exists line,
    In (i, line) (enumerate 1 (Str.split NL content)) /\
    CodeBlocks.is_fence_line line = false /\
    (2 <= Str.count_char (chr "`") line)%Z.
Proof.
  unfold CodeBlocks.issues_of.
  rewrite (fold_left_appends CodeBlocks.inline_step inline_verdict inline_step_verdict).
  destruct (fence_pass (enumerate 1 (Str.split NL content)) (false, []))
    as (new & Hs & Hi & _).
  rewrite Hs. cbn [snd app]. rewrite inline_lines_app, Hi. cbn [app].
  apply inline_lines_of_pass.
Qed.

(** ** More on [verify_stereotype_content] *)

Lemma affected_false_iff (p : pystr) : affected p = false <-> matched_in p = [].
Proof. unfold affected. destruct (matched_in p); split; congruence. Qed.

Lemma seen_nil_iff (paragraphs : list pystr) :
  seen paragraphs = [] <-> filter affected paragraphs = [].
Proof.
  unfold seen. rewrite flat_map_nil_iff.
  induction paragraphs as [|p ps IH]; cbn [filter].
  - split; [reflexivity|constructor].
  - split.
    + intros H. inversion H; subst.
      rewrite (proj2 (affected_false_iff p)) by assumption. now apply IH.
    + destruct (affected p) eqn:E; [discriminate|].
      intros H. constructor; [now apply affected_false_iff|now apply IH].
Qed.

Lemma matched_in_all (p x : pystr) : In x (matched_in p) -> In x all_expressions.
Proof.
  unfold matched_in, all_expressions. rewrite !in_app_iff.
  intros [H|H].
  - left. now apply filter_In in H as [H _].
  - right. apply in_map_iff in H as (pd & <- & H). apply in_map.
    now apply filter_In in H as [H _].
Qed.

(** In [verify_stereotype_content], [has_issues] is true exactly when a
    paragraph is affected, which is exactly when an expression is found;
    there is then the one issue that lists the expressions found; and
    [found_expressions] never has more than 15 entries. *)
Theorem stereotype_flag_and_bound (content : pystr) :
  exists found n,
    dict_get "found_expressions" (Stereotype.verify_stereotype_content content)
      = Some (VStrs found) /\
    dict_get "affected_paragraphs" (Stereotype.verify_stereotype_content content)
      = Some (VInt n) /\
    dict_get "has_issues" (Stereotype.verify_stereotype_content content)
      = Some (VBool (0 <? n)%Z) /\
    dict_get "issues" (Stereotype.verify_stereotype_content content)
      = Some (VIssues (match found with
                       | [] => []
                       | _ :: _ => [StereotypeFound found]
                       end)) /\
    (found = [] <-> n = 0%Z) /\
    (List.length found <= 15)%nat.
Proof.
  set (paragraphs := Stereotype.paragraphs_of content).
  destruct (run_from paragraphs
              {| Stereotype.found_stereotype_words := [];
                 Stereotype.paragraphs_with_stereotype := 0;
                 Stereotype.has_stereotype := false |}) as [Hf Hc].
  cbn [Stereotype.found_stereotype_words Stereotype.paragraphs_with_stereotype] in Hf, Hc.
  destruct (add_new_keeps_order (seen paragraphs) [] []) as (Hnd & Hin & _).
  { repeat split; try constructor; intros []. }
  cbn [app] in Hin.
  assert (Hnil : add_new [] (seen paragraphs) = [] <->
                 len (filter affected paragraphs) = 0%Z).
  { split.
    - intros H. destruct (seen paragraphs) as [|x l] eqn:E.
      + apply seen_nil_iff in E. now rewrite E.
      + exfalso. specialize (proj2 (Hin x) (or_introl eq_refl)). rewrite H. intros [].
    - intros H. destruct (filter affected paragraphs) as [|p l] eqn:E;
        [|rewrite len_cons in H; pose proof (len_nonneg l); lia].
      apply seen_nil_iff in E. rewrite E. reflexivity. }
  exists (Stereotype.found_stereotype_words (Stereotype.run paragraphs)),
         (Stereotype.paragraphs_with_stereotype (Stereotype.run paragraphs)).
  unfold Stereotype.verify_stereotype_content. fold paragraphs.
  cbn [dict_get String.eqb Ascii.eqb Bool.eqb].
  unfold Stereotype.run. rewrite Hf, Hc, Z.add_0_l.
  split; [reflexivity|]. split; [reflexivity|].
  split; [|split; [|split; [exact Hnil|]]].
  - do 2 f_equal. destruct (add_new [] (seen paragraphs)) as [|x l] eqn:E.
    + rewrite (proj1 Hnil eq_refl). reflexivity.
    + assert (Hn : len (filter affected paragraphs) <> 0%Z)
        by (intros H0; apply Hnil in H0; discriminate).
      pose proof (len_nonneg (filter affected paragraphs)).
      replace (0 <? len (filter affected paragraphs))%Z with true
        by (symmetry; apply Z.ltb_lt; lia).
      reflexivity.
  - destruct (add_new [] (seen paragraphs)); reflexivity.
  - change 15%nat with (List.length all_expressions).
    apply NoDup_incl_length; [exact Hnd|].
    intros x Hx. apply Hin in Hx. unfold seen in Hx.
    apply in_flat_map in Hx as (p & _ & Hx). eapply matched_in_all. exact Hx.
Qed.

(** ** More on [search_reference] *)




(** ** More on [verify_bib_references] *)

Lemma entries_loop_unconfigured (net : Web.network) (api_key : option pystr)
    (entries : list bib_entry) :
  unconfigured api_key = true ->
  forall (st : Bib.state) (sent : list Web.request),
    Bib.entries_loop net api_key entries st sent =
      ({| Bib.issues := Bib.issues st ++ map issue_without_credential entries;
          Bib.verified_count := Bib.verified_count st;
          Bib.total_count := (Bib.total_count st + len entries)%Z |},
       sent, None).
Proof.
  intros Hu.
  assert (Hs : forall title authors sent,
             Web.search_reference net api_key title authors sent
             = (Ok (Web.failure NoApiKey), sent)).
  { intros. destruct api_key as [[|c key]|]; [reflexivity|discriminate Hu|reflexivity]. }
  induction entries as [|entry rest IH]; intros st sent.
  - cbn [Bib.entries_loop map]. rewrite app_nil_r. unfold len. cbn [List.length Z.of_nat].
    rewrite Z.add_0_r. destruct st. reflexivity.
  - cbn [Bib.entries_loop map]. unfold issue_without_credential at 1.
    change (Str.truthy (Bib.title_of entry)) with (titled entry).
    destruct (titled entry); cbn [negb].
    + rewrite Hs. cbn [bind]. unfold Bib.classify, Web.failure.
      cbn [getitem dict_get String.eqb Ascii.eqb Bool.eqb bind truth negb Bib.error_of].
      rewrite IH. cbn [Bib.add_issue Bib.add_total Bib.issues Bib.verified_count
                       Bib.total_count].
      f_equal. f_equal. rewrite len_cons.
      apply state_eq; [now rewrite <- app_assoc|reflexivity|lia].
    + rewrite IH. cbn [Bib.add_issue Bib.add_total Bib.issues Bib.verified_count
                       Bib.total_count].
      f_equal. f_equal. rewrite len_cons.
      apply state_eq; [now rewrite <- app_assoc|reflexivity|lia].
Qed.

(** Without a credential, [verify_bib_references] on a file that exists
    and parses sends no request and verifies nothing: every entry gets
    one issue, the missing title or the missing credential, in the order
    of the file. *)
Theorem bib_without_credential (fs : filesystem) (net : Web.network)
    (api_key : option pystr) (bib_file_path : pystr) (sent : list Web.request)
    (entries : list bib_entry) :
  unconfigured api_key = true ->
  path_exists fs bib_file_path = true ->
  load_bib fs bib_file_path = Ok entries ->
  Bib.verify_bib_references fs net api_key bib_file_path sent =
    ([ ("has_issues", VBool (0 <? len entries)%Z);
       ("issues", VIssues (map issue_without_credential entries));
       ("verified_count", VInt 0);
       ("total_count", VInt (len entries)) ], sent).
Proof.
  intros Hu Hex Hload. unfold Bib.verify_bib_references, Bib.run.
  rewrite Hex, Hload. cbn [negb].
  rewrite (entries_loop_unconfigured net api_key entries Hu).
  cbn [Bib.initial Bib.issues Bib.verified_count Bib.total_count app].
  now rewrite len_map, Z.add_0_l.
Qed.

Lemma bib_without_credential_witness :
  Bib.verify_bib_references one_bib_file finds_first_only None (U "/refs.bib") [] =
    ([ ("has_issues", VBool (0 <? len three_entries)%Z);
       ("issues", VIssues (map issue_without_credential three_entries));
       ("verified_count", VInt 0);
       ("total_count", VInt (len three_entries)) ], []).
Proof.
  apply (bib_without_credential one_bib_file finds_first_only None (U "/refs.bib")
           [] three_entries); vm_compute; reflexivity.
Defined.

(** When the bib file exists and parses, [has_issues] is true exactly
    when [verified_count] is below [total_count]: an entry is verified or
    has an issue, never both and never neither. *)
Theorem bib_flag_iff_unverified (fs : filesystem) (net : Web.network)
    (api_key : option pystr) (bib_file_path : pystr) (sent : list Web.request)
    (entries : list bib_entry) :
  path_exists fs bib_file_path = true ->
  load_bib fs bib_file_path = Ok entries ->
  exists verified total,
    dict_get "verified_count"
      (fst (Bib.verify_bib_references fs net api_key bib_file_path sent))
      = Some (VInt verified) /\
    dict_get "total_count"
      (fst (Bib.verify_bib_references fs net api_key bib_file_path sent))
      = Some (VInt total) /\
    dict_get "has_issues"
      (fst (Bib.verify_bib_references fs net api_key bib_file_path sent))
      = Some (VBool (verified <? total)%Z).
Proof.
  intros Hex Hload. unfold Bib.verify_bib_references, Bib.run.
  rewrite Hex, Hload. cbn [negb].
  destruct (entries_loop_spec net api_key entries Bib.initial sent)
    as (new & Hl & _ & H0 & Hn).
  rewrite Hl. cbn [fst dict_get String.eqb Ascii.eqb Bool.eqb Bib.initial
                   Bib.issues Bib.verified_count Bib.total_count app].
  do 2 eexists. split; [reflexivity|]. split; [reflexivity|].
  do 2 f_equal. rewrite !Z.add_0_l.
  destruct (0 <? len new)%Z eqn:E; symmetry.
  - apply Z.ltb_lt in E. apply Z.ltb_lt. lia.
  - apply Z.ltb_ge in E. apply Z.ltb_ge. lia.
Qed.

Lemma bib_flag_iff_unverified_witness :
  exists verified total,
    dict_get "verified_count"
      (fst (Bib.verify_bib_references one_bib_file finds_first_only
              (Some (U "key")) (U "/refs.bib") []))
      = Some (VInt verified) /\
    dict_get "total_count"
      (fst (Bib.verify_bib_references one_bib_file finds_first_only
              (Some (U "key")) (U "/refs.bib") []))
      = Some (VInt total) /\
    dict_get "has_issues"
      (fst (Bib.verify_bib_references one_bib_file finds_first_only
              (Some (U "key")) (U "/refs.bib") []))
      = Some (VBool (verified <? total)%Z).
Proof.
  apply (bib_flag_iff_unverified one_bib_file finds_first_only (Some (U "key"))
           (U "/refs.bib") [] three_entries); vm_compute; reflexivity.
Defined.

(** ** [verify_paper] *)

Lemma verify_paper_readable (fs : filesystem) (read_text : pystr -> res pystr)
    (net : Web.network) (env_key : option pystr) (md_file_path content : pystr)
    (bib_file_path serper_api_key : option pystr) (sent : list Web.request) :
  path_exists fs md_file_path = true ->
  read_text md_file_path = Ok content ->
  Paper.verify_paper fs read_text net env_key md_file_path bib_file_path
    serper_api_key sent =
  match bib_file_path with
  | Some ((_ :: _) as path) =>
      (Paper.Verified md_file_path bib_file_path None
         (six_findings fs content md_file_path bib_file_path
          ++ [("bib_references",
               fst (Bib.verify_bib_references fs net
                      (Paper.api_key_of serper_api_key env_key) path sent))]),
       snd (Bib.verify_bib_references fs net
              (Paper.api_key_of serper_api_key env_key) path sent))
  | _ =>
      (Paper.Verified md_file_path bib_file_path None
         (six_findings fs content md_file_path bib_file_path), sent)
  end.
Proof.
  intros Hex Hread. unfold Paper.verify_paper. rewrite Hex, Hread. cbn [negb].
  destruct bib_file_path as [[|c path]|]; try reflexivity.
  cbv zeta. destruct (Bib.verify_bib_references _ _ _ _ _). reflexivity.
Qed.

(** [verify_paper] fails only for a document that is missing or cannot be
    read.  Otherwise it returns the six findings under their fixed keys
    and in their fixed order, followed by [bib_references] exactly when a
    non-empty bib path is given, whether or not that file exists; and it
    sends no request unless a bib path is given. *)
Theorem verify_paper_keys (fs : filesystem) (read_text : pystr -> res pystr)
    (net : Web.network) (env_key : option pystr) (md_file_path : pystr)
    (bib_file_path serper_api_key : option pystr) (sent : list Web.request) :
  match fst (Paper.verify_paper fs read_text net env_key md_file_path
               bib_file_path serper_api_key sent) with
  | Paper.Failed error =>
      (path_exists fs md_file_path = false /\ error = Paper.MarkdownMissing md_file_path) \/
      (exists e, read_text md_file_path = Raise e /\ error = Paper.ReadFailed e)
  | Paper.Verified md bib timestamp results =>
      path_exists fs md_file_path = true /\
      md = md_file_path /\ bib = bib_file_path /\ timestamp = None /\
      map fst results =
        [ "sparse_content"; "stereotype_content"; "latex_formulas";
          "citations"; "images"; "code_blocks" ]
        ++ (match bib_file_path with
            | Some (_ :: _) => ["bib_references"]
            | _ => []
            end) /\
      (match bib_file_path with
       | Some (_ :: _) => True
       | _ => snd (Paper.verify_paper fs read_text net env_key md_file_path
                     bib_file_path serper_api_key sent) = sent
       end)
  end.
Proof.
  destruct (path_exists fs md_file_path) eqn:Hex.
  - destruct (read_text md_file_path) as [content|e] eqn:Hread.
    + rewrite (verify_paper_readable _ _ _ _ _ content _ _ _ Hex Hread).
      destruct bib_file_path as [[|c path]|]; cbn [fst snd]; repeat split.
    + unfold Paper.verify_paper. rewrite Hex, Hread. cbn [negb fst].
      right. exists e. split; reflexivity.
  - unfold Paper.verify_paper. rewrite Hex. cbn [negb fst]. left. split; reflexivity.
Qed.

(** ** [generate_report] *)

Lemma section_of_consistent (number : Z) (f : finding) (extra tail : list Report.piece) :
  consistent f ->
  exists body,
    Report.section number f (Ok extra) (Ok tail)
      = Ok (Report.Section number :: body ++ tail).
Proof.
  intros (issues & Hi & Hf). unfold Report.section, Report.issue_lines, getitem.
  rewrite Hf, Hi. cbn [bind truth].
  destruct (0 <? len issues)%Z; cbn [bind]; eexists; reflexivity.
Qed.

Lemma section_tail_raises (number : Z) (f : finding) (extra : list Report.piece)
    (e : pyexn) :
  consistent f ->
  Report.section number f (Ok extra) (Raise e) = Raise e.
Proof.
  intros (issues & Hi & Hf). unfold Report.section, Report.issue_lines, getitem.
  rewrite Hf, Hi. cbn [bind truth].
  destruct (0 <? len issues)%Z; reflexivity.
Qed.

Lemma sparse_consistent (content : pystr) :
  consistent (Sparse.verify_sparse_content content) /\
  (exists v, getitem (Sparse.verify_sparse_content content) "sparsity_score" = Ok v) /\
  (Sparse.paragraphs_of content = [] ->
   getitem (Sparse.verify_sparse_content content) "paragraph_count" = Raise KeyError) /\
  (Sparse.paragraphs_of content <> [] ->
   exists v, getitem (Sparse.verify_sparse_content content) "paragraph_count" = Ok v).
Proof.
  unfold Sparse.verify_sparse_content.
  destruct (Sparse.paragraphs_of content) as [|p ps].
  - repeat split.
    + exists [NoMeaningfulParagraphs]. split; reflexivity.
    + eexists. reflexivity.
    + intros H. now destruct H.
  - cbv zeta.
    destruct (Sparse.check _ _ _ _ (Sparse.check _ _ _ _ (Sparse.check _ _ _ _ _)))
      as [issues score].
    repeat split.
    + apply consistent_built.
    + eexists. reflexivity.
    + discriminate.
    + intros _. eexists. reflexivity.
Qed.

Lemma citations_consistent (fs : filesystem) (content : pystr)
    (bib_file_path : option pystr) :
  consistent (Citations.verify_citations fs content bib_file_path) /\
  exists f u,
    getitem (Citations.verify_citations fs content bib_file_path) "citations_found"
      = Ok f /\
    getitem (Citations.verify_citations fs content bib_file_path) "unique_citations"
      = Ok u.
Proof.
  unfold Citations.verify_citations.
  destruct (Citations.citations_of content).
  - split; [exists []; split; reflexivity|]. do 2 eexists. split; reflexivity.
  - split; [apply consistent_built|]. do 2 eexists. split; reflexivity.
Qed.

Lemma bib_consistent (fs : filesystem) (net : Web.network) (api_key : option pystr)
    (path : pystr) (sent : list Web.request) :
  consistent (fst (Bib.verify_bib_references fs net api_key path sent)) /\
  exists v t,
    getitem (fst (Bib.verify_bib_references fs net api_key path sent)) "verified_count"
      = Ok v /\
    getitem (fst (Bib.verify_bib_references fs net api_key path sent)) "total_count"
      = Ok t.
Proof.
  unfold Bib.verify_bib_references.
  destruct (negb (path_exists fs path)).
  - split; [exists [BibFileMissing path]; split; reflexivity|].
    do 2 eexists. split; reflexivity.
  - destruct (Bib.run fs net api_key path sent) as [st sent'].
    split; [apply consistent_built|]. do 2 eexists. split; reflexivity.
Qed.

Ltac collect_sections :=
  match goal with
  | |- exists body,
         Ok (?h :: ?s1 ++ ?s2 ++ ?s3 ++ ?s4 ++ ?s5 ++ ?s6 ++ ?s7 ++ [?x]) = _ =>
      exists (s1 ++ s2 ++ s3 ++ s4 ++ s5 ++ s6 ++ s7);
      repeat rewrite <- app_assoc; reflexivity
  end.

(** The report of what [verify_paper] returns for a document that is
    read: [KeyError] when the document has no paragraph, the full report
    otherwise. *)
Lemma report_of_findings (fs : filesystem) (content md : pystr)
    (bib timestamp : option pystr) (bib_part : list (string * finding)) :
  (bib_part = [] \/
   exists net api_key path sent,
     bib_part = [("bib_references",
                  fst (Bib.verify_bib_references fs net api_key path sent))]) ->
  let results := six_findings fs content md bib ++ bib_part in
  (Sparse.paragraphs_of content = [] /\
   Report.generate_report (Paper.Verified md bib timestamp results) = Raise KeyError)
  \/
  (Sparse.paragraphs_of content <> [] /\
   exists body,
     Report.generate_report (Paper.Verified md bib timestamp results)
       = Ok (Report.Header md bib timestamp :: body
             ++ [if (0 <? Report.total_issues results)%Z
                 then Report.SummaryFail (Report.total_issues results)
                 else Report.SummaryPass])).
Proof.
  intros Hbib results.
  destruct (sparse_consistent content) as (Hsc & (score & Hscore) & Hnone & Hsome).
  unfold Report.generate_report. subst results. unfold six_findings.
  cbn [Report.results_get String.eqb Ascii.eqb Bool.eqb app bind].
  rewrite Hscore. cbn [bind].
  destruct (Sparse.paragraphs_of content) as [|p ps] eqn:Hp.
  - left. split; [reflexivity|].
    rewrite (Hnone eq_refl). cbn [bind].
    now rewrite (section_tail_raises 1 _ [Report.Score score] KeyError Hsc).
  - right. split; [discriminate|].
    destruct Hsome as [count Hcount]; [discriminate|]. rewrite Hcount. cbn [bind].
    destruct (section_of_consistent 1 _ [Report.Score score]
                [Report.ParagraphCount count] Hsc) as [b1 ->]. cbn [bind].
    set (st := Stereotype.verify_stereotype_content content).
    assert (Hst : consistent st) by apply consistent_built.
    change (getitem st "affected_paragraphs") with
      (Ok (VInt (Stereotype.paragraphs_with_stereotype
                   (Stereotype.run (Stereotype.paragraphs_of content))))).
    change (getitem st "total_paragraphs") with
      (Ok (VInt (len (Stereotype.paragraphs_of content)))).
    cbn [bind].
    destruct (section_of_consistent 2 st
                [Report.Affected
                   (VInt (Stereotype.paragraphs_with_stereotype
                            (Stereotype.run (Stereotype.paragraphs_of content))))
                   (VInt (len (Stereotype.paragraphs_of content)))] [] Hst)
      as [b2 ->].
    cbn [bind].
    destruct (section_of_consistent 3 (Latex.verify_latex_formulas content) [] []
                (consistent_built _ _)) as [b3 ->].
    cbn [bind].
    destruct (citations_consistent fs content bib) as (Hcc & f & u & Hf & Hu).
    rewrite Hf, Hu. cbn [bind].
    destruct (section_of_consistent 4 _ [] [Report.CitationCount f u] Hcc) as [b4 ->].
    cbn [bind].
    change (getitem (Images.verify_images fs content md) "images_found")
      with (Ok (VInt (len (Images.images_of content)))).
    cbn [bind].
    destruct (section_of_consistent 5 (Images.verify_images fs content md) []
                [Report.ImageCount (VInt (len (Images.images_of content)))]
                (consistent_built _ _)) as [b5 ->].
    cbn [bind].
    destruct (section_of_consistent 6 (CodeBlocks.verify_code_blocks content) [] []
                (consistent_built _ _)) as [b6 ->].
    cbn [bind].
    destruct Hbib as [->|(net & api_key & path & sent & ->)];
      cbn [Report.results_get String.eqb Ascii.eqb Bool.eqb bind].
    + collect_sections.
    + destruct (bib_consistent fs net api_key path sent) as (Hbc & v & t & Hv & Ht).
      rewrite Hv, Ht. cbn [bind].
      destruct (section_of_consistent 7 _ [] [Report.VerifiedCount v t] Hbc) as [b7 ->].
      cbn [bind]. collect_sections.
Qed.

(** With findings whose flag agrees with their issues, the number that
    [generate_report] sums up is the number of checks that hold an issue. *)
Lemma flagged_holds_issues (f : finding) :
  consistent f -> Report.flagged f = holds_issues f.
Proof.
  intros (issues & Hi & Hf). unfold Report.flagged, holds_issues.
  rewrite Hi, Hf. cbn [truth]. destruct issues as [|x issues]; [reflexivity|].
  rewrite len_cons. apply Z.ltb_lt. pose proof (len_nonneg issues). lia.
Qed.

Lemma total_issues_failed_checks (results : list (string * finding)) :
  Forall (fun kf => consistent (snd kf)) results ->
  Report.total_issues results = len (failed_checks results).
Proof.
  intros H. unfold Report.total_issues, failed_checks. rewrite len_map.
  f_equal. apply filter_ext_in. intros kf Hkf.
  rewrite Forall_forall in H. apply flagged_holds_issues, H, Hkf.
Qed.

Lemma summary_counts_failed_checks (results : list (string * finding)) :
  Forall (fun kf => consistent (snd kf)) results ->
  (if (0 <? Report.total_issues results)%Z
   then Report.SummaryFail (Report.total_issues results)
   else Report.SummaryPass) = summary_of results.
Proof.
  intros H. rewrite (total_issues_failed_checks results H). unfold summary_of.
  destruct (failed_checks results) as [|k ks]; [reflexivity|].
  rewrite len_cons.
  replace (0 <? len ks + 1)%Z with true
    by (symmetry; apply Z.ltb_lt; pose proof (len_nonneg ks); lia).
  reflexivity.
Qed.

(** The findings of [verify_paper] all have a flag that agrees with
    their issues. *)
Lemma findings_consistent (fs : filesystem) (content md : pystr)
    (bib : option pystr) (bib_part : list (string * finding)) :
  (bib_part = [] \/
   exists net api_key path sent,
     bib_part = [("bib_references",
                  fst (Bib.verify_bib_references fs net api_key path sent))]) ->
  Forall (fun kf => consistent (snd kf)) (six_findings fs content md bib ++ bib_part).
Proof.
  intros Hbib. apply Forall_app. split.
  - unfold six_findings. repeat constructor; cbn [snd].
    + apply sparse_consistent.
    + apply consistent_built.
    + apply consistent_built.
    + apply citations_consistent.
    + apply consistent_built.
    + apply consistent_built.
  - destruct Hbib as [->|(net & api_key & path & sent & ->)]; [constructor|].
    constructor; [|constructor]. cbn [snd]. apply bib_consistent.
Qed.

(** [generate_report] cannot render what [verify_paper] returns for a
    document without a paragraph of more than 20 characters: reading
    [paragraph_count] raises [KeyError].  For every other document that
    is read it returns the report: the header, the sections, and the
    summary, which tells that all checks passed when no check of the
    result holds an issue, and otherwise the number of checks that hold
    at least one. *)
Theorem report_needs_a_paragraph (fs : filesystem) (read_text : pystr -> res pystr)
    (net : Web.network) (env_key : option pystr) (md_file_path content : pystr)
    (bib_file_path serper_api_key : option pystr) (sent : list Web.request) :
  path_exists fs md_file_path = true ->
  read_text md_file_path = Ok content ->
  exists results,
    fst (Paper.verify_paper fs read_text net env_key md_file_path bib_file_path
           serper_api_key sent)
      = Paper.Verified md_file_path bib_file_path None results /\
    (Sparse.paragraphs_of content = [] ->
     Report.generate_report (Paper.Verified md_file_path bib_file_path None results)
       = Raise KeyError) /\
    (Sparse.paragraphs_of content <> [] ->
     exists body,
       Report.generate_report (Paper.Verified md_file_path bib_file_path None results)
         = Ok (Report.Header md_file_path bib_file_path None :: body
               ++ [summary_of results])).
Proof.
  intros Hex Hread.
  rewrite (verify_paper_readable _ _ _ _ _ content _ _ _ Hex Hread).
  assert (H : forall bib_part,
    (bib_part = [] \/
     exists net api_key path sent,
       bib_part = [("bib_references",
                    fst (Bib.verify_bib_references fs net api_key path sent))]) ->
    exists results,
      Paper.Verified md_file_path bib_file_path None
        (six_findings fs content md_file_path bib_file_path ++ bib_part)
        = Paper.Verified md_file_path bib_file_path None results /\
      (Sparse.paragraphs_of content = [] ->
       Report.generate_report (Paper.Verified md_file_path bib_file_path None results)
         = Raise KeyError) /\
      (Sparse.paragraphs_of content <> [] ->
       exists body,
         Report.generate_report (Paper.Verified md_file_path bib_file_path None results)
           = Ok (Report.Header md_file_path bib_file_path None :: body
                 ++ [summary_of results]))).
  { intros bib_part Hbib. eexists. split; [reflexivity|].
    rewrite <- (summary_counts_failed_checks _
                  (findings_consistent fs content md_file_path bib_file_path
                     bib_part Hbib)).
    destruct (report_of_findings fs content md_file_path bib_file_path None
                bib_part Hbib) as [[Hp Hr]|[Hp Hr]]; split; intros Hp'.
    - exact Hr.
    - contradiction.
    - contradiction.
    - exact Hr. }
  destruct bib_file_path as [[|c path]|]; cbn [fst].
  - rewrite <- (app_nil_r (six_findings _ _ _ _)). apply H. now left.
  - apply H. right. do 4 eexists. reflexivity.
  - rewrite <- (app_nil_r (six_findings _ _ _ _)). apply H. now left.
Qed.

Lemma report_needs_a_paragraph_witness :
  exists results,
    fst (Paper.verify_paper one_document reads_short_text no_network None
           (U "/paper.md") None None [])
      = Paper.Verified (U "/paper.md") None None results /\
    Report.generate_report (Paper.Verified (U "/paper.md") None None results)
      = Raise KeyError.
Proof.
  assert (Hex : path_exists one_document (U "/paper.md") = true)
    by (vm_compute; reflexivity).
  destruct (report_needs_a_paragraph one_document reads_short_text no_network None
              (U "/paper.md") (U "short text") None None [] Hex eq_refl)
    as (results & Hr & Hnone & _).
  exists results. split; [exact Hr|]. apply Hnone. vm_compute. reflexivity.
Defined.

(** ** [verify_paper_comprehensive] *)

Lemma flag_of_consistent (results : list (string * finding)) (key : string)
    (f : finding) :
  Report.results_get key results = Ok f -> consistent f ->
  exists v, Server.flag_of results key = Ok v.
Proof.
  intros Hr (issues & _ & Hf). unfold Server.flag_of, getitem.
  rewrite Hr. cbn [bind]. rewrite Hf. eexists. reflexivity.
Qed.

(** What the [try] block of the tool comes to once the document is read:
    the lookup of the key [reference_count], which no result has. *)
Lemma summary_raises (fs : filesystem) (content md : pystr) (bib : option pystr)
    (bib_part : list (string * finding)) (k : pyval -> pyval -> pyval -> pyval ->
      pyval -> res Server.tool_result) :
  (bib_part = [] \/ exists f, bib_part = [("bib_references", f)]) ->
  let results := six_findings fs content md bib ++ bib_part in
  (sparse_content <- Server.flag_of results "sparse_content" ;;
   stereotype_content <- Server.flag_of results "stereotype_content" ;;
   latex_formulas <- Server.flag_of results "latex_formulas" ;;
   citations <- Server.flag_of results "citations" ;;
   reference_count <- Server.flag_of results "reference_count" ;;
   k sparse_content stereotype_content latex_formulas citations reference_count)
  = Raise KeyError.
Proof.
  intros Hbib results.
  destruct (sparse_consistent content) as (Hsc & _).
  destruct (citations_consistent fs content bib) as (Hcc & _).
  destruct (flag_of_consistent results "sparse_content" _ eq_refl Hsc) as [v1 ->].
  destruct (flag_of_consistent results "stereotype_content"
              (Stereotype.verify_stereotype_content content) eq_refl
              (consistent_built _ _)) as [v2 ->].
  destruct (flag_of_consistent results "latex_formulas"
              (Latex.verify_latex_formulas content) eq_refl
              (consistent_built _ _)) as [v3 ->].
  destruct (flag_of_consistent results "citations" _ eq_refl Hcc) as [v4 ->].
  cbn [bind].
  assert (Hrc : Server.flag_of results "reference_count" = Raise KeyError).
  { subst results. unfold Server.flag_of, six_findings.
    destruct Hbib as [->|[f ->]]; reflexivity. }
  now rewrite Hrc.
Qed.

Lemma respond_raises (fs : filesystem) (now md content : pystr)
    (bib : option pystr) (generate_markdown_report : bool)
    (bib_part : list (string * finding)) :
  (bib_part = [] \/
   exists net api_key path sent,
     bib_part = [("bib_references",
                  fst (Bib.verify_bib_references fs net api_key path sent))]) ->
  Server.respond now md bib generate_markdown_report
    (Paper.Verified md bib None (six_findings fs content md bib ++ bib_part))
  = Raise KeyError.
Proof.
  intros Hbib.
  assert (Hbib' : bib_part = [] \/ exists f, bib_part = [("bib_references", f)]).
  { destruct Hbib as [->|(n & a & p & s & ->)]; [now left|right; eexists; reflexivity]. }
  unfold Server.respond. cbv zeta.
  destruct generate_markdown_report.
  - destruct (report_of_findings fs content md bib (Some now) bib_part Hbib)
      as [[_ Hr]|[_ [body Hr]]]; cbv zeta in Hr; rewrite Hr; cbn [bind];
      [reflexivity|].
    apply (summary_raises fs content md bib bib_part _ Hbib').
  - cbn [bind]. apply (summary_raises fs content md bib bib_part _ Hbib').
Qed.

(** [verify_paper_comprehensive] never returns the status [success]: for
    a document that is missing or unreadable it returns the error of
    [verify_paper]; for every document that is read, the summary looks up
    the key [reference_count], which [verify_paper] never produces, so
    the result is the error made from that [KeyError] (or from the
    [KeyError] of the report), whatever the document, the bibliography
    and the options. *)
Theorem comprehensive_never_succeeds (fs : filesystem)
    (read_text : pystr -> res pystr) (net : Web.network)
    (env_key : option pystr) (now md_file_path : pystr)
    (bib_file_path serper_api_key : option pystr)
    (generate_markdown_report : bool) (sent : list Web.request) :
  fst (Server.verify_paper_comprehensive fs read_text net env_key now
         md_file_path bib_file_path serper_api_key generate_markdown_report sent)
  = Server.ToolError
      (if path_exists fs md_file_path then
         match read_text md_file_path with
         | Ok _ => Server.Exception KeyError
         | Raise e => Server.NotVerified (Paper.ReadFailed e)
         end
       else Server.NotVerified (Paper.MarkdownMissing md_file_path))
      md_file_path.
Proof.
  unfold Server.verify_paper_comprehensive, Server.attempt.
  destruct (path_exists fs md_file_path) eqn:Hex.
  - destruct (read_text md_file_path) as [content|e] eqn:Hread.
    + rewrite (verify_paper_readable _ _ _ _ _ content _ _ _ Hex Hread).
      destruct bib_file_path as [[|c path]|]; cbv beta iota zeta.
      * rewrite <- (app_nil_r (six_findings _ _ _ _)).
        rewrite (respond_raises fs now md_file_path content _ _ []); [reflexivity|now left].
      * rewrite respond_raises; [reflexivity|].
        right. do 4 eexists. reflexivity.
      * rewrite <- (app_nil_r (six_findings _ _ _ _)).
        rewrite (respond_raises fs now md_file_path content _ _ []); [reflexivity|now left].
    + unfold Paper.verify_paper. rewrite Hex, Hread. reflexivity.
  - unfold Paper.verify_paper. rewrite Hex. reflexivity.
Qed.

(** ** More on [verify_sparse_content]: how paragraphs are cut *)

Lemma starts_clean_app (a b : pystr) :
  a <> [] -> starts_clean a -> starts_clean (a ++ b).
Proof. destruct a; [congruence|auto]. Qed.

Lemma body_line_clean (l : pystr) :
  body_line l -> l <> [] /\ starts_clean l /\ starts_clean (rev l).
Proof.
  intros (_ & Hne & Hs & _). split; [exact Hne|]. rewrite <- Hs. unfold Str.strip. split.
  - apply lstrip_starts_clean.
  - apply lstrip_keeps_end, rstrip_ends_clean.
Qed.

Lemma join_clean (lines : list pystr) :
  lines <> [] -> Forall body_line lines ->
  Str.join NL lines <> [] /\
  starts_clean (Str.join NL lines) /\ starts_clean (rev (Str.join NL lines)).
Proof.
  induction lines as [|l lines IH]; intros Hne Hall; [congruence|].
  inversion Hall as [|? ? Hl Hrest]; subst.
  destruct (body_line_clean l Hl) as (Hl0 & Hl1 & Hl2).
  destruct lines as [|l2 lines]; [cbn [Str.join]; now repeat split|].
  destruct IH as (HJ0 & HJ1 & HJ2); [discriminate|exact Hrest|].
  change (Str.join NL (l :: l2 :: lines))
    with (l ++ NL ++ Str.join NL (l2 :: lines)).
  set (J := Str.join NL (l2 :: lines)) in *.
  repeat split.
  - destruct l; [congruence|discriminate].
  - now apply starts_clean_app.
  - rewrite !rev_app_distr, <- app_assoc. apply starts_clean_app; [|exact HJ2].
    intros H. apply HJ0. rewrite <- (rev_involutive J), H. reflexivity.
Qed.

Lemma built_from_lines_trimmed (p : pystr) : built_from_lines p -> Str.strip p = p.
Proof.
  intros (lines & Hne & -> & Hall).
  destruct (join_clean lines Hne Hall) as (_ & H1 & H2). now apply strip_clean.
Qed.

(** *** Lines have no newline *)

Lemma one_line_app (a b : pystr) :
  one_line (a ++ b) = true <-> one_line a = true /\ one_line b = true.
Proof. unfold one_line. rewrite forallb_app. apply andb_true_iff. Qed.

Lemma one_line_rev (s : pystr) : one_line s = true -> one_line (rev s) = true.
Proof.
  unfold one_line. rewrite !forallb_forall. intros H c Hc.
  apply H. now apply in_rev.
Qed.

Lemma one_line_lstrip (s : pystr) : one_line s = true -> one_line (Str.lstrip s) = true.
Proof.
  destruct (lstrip_suffix s) as [pre H]. intros Hs.
  rewrite H in Hs. now apply one_line_app in Hs.
Qed.

Lemma one_line_strip (s : pystr) : one_line s = true -> one_line (Str.strip s) = true.
Proof.
  intros H. unfold Str.strip, Str.rstrip.
  apply one_line_lstrip, one_line_rev, one_line_lstrip, one_line_rev, H.
Qed.

Lemma startswith_nil (s : pystr) : Str.startswith s [] = true.
Proof. destruct s; reflexivity. Qed.

Lemma startswith_NL (c : N) (s : pystr) :
  Str.startswith (c :: s) NL = (c =? Str.LF)%N.
Proof.
  unfold NL. cbn [Str.startswith]. now rewrite startswith_nil, andb_true_r.
Qed.

(** The pieces of [s.split('\n')] have no newline. *)
Lemma split_lines_one_line (s : pystr) :
  Forall (fun l => one_line l = true) (Str.split NL s).
Proof.
  unfold Str.split.
  assert (G : forall skip cur, one_line cur = true ->
                Forall (fun l => one_line l = true) (Str.split_from NL s skip cur)).
  { induction s as [|c s IH]; intros skip cur Hcur; cbn [Str.split_from].
    - constructor; [now apply one_line_rev|constructor].
    - destruct skip as [|k]; [|now apply IH].
      rewrite startswith_NL.
      destruct (c =? Str.LF)%N eqn:Hc.
      + constructor; [now apply one_line_rev|]. now apply IH.
      + apply IH. unfold one_line. cbn [forallb]. rewrite Hc. exact Hcur. }
  now apply G.
Qed.

(** Splitting at the newlines gives back the lines that were joined. *)
Lemma split_from_line (l rest cur : pystr) :
  one_line l = true ->
  Str.split_from NL (l ++ rest) 0 cur = Str.split_from NL rest 0 (rev l ++ cur).
Proof.
  revert cur. induction l as [|c l IH]; intros cur H; [reflexivity|].
  unfold one_line in H. cbn [forallb] in H. apply andb_true_iff in H as [Hc Hl].
  apply negb_true_iff in Hc.
  cbn [app Str.split_from]. rewrite startswith_NL, Hc.
  rewrite (IH (c :: cur) Hl). cbn [rev].
  now rewrite <- app_assoc.
Qed.

Lemma split_join_lines (lines : list pystr) :
  lines <> [] -> Forall (fun l => one_line l = true) lines ->
  Str.split NL (Str.join NL lines) = lines.
Proof.
  unfold Str.split.
  assert (G : forall cur,
             lines <> [] -> Forall (fun l => one_line l = true) lines ->
             Str.split_from NL (Str.join NL lines) 0 cur
               = (rev cur ++ hd [] lines) :: tl lines).
  { induction lines as [|l lines IH]; intros cur Hne Hall; [congruence|].
    inversion Hall as [|? ? Hl Hrest]; subst.
    destruct lines as [|l2 lines].
    - cbn [Str.join hd tl]. rewrite <- (app_nil_r l) at 1.
      rewrite (split_from_line l [] cur Hl). cbn [Str.split_from].
      now rewrite rev_app_distr, rev_involutive.
    - change (Str.join NL (l :: l2 :: lines))
        with (l ++ Str.LF :: Str.join NL (l2 :: lines)).
      rewrite (split_from_line l _ cur Hl).
      cbn [Str.split_from]. rewrite startswith_NL, N.eqb_refl. cbn [hd tl].
      rewrite rev_app_distr, rev_involutive.
      change (Nat.pred (List.length NL)) with 0.
      assert (Hne2 : l2 :: lines <> []) by discriminate.
      rewrite (IH [] Hne2 Hrest). reflexivity. }
  intros Hne Hall. rewrite (G [] Hne Hall).
  destruct lines; [congruence|reflexivity].
Qed.

Lemma built_from_lines_split (p : pystr) : built_from_lines p -> lines_are_body p.
Proof.
  intros (lines & Hne & -> & Hall). unfold lines_are_body.
  rewrite split_join_lines; [exact Hall|exact Hne|].
  eapply Forall_impl; [|exact Hall]. now intros l (H & _).
Qed.

Lemma flush_invariant (st : Sparse.seg_state) :
  seg_invariant st ->
  seg_invariant (Sparse.flush st) /\ snd (Sparse.flush st) = [].
Proof.
  destruct st as [paragraphs current_para]. intros [Hp Hc].
  unfold Sparse.flush.
  destruct current_para as [|l current_para]; cbn [fst snd].
  - split; [split; assumption|reflexivity].
  - split; [|reflexivity]. split; [|constructor]. cbn [fst].
    apply Forall_app. split; [exact Hp|]. constructor; [|constructor].
    exists (l :: current_para). split; [discriminate|]. split; [reflexivity|exact Hc].
Qed.

Lemma line_step_invariant (st : Sparse.seg_state) (line : pystr) :
  one_line line = true ->
  seg_invariant st -> seg_invariant (Sparse.line_step st line).
Proof.
  intros Hline Hst. unfold Sparse.line_step.
  destruct (Str.truthy (Str.strip line)) eqn:Ht; [|now apply flush_invariant].
  destruct (Re.match_ Sparse.heading_re (Str.strip line)) eqn:Hm;
    [now apply flush_invariant|].
  destruct Hst as [Hp Hc]. split; cbn [fst snd]; [exact Hp|].
  apply Forall_app. split; [exact Hc|]. constructor; [|constructor].
  repeat split.
  - now apply one_line_strip.
  - intros H. rewrite H in Ht. discriminate.
  - apply strip_idempotent.
  - exact Hm.
Qed.

Lemma lines_invariant (lines : list pystr) :
  Forall (fun l => one_line l = true) lines ->
  forall st, seg_invariant st -> seg_invariant (fold_left Sparse.line_step lines st).
Proof.
  induction lines as [|l lines IH]; intros Hall st Hst; cbn [fold_left]; [exact Hst|].
  inversion Hall as [|? ? Hl Hrest]; subst.
  apply (IH Hrest), line_step_invariant; assumption.
Qed.

Lemma section_step_invariant (paragraphs : list pystr) (section : pystr) :
  Forall built_from_lines paragraphs ->
  Forall built_from_lines (Sparse.section_step paragraphs section).
Proof.
  intros Hp. unfold Sparse.section_step.
  destruct (Str.truthy (Str.strip section)); [|exact Hp].
  apply flush_invariant, lines_invariant; [apply split_lines_one_line|].
  split; [exact Hp|constructor].
Qed.

(** Every paragraph that [verify_sparse_content] keeps is one or more
    lines joined by newlines, each a single line that is trimmed, not
    empty and no heading; so the lines of a kept paragraph, as splitting
    it at the newlines gives them, are all of this kind: headings and
    blank lines end paragraphs and are never part of one. *)
Theorem sparse_paragraphs_built_from_lines (content : pystr) :
  Forall (fun p => built_from_lines p /\ lines_are_body p)
         (Sparse.paragraphs_of content).
Proof.
  unfold Sparse.paragraphs_of.
  assert (H : forall sections paragraphs,
             Forall built_from_lines paragraphs ->
             Forall built_from_lines (fold_left Sparse.section_step sections paragraphs)).
  { induction sections as [|s sections IH]; intros paragraphs Hp; cbn [fold_left];
      [exact Hp|]. apply IH, section_step_invariant, Hp. }
  specialize (H (Re.split Sparse.blank_line_re (Str.strip content)) [] (Forall_nil _)).
  apply Forall_forall. intros p Hp.
  apply in_map_iff in Hp as (q & <- & Hq). apply filter_In in Hq as [Hq _].
  rewrite Forall_forall in H. specialize (H q Hq).
  rewrite (built_from_lines_trimmed q H).
  split; [exact H|now apply built_from_lines_split].
Qed.

(** A text with a heading, an empty line and a line of blanks inside it
    is not built from lines, trimmed though it is. *)
Lemma heading_inside_is_no_paragraph :
  Str.strip text_around_heading = text_around_heading /\
  ~ built_from_lines text_around_heading.
Proof.
  split; [vm_compute; reflexivity|].
  intros H. apply built_from_lines_split in H. unfold lines_are_body in H.
  assert (E : Str.split NL text_around_heading
              = [U "text"; U "# Heading"; []; U "   "; U "more"])
    by (vm_compute; reflexivity).
  rewrite E in H. rewrite Forall_forall in H.
  destruct (H [] ltac:(right; right; left; reflexivity)) as (_ & Hne & _).
  now apply Hne.
Qed.

(** ** The patterns at work *)

(** A greedy repetition takes a whole run of its class when what follows
    the run is not of the class and the rest of the pattern then matches. *)
Lemma many_takes_all (A : Type) (p : N -> bool) (s rest : pystr)
    (k : option N -> pystr -> option A) (a : A) :
  Forall (fun c => p c = true) s ->
  match rest with c :: _ => p c = false | [] => True end ->
  forall lo prev,
    (lo <= List.length s)%nat ->
    k (last_before prev s) rest = Some a ->
    Re.many p lo None prev (s ++ rest) k = Some a.
Proof.
  intros Hs Hrest. induction Hs as [|c s Hc Hs IH]; intros lo prev Hlo Hk.
  - cbn [List.length] in Hlo. assert (lo = 0%nat) by lia. subst lo.
    cbn [app last_before fold_left] in *.
    destruct rest as [|c rest]; cbn [Re.many]; [exact Hk|].
    rewrite Hrest. cbn [andb]. exact Hk.
  - cbn [app Re.many]. rewrite Hc. cbn [andb Re.may_repeat option_map].
    rewrite (IH (Nat.pred lo) (Some c)); [reflexivity| |exact Hk].
    cbn [List.length] in Hlo. lia.
Qed.

Lemma firstn_app_minus {A : Type} (a b : list A) :
  firstn (List.length (a ++ b) - List.length b) (a ++ b) = a.
Proof.
  rewrite length_app. replace (List.length a + List.length b - List.length b)%nat
    with (List.length a + 0)%nat by lia.
  rewrite firstn_app_2. cbn [firstn]. apply app_nil_r.
Qed.

Lemma free_of_all (chars : string) (s : pystr) :
  free_of chars s = true -> Forall (fun c => Re.none_of chars c = true) s.
Proof. intros H. apply Forall_forall. now apply forallb_forall. Qed.

(** The image pattern matches the text of an image reference at its
    start, whole, with the alt text as its group. *)
Lemma image_syntax_match (alt target : pystr) (prev : option N) :
  free_of "]" alt = true -> free_of ")" target = true -> target <> [] ->
  Re.match_at image_syntax_re prev (image_text alt target)
    = Some {| Re.whole := image_text alt target; Re.groups := [alt] |}.
Proof.
  intros Halt Htarget Hne.
  apply free_of_all in Halt. apply free_of_all in Htarget.
  unfold Re.match_at, image_syntax_re, image_text.
  change (U "![") with [chr "!"; chr "["].
  change (U "](") with [chr "]"; chr "("].
  change (U ")") with [chr ")"].
  cbn [app Re.run].
  change (Re.lit "!" (chr "!")) with true.
  change (Re.lit "[" (chr "[")) with true.
  cbv iota. unfold Re.star, Re.plus.
  apply many_takes_all; [exact Halt|reflexivity|cbn; lia|].
  cbn [app Re.run].
  change (Re.lit "]" (chr "]")) with true.
  change (Re.lit "(" (chr "(")) with true.
  cbv iota.
  apply many_takes_all; [exact Htarget|reflexivity| |].
  - destruct target; [congruence|cbn; lia].
  - change (Re.lit ")" (chr ")")) with true. cbv iota.
    f_equal. f_equal.
    + apply firstn_all2. cbn [List.length]. lia.
    + cbn [app]. f_equal.
      apply (firstn_app_minus alt (chr "]" :: chr "(" :: target ++ [chr ")"])).
Qed.

(** After a match that reaches the end of the text, nothing is left to
    scan, when the pattern does not match the empty text. *)
Lemma scan_to_the_end (r : Re.regex) :
  (forall prev, Re.match_at r prev [] = None) ->
  forall s prev, Re.scan r prev s (List.length s) = [].
Proof.
  intros Hr s. induction s as [|c s IH]; intros prev; cbn [List.length Re.scan].
  - now rewrite Hr.
  - apply IH.
Qed.

(** A text that one match covers gives that match and nothing else. *)
Lemma scan_one_match (r : Re.regex) (s : pystr) (groups : list pystr) :
  (forall prev, Re.match_at r prev [] = None) ->
  s <> [] ->
  Re.match_at r None s = Some {| Re.whole := s; Re.groups := groups |} ->
  Re.scan r None s 0 = [Re.Tmatch {| Re.whole := s; Re.groups := groups |}].
Proof.
  intros Hr Hne Hm. destruct s as [|c s]; [congruence|].
  cbn [Re.scan]. rewrite Hm. cbn [Re.whole List.length]. f_equal.
  now apply scan_to_the_end.
Qed.

Lemma split_one_line (s : pystr) : one_line s = true -> Str.split NL s = [s].
Proof.
  unfold Str.split, one_line. intros H.
  assert (G : forall cur, Str.split_from NL s 0 cur = [rev cur ++ s]).
  { induction s as [|c s IH]; intros cur; cbn [Str.split_from].
    - now rewrite app_nil_r.
    - cbn [forallb] in H. apply andb_true_iff in H as [Hc Hs].
      apply negb_true_iff in Hc.
      unfold NL at 1. cbn [Str.startswith]. rewrite Hc. cbn [andb].
      rewrite (IH Hs). cbn [rev]. now rewrite <- app_assoc. }
  apply G.
Qed.

Lemma one_line_image (alt target : pystr) :
  one_line alt = true -> one_line target = true ->
  one_line (image_text alt target) = true.
Proof.
  intros Ha Ht. unfold one_line, image_text in *.
  rewrite !forallb_app, Ha, Ht. reflexivity.
Qed.

Lemma image_text_stripped (alt target : pystr) :
  free_of "]" alt = true -> free_of ")" target = true -> target <> [] ->
  Re.sub_empty image_syntax_re (image_text alt target) = [].
Proof.
  intros Ha Ht Hne. unfold Re.sub_empty.
  rewrite (scan_one_match image_syntax_re (image_text alt target) [alt]).
  - reflexivity.
  - intros prev. reflexivity.
  - unfold image_text. change (U "![") with [chr "!"; chr "["]. discriminate.
  - now apply image_syntax_match.
Qed.

(** A line that is one image reference yields no issue of
    [verify_latex_formulas], whatever Greek letters, symbols or
    expressions its alt text and its target hold. *)
Theorem image_line_has_no_formula_issue (alt target : pystr) :
  free_of "]" alt = true -> free_of ")" target = true -> target <> [] ->
  one_line alt = true -> one_line target = true ->
  Latex.issues_of (image_text alt target) = [].
Proof.
  intros Ha Ht Hne Hla Hlt.
  rewrite latex_issues_three_passes. cbv zeta.
  rewrite (split_one_line _ (one_line_image alt target Hla Hlt)).
  cbn [enumerate flat_map app]. unfold occurrences, expression_at. cbn [fst snd].
  destruct (Latex.skipped (image_text alt target)); [reflexivity|].
  rewrite (image_text_stripped alt target Ha Ht Hne).
  vm_compute. reflexivity.
Qed.

Lemma image_line_has_no_formula_issue_witness :
  Latex.issues_of (image_text (U "α ≤ β, x_1 = 2") (U "/figures/α_1.png")) = [].
Proof.
  apply image_line_has_no_formula_issue; try (vm_compute; reflexivity).
  vm_compute. discriminate.
Defined.

Lemma image_pattern_match (alt target : pystr) (prev : option N) :
  free_of "]" alt = true -> free_of ")" target = true -> target <> [] ->
  Re.match_at Images.image_pattern prev (image_text alt target)
    = Some {| Re.whole := image_text alt target; Re.groups := [alt; target] |}.
Proof.
  intros Halt Htarget Hne.
  apply free_of_all in Halt. apply free_of_all in Htarget.
  unfold Re.match_at, Images.image_pattern, image_text.
  change (U "![") with [chr "!"; chr "["].
  change (U "](") with [chr "]"; chr "("].
  change (U ")") with [chr ")"].
  cbn [app Re.run].
  change (Re.lit "!" (chr "!")) with true.
  change (Re.lit "[" (chr "[")) with true.
  cbv iota. unfold Re.star, Re.plus.
  apply many_takes_all; [exact Halt|reflexivity|cbn; lia|].
  cbn [app Re.run].
  change (Re.lit "]" (chr "]")) with true.
  change (Re.lit "(" (chr "(")) with true.
  cbv iota.
  apply many_takes_all; [exact Htarget|reflexivity| |].
  - destruct target; [congruence|cbn; lia].
  - change (Re.lit ")" (chr ")")) with true. cbv iota.
    f_equal. f_equal.
    + apply firstn_all2. cbn [List.length]. lia.
    + cbn [app]. f_equal; [|f_equal].
      * apply (firstn_app_minus alt (chr "]" :: chr "(" :: target ++ [chr ")"])).
      * apply (firstn_app_minus target [chr ")"]).
Qed.

(** [verify_images] on the text of one image reference finds that image,
    with the alt text and the target as they are written, and judges it
    by the first failing check. *)
Theorem image_reference_found (fs : filesystem) (alt target md_file_path : pystr) :
  free_of "]" alt = true -> free_of ")" target = true -> target <> [] ->
  Images.images_of (image_text alt target) = [(alt, target)] /\
  Images.verify_images fs (image_text alt target) md_file_path =
    [ ("has_issues",
       VBool (0 <? len (ImagesSpec.verdict fs (alt, target)))%Z);
      ("issues", VIssues (ImagesSpec.verdict fs (alt, target)));
      ("images_found", VInt 1) ].
Proof.
  intros Ha Ht Hne.
  assert (H : Images.images_of (image_text alt target) = [(alt, target)]).
  { unfold Images.images_of, Re.findall.
    rewrite (scan_one_match Images.image_pattern (image_text alt target) [alt; target]).
    - reflexivity.
    - intros prev. reflexivity.
    - unfold image_text. change (U "![") with [chr "!"; chr "["]. discriminate.
    - now apply image_pattern_match. }
  split; [exact H|].
  unfold Images.verify_images. rewrite H. cbn [fold_left].
  rewrite image_step_verdict. reflexivity.
Qed.

Lemma image_reference_found_witness :
  Images.images_of (image_text (U "web") (U "https://example.com/image.png"))
    = [(U "web", U "https://example.com/image.png")] /\
  Images.verify_images one_document
      (image_text (U "web") (U "https://example.com/image.png")) (U "/paper.md") =
    [ ("has_issues",
       VBool (0 <? len (ImagesSpec.verdict one_document
                          (U "web", U "https://example.com/image.png")))%Z);
      ("issues", VIssues (ImagesSpec.verdict one_document
                            (U "web", U "https://example.com/image.png")));
      ("images_found", VInt 1) ].
Proof.
  apply image_reference_found; try (vm_compute; reflexivity).
  vm_compute. discriminate.
Defined.

Lemma citation_pattern_match (key : pystr) (prev : option N) :
  free_of "]" key = true -> key <> [] ->
  Re.match_at Citations.citation_pattern prev (citation_text key)
    = Some {| Re.whole := citation_text key; Re.groups := [key] |}.
Proof.
  intros Hkey Hne. apply free_of_all in Hkey.
  unfold Re.match_at, Citations.citation_pattern, citation_text.
  change (U "[@") with [chr "["; chr "@"].
  change (U "]") with [chr "]"].
  cbn [app Re.run].
  change (Re.lit "[" (chr "[")) with true.
  change (Re.lit "@" (chr "@")) with true.
  cbv iota. unfold Re.plus.
  apply many_takes_all; [exact Hkey|reflexivity| |].
  - destruct key; [congruence|cbn; lia].
  - change (Re.lit "]" (chr "]")) with true. cbv iota.
    f_equal. f_equal.
    + apply firstn_all2. cbn [List.length]. lia.
    + cbn [app]. f_equal. apply (firstn_app_minus key [chr "]"]).
Qed.

(** [verify_citations] on the text of one citation marker finds that
    citation with its key: one citation, one unique citation. *)
Theorem citation_marker_found (fs : filesystem) (key : pystr)
    (bib_file_path : option pystr) :
  free_of "]" key = true -> key <> [] ->
  Citations.citations_of (citation_text key) = [key] /\
  dict_get "citations_found"
    (Citations.verify_citations fs (citation_text key) bib_file_path)
    = Some (VInt 1) /\
  dict_get "unique_citations"
    (Citations.verify_citations fs (citation_text key) bib_file_path)
    = Some (VInt 1).
Proof.
  intros Hkey Hne.
  assert (H : Citations.citations_of (citation_text key) = [key]).
  { unfold Citations.citations_of, Re.findall.
    rewrite (scan_one_match Citations.citation_pattern (citation_text key) [key]).
    - reflexivity.
    - intros prev. reflexivity.
    - unfold citation_text. change (U "[@") with [chr "["; chr "@"]. discriminate.
    - now apply citation_pattern_match. }
  split; [exact H|].
  unfold Citations.verify_citations. rewrite H. split; reflexivity.
Qed.

Lemma citation_marker_found_witness :
  Citations.citations_of (citation_text (U "knuth1984")) = [U "knuth1984"] /\
  dict_get "citations_found"
    (Citations.verify_citations one_document (citation_text (U "knuth1984")) None)
    = Some (VInt 1) /\
  dict_get "unique_citations"
    (Citations.verify_citations one_document (citation_text (U "knuth1984")) None)
    = Some (VInt 1).
Proof.
  apply citation_marker_found; [vm_compute; reflexivity|vm_compute; discriminate].
Defined.

(** What a greedy repetition that leads to a match has taken: a run of
    its class, long enough, before the text on which the rest of the
    pattern matched. *)
Lemma many_inv (A : Type) (p : N -> bool) (k : option N -> pystr -> option A) (a : A) :
  forall s lo hi prev,
    Re.many p lo hi prev s k = Some a ->
    exists taken rest,
      s = taken ++ rest /\
      Forall (fun c => p c = true) taken /\
      (lo <= List.length taken)%nat /\
      k (last_before prev taken) rest = Some a.
Proof.
  assert (Hstop : forall s lo prev,
             match lo with O => k prev s | S _ => None end = Some a ->
             exists taken rest,
               s = taken ++ rest /\ Forall (fun c => p c = true) taken /\
               (lo <= List.length taken)%nat /\
               k (last_before prev taken) rest = Some a).
  { intros s lo prev H. destruct lo; [|discriminate].
    exists [], s. repeat split; [constructor|reflexivity|exact H]. }
  induction s as [|c s IH]; intros lo hi prev H; cbn [Re.many] in H.
  - now apply Hstop.
  - destruct (p c && Re.may_repeat hi) eqn:Hc; [|now apply Hstop].
    destruct (Re.many p (Nat.pred lo) (option_map Nat.pred hi) (Some c) s k)
      as [a'|] eqn:Hm; [|now apply Hstop].
    injection H as ->.
    apply IH in Hm as (taken & rest & -> & Hall & Hlo & Hk).
    exists (c :: taken), rest. repeat split.
    + constructor; [now apply andb_true_iff in Hc|exact Hall].
    + cbn [List.length]. lia.
    + exact Hk.
Qed.

(** Every match that a scan reports is a match of the pattern at some
    position. *)
Lemma scan_matches (r : Re.regex) (m : Re.pymatch) :
  forall s prev skip,
    In m (Re.matches_of (Re.scan r prev s skip)) ->
    exists prev' s', Re.match_at r prev' s' = Some m.
Proof.
  induction s as [|c s IH]; intros prev skip H.
  - destruct skip; cbn [Re.scan] in H; [|destruct H].
    destruct (Re.match_at r prev []) as [m'|] eqn:E; cbn [Re.matches_of] in H.
    + destruct H as [<-|[]]. eauto.
    + destruct H.
  - destruct skip as [|skip]; cbn [Re.scan] in H; [|eapply IH; exact H].
    destruct (Re.match_at r prev (c :: s)) as [m'|] eqn:E.
    + cbn [Re.matches_of] in H. destruct H as [<-|H]; [eauto|].
      destruct (List.length (Re.whole m')); cbn [Re.matches_of] in H;
        eapply IH; exact H.
    + cbn [Re.matches_of] in H. eapply IH; exact H.
Qed.

Lemma all_free_of (chars : string) (s : pystr) :
  Forall (fun c => Re.none_of chars c = true) s -> free_of chars s = true.
Proof. intros H. apply forallb_forall. now apply Forall_forall. Qed.

Lemma firstn_exactly {A : Type} (a b : list A) (n : nat) :
  n = List.length a -> firstn n (a ++ b) = a.
Proof.
  intros ->. replace (List.length a) with (List.length a + 0)%nat by lia.
  rewrite firstn_app_2. cbn [firstn]. apply app_nil_r.
Qed.

(** ** The spans that [verify_citations] looks at *)

Lemma invalid_match_form (prev : option N) (s : pystr) (m : Re.pymatch) :
  Re.match_at Citations.invalid_citation_pattern prev s = Some m ->
  exists inner,
    Re.whole m = U "[" ++ inner ++ U "]" /\ free_of "]" inner = true.
Proof.
  unfold Re.match_at, Citations.invalid_citation_pattern, Re.star.
  cbn [Re.run]. destruct s as [|c s]; [discriminate|].
  destruct (Re.lit "[" c) eqn:Hc; [|discriminate].
  apply N.eqb_eq in Hc. subst c.
  destruct (match s with
            | [] => None
            | c :: s' => if Re.lit "@" c then Some tt else None
            end); [discriminate|].
  intros H. apply many_inv in H as (taken & rest & -> & Hall & _ & Hk).
  destruct rest as [|c rest]; [discriminate|].
  destruct (Re.lit "]" c) eqn:Hc; [|discriminate].
  apply N.eqb_eq in Hc. subst c. injection Hk as <-. cbn [Re.whole].
  exists taken. split; [|now apply all_free_of].
  change (U "[") with [chr "["]. change (U "]") with [chr "]"]. cbn [app].
  assert (E : chr "[" :: taken ++ chr "]" :: rest
              = (chr "[" :: taken ++ [chr "]"]) ++ rest)
    by (cbn [app]; now rewrite <- app_assoc).
  rewrite E. apply firstn_exactly.
  cbn [List.length]. rewrite !length_app. cbn [List.length].
  destruct (List.length rest); lia.
Qed.

(** The numeric exclusion of [verify_citations] never applies: every
    bracketed span that the analyzer looks at is the whole match, an
    opening bracket, a content without closing bracket, and a closing
    bracket, so [isdigit] is false of it, and the span is reported exactly
    when it does not contain "http". *)
Theorem bracket_spans_flagged_unless_http (content : pystr) :
  Forall (fun invalid =>
            (exists inner,
                invalid = U "[" ++ inner ++ U "]" /\ free_of "]" inner = true) /\
            Str.isdigit invalid = false /\
            Citations.flagged invalid = negb (Str.contains (U "http") invalid))
         (Citations.invalid_citations_of content).
Proof.
  apply Forall_forall. intros invalid H.
  unfold Citations.invalid_citations_of, Re.findall in H.
  apply in_map_iff in H as (m & <- & Hm).
  apply scan_matches in Hm as (prev & s & Hm).
  apply invalid_match_form in Hm as (inner & Hw & Hf).
  assert (Hd : Str.isdigit (Re.whole m) = false) by (rewrite Hw; reflexivity).
  split; [now exists inner|]. split; [exact Hd|].
  unfold Citations.flagged. rewrite Hd. now rewrite orb_false_r.
Qed.

(** ** The keys and the images that the patterns extract *)

Lemma citation_match_form (prev : option N) (s : pystr) (m : Re.pymatch) :
  Re.match_at Citations.citation_pattern prev s = Some m ->
  exists key,
    Re.groups m = [key] /\ 
    Re.whole m = U "[@" ++ key ++ U "]" /\
    (0 < List.length key)%nat /\ free_of "]" key = true.
Proof.
  unfold Re.match_at, Citations.citation_pattern, Re.plus.
  cbn [Re.run]. destruct s as [|c s]; [discriminate|].
  destruct (Re.lit "[" c) eqn:Hc; [|discriminate].
  apply N.eqb_eq in Hc. subst c.
  destruct s as [|c s]; [discriminate|].
  destruct (Re.lit "@" c) eqn:Hc; [|discriminate].
  apply N.eqb_eq in Hc. subst c.
  intros H. apply many_inv in H as (taken & rest & -> & Hall & Hlo & Hk).
  destruct rest as [|c rest]; [discriminate|].
  destruct (Re.lit "]" c) eqn:Hc; [|discriminate].
  apply N.eqb_eq in Hc. subst c.
  assert (Hg : firstn (List.length (taken ++ chr "]" :: rest)
                       - List.length (chr "]" :: rest))
                      (taken ++ chr "]" :: rest) = taken)
    by apply firstn_app_minus.
  assert (Hw : firstn (List.length (chr "[" :: chr "@" :: taken ++ chr "]" :: rest)
                       - List.length rest)
                      (chr "[" :: chr "@" :: taken ++ chr "]" :: rest)
               = chr "[" :: chr "@" :: taken ++ [chr "]"]).
  { assert (E : chr "[" :: chr "@" :: taken ++ chr "]" :: rest
                = (chr "[" :: chr "@" :: taken ++ [chr "]"]) ++ rest)
      by (cbn [app]; now rewrite <- app_assoc).
    rewrite E. apply firstn_app_minus. }
  rewrite Hg, Hw in Hk. injection Hk as <-. cbn [Re.whole Re.groups app].
  exists taken. repeat split; [exact Hlo|now apply all_free_of].
Qed.

Lemma image_match_form (prev : option N) (s : pystr) (m : Re.pymatch) :
  Re.match_at Images.image_pattern prev s = Some m ->
  exists alt_text img_path,
    Re.groups m = [alt_text; img_path] /\
    Re.whole m = U "![" ++ alt_text ++ U "](" ++ img_path ++ U ")" /\
    free_of "]" alt_text = true /\
    (0 < List.length img_path)%nat /\ free_of ")" img_path = true.
Proof.
  unfold Re.match_at, Images.image_pattern, Re.plus, Re.star.
  cbn [Re.run]. destruct s as [|c s]; [discriminate|].
  destruct (Re.lit "!" c) eqn:Hc; [|discriminate].
  apply N.eqb_eq in Hc. subst c.
  destruct s as [|c s]; [discriminate|].
  destruct (Re.lit "[" c) eqn:Hc; [|discriminate].
  apply N.eqb_eq in Hc. subst c.
  intros H. apply many_inv in H as (alt & rest & -> & Halt & _ & Hk).
  destruct rest as [|c rest]; [discriminate|].
  destruct (Re.lit "]" c) eqn:Hc; [|discriminate].
  apply N.eqb_eq in Hc. subst c.
  destruct rest as [|c rest]; [discriminate|].
  destruct (Re.lit "(" c) eqn:Hc; [|discriminate].
  apply N.eqb_eq in Hc. subst c.
  apply many_inv in Hk as (path & rest' & -> & Hpath & Hlo & Hk).
  destruct rest' as [|c rest]; [discriminate|].
  destruct (Re.lit ")" c) eqn:Hc; [|discriminate].
  apply N.eqb_eq in Hc. subst c.
  assert (Ha : firstn (List.length (alt ++ chr "]" :: chr "(" :: path ++ chr ")" :: rest)
                       - List.length (chr "]" :: chr "(" :: path ++ chr ")" :: rest))
                      (alt ++ chr "]" :: chr "(" :: path ++ chr ")" :: rest) = alt)
    by apply firstn_app_minus.
  assert (Hp : firstn (List.length (path ++ chr ")" :: rest)
                       - List.length (chr ")" :: rest))
                      (path ++ chr ")" :: rest) = path)
    by apply firstn_app_minus.
  assert (Hw : firstn (List.length (chr "!" :: chr "[" :: alt ++ chr "]" :: chr "("
                                      :: path ++ chr ")" :: rest)
                       - List.length rest)
                      (chr "!" :: chr "[" :: alt ++ chr "]" :: chr "("
                         :: path ++ chr ")" :: rest)
               = chr "!" :: chr "[" :: alt ++ chr "]" :: chr "(" :: path ++ [chr ")"]).
  { assert (E : chr "!" :: chr "[" :: alt ++ chr "]" :: chr "(" :: path ++ chr ")" :: rest
                = (chr "!" :: chr "[" :: alt ++ chr "]" :: chr "(" :: path ++ [chr ")"])
                    ++ rest).
    { cbn [app]. do 2 f_equal. rewrite <- app_assoc. cbn [app]. do 3 f_equal.
      now rewrite <- app_assoc. }
    rewrite E. apply firstn_app_minus. }
  rewrite Ha, Hp, Hw in Hk. injection Hk as <-. cbn [Re.whole Re.groups app].
  exists alt, path. repeat split;
    [now apply all_free_of|exact Hlo|now apply all_free_of].
Qed.

(** Every key that [verify_citations] extracts is the text between the
    marker's at sign and its closing bracket: it is not empty and has no
    closing bracket in it. *)
Theorem citation_keys_nonempty (content : pystr) :
  Forall (fun citation =>
            (0 < len citation)%Z /\ free_of "]" citation = true)
         (Citations.citations_of content).
Proof.
  apply Forall_forall. intros citation H.
  unfold Citations.citations_of, Re.findall in H.
  apply in_map_iff in H as (m & <- & Hm).
  apply scan_matches in Hm as (prev & s & Hm).
  apply citation_match_form in Hm as (key & Hg & _ & Hlen & Hf).
  unfold Re.group. rewrite Hg. cbn [nth].
  split; [unfold len; lia|exact Hf].
Qed.

(** Every image that [verify_images] extracts has an alternative text
    without closing bracket and a target that is not empty and has no
    closing parenthesis in it. *)
Theorem image_parts_form (content : pystr) :
  Forall (fun image =>
            free_of "]" (fst image) = true /\
            (0 < len (snd image))%Z /\ free_of ")" (snd image) = true)
         (Images.images_of content).
Proof.
  apply Forall_forall. intros image H.
  unfold Images.images_of, Re.findall in H.
  apply in_map_iff in H as (m & <- & Hm).
  apply scan_matches in Hm as (prev & s & Hm).
  apply image_match_form in Hm as (alt & path & Hg & _ & Ha & Hlen & Hp).
  unfold Re.group. rewrite Hg. cbn [nth fst snd].
  repeat split; [exact Ha|unfold len; lia|exact Hp].
Qed.
